(** * Rigol DAQ scripts: the SCPI transaction protocol and the waveform-block codec

    A shallow embedding of the three acquisition scripts of the repository,

      - [rigolDAQ.py]              (module [Basic]),
      - [rigolDAQ_max_mode.py]     (module [MaxMode]),
      - [rigolDAQ_normal_mode.py]  (module [NormalMode]),

    over an explicit model of the TCP socket they talk to.  The Python
    built-ins the scripts rely on ([bytes.find], slicing, [bytes.decode],
    [str.strip], [int]) are embedded as executable functions; [float] and the
    Unicode decimal table of the interpreter are fields of [PyRuntime].
    [print] calls and the CSV/plot output are left out. *)

From Stdlib Require Import ZArith List Bool Lia String Ascii.
From Stdlib Require Import Floats Uint63 DecimalString.
From Stdlib.Strings Require Import Byte.
Import ListNotations.

Open Scope string_scope.
Open Scope list_scope.
Open Scope Z_scope.

(* ================================================================== *)
(** ** Python values: bytes, text, slicing *)

Definition bytes := list byte.

(** Text ([str]) is a list of Unicode code points. *)
Definition text := list Z.

Definition ord (b : byte) : Z := Z.of_N (Byte.to_N b).

Definition len {A} (l : list A) : Z := Z.of_nat (List.length l).

(** [b"..."] literals of the scripts. *)
Definition b_ (s : string) : bytes := list_byte_of_string s.

(** ['...'] text literals of the scripts (ASCII only). *)
Definition s_ (s : string) : text := map ord (list_byte_of_string s).

(** The marker byte [b'#']. *)
Definition hash : byte := x23.

(** [data.find(b'#')]: index of the first occurrence, [-1] when absent. *)
Fixpoint find (c : byte) (data : bytes) : Z :=
  match data with
  | [] => -1
  | b :: rest =>
      if Byte.eqb b c then 0
      else let r := find c rest in if r <? 0 then -1 else r + 1
  end.

(** Python clamps slice bounds: a negative bound counts from the end. *)
Definition clamp (n i : Z) : Z :=
  if i <? 0 then Z.max 0 (n + i) else Z.min i n.

(** [data[lo:hi]] *)
Definition slice {A} (data : list A) (lo hi : Z) : list A :=
  let n := len data in
  let l := clamp n lo in
  let h := clamp n hi in
  firstn (Z.to_nat (h - l)) (skipn (Z.to_nat l) data).

(** [data[lo:]] *)
Definition slice_from {A} (data : list A) (lo : Z) : list A :=
  skipn (Z.to_nat (clamp (len data) lo)) data.

(** [data[:hi]] *)
Definition slice_to {A} (data : list A) (hi : Z) : list A :=
  firstn (Z.to_nat (clamp (len data) hi)) data.

(* ------------------------------------------------------------------ *)
(** *** [bytes.decode()]: strict UTF-8 *)

Definition is_cont (b : byte) : bool := (128 <=? ord b) && (ord b <=? 191).

Definition cont_bits (b : byte) : Z := ord b - 128.

(** [None] stands for [UnicodeDecodeError]. *)
Fixpoint utf8_decode (bs : bytes) : option text :=
  match bs with
  | [] => Some []
  | b0 :: t0 =>
      let v0 := ord b0 in
      if v0 <? 128 then option_map (cons v0) (utf8_decode t0)
      else if (194 <=? v0) && (v0 <=? 223) then
        match t0 with
        | b1 :: t1 =>
            if is_cont b1
            then option_map (cons ((v0 - 192) * 64 + cont_bits b1)) (utf8_decode t1)
            else None
        | _ => None
        end
      else if (224 <=? v0) && (v0 <=? 239) then
        match t0 with
        | b1 :: b2 :: t2 =>
            if is_cont b1 && is_cont b2
               && (negb (v0 =? 224) || (160 <=? ord b1))
               && (negb (v0 =? 237) || (ord b1 <=? 159))
            then option_map
                   (cons ((v0 - 224) * 4096 + cont_bits b1 * 64 + cont_bits b2))
                   (utf8_decode t2)
            else None
        | _ => None
        end
      else if (240 <=? v0) && (v0 <=? 244) then
        match t0 with
        | b1 :: b2 :: b3 :: t3 =>
            if is_cont b1 && is_cont b2 && is_cont b3
               && (negb (v0 =? 240) || (144 <=? ord b1))
               && (negb (v0 =? 244) || (ord b1 <=? 143))
            then option_map
                   (cons ((v0 - 240) * 262144 + cont_bits b1 * 4096
                          + cont_bits b2 * 64 + cont_bits b3))
                   (utf8_decode t3)
            else None
        | _ => None
        end
      else None
  end.

(* ------------------------------------------------------------------ *)
(** *** [str.strip()] *)

(** [str.isspace] of one code point (the interpreter's whitespace table). *)
Definition isspace (c : Z) : bool :=
  ((9 <=? c) && (c <=? 13)) || ((28 <=? c) && (c <=? 32))
  || (c =? 133) || (c =? 160) || (c =? 5760)
  || ((8192 <=? c) && (c <=? 8202))
  || (c =? 8232) || (c =? 8233) || (c =? 8239) || (c =? 8287) || (c =? 12288).

Fixpoint lstrip (s : text) : text :=
  match s with
  | c :: rest => if isspace c then lstrip rest else s
  | [] => []
  end.

Definition strip (s : text) : text := rev (lstrip (rev (lstrip s))).

(* ------------------------------------------------------------------ *)
(** *** [int(str)] in base 10 *)

(** What the interpreter supplies and the scripts do not define. *)
Class PyRuntime := {
  (** [float(s)]: [None] stands for [ValueError]. *)
  float_of_text : text -> option float;
  (** Decimal value of a code point above 127 in the interpreter's Unicode
      database, [None] when it is not a decimal digit. *)
  unicode_todecimal : Z -> option Z;
  (** [float('')] raises [ValueError]. *)
  float_of_empty : float_of_text [] = None
}.

(** The C-level [Py_ISSPACE]. *)
Definition c_isspace (c : Z) : bool := ((9 <=? c) && (c <=? 13)) || (c =? 32).

Definition is_digit (c : Z) : bool := (48 <=? c) && (c <=? 57).

Definition underscore : Z := 95.

Fixpoint c_lstrip (s : text) : text :=
  match s with
  | c :: rest => if c_isspace c then c_lstrip rest else s
  | [] => []
  end.

(** Digits with single underscores between them: the number of digits, their
    value and the rest of the text; [None] on a doubled or trailing
    underscore. *)
Fixpoint scan_digits (prev : Z) (count acc : Z) (s : text)
  : option (Z * Z * text) :=
  match s with
  | c :: rest =>
      if is_digit c then scan_digits c (count + 1) (10 * acc + (c - 48)) rest
      else if c =? underscore then
        if prev =? underscore then None else scan_digits c count acc rest
      else if prev =? underscore then None else Some (count, acc, s)
  | [] => if prev =? underscore then None else Some (count, acc, [])
  end.

(** The interpreter refuses to convert a numeral of more digits than this
    ([sys.get_int_max_str_digits()], 4300 unless it is reconfigured). *)
Definition max_str_digits : Z := 4300.

(** The parser of an ASCII numeral: spaces, sign, digits, spaces, end. *)
Definition long_from_string (s : text) : option Z :=
  let s1 := c_lstrip s in
  let '(sign, s2) :=
    match s1 with
    | 43 :: r => (1, r)
    | 45 :: r => (-1, r)
    | _ => (1, s1)
    end in
  match s2 with
  | 95 :: _ => None
  | _ =>
      match scan_digits 0 0 0 s2 with
      | Some (count, v, rest) =>
          if count =? 0 then None
          else if max_str_digits <? count then None
          else match c_lstrip rest with
               | [] => Some (sign * v)
               | _ => None
               end
      | None => None
      end
  end.

Section Runtime.
Context `{PyRuntime}.

(** Code points above 126 are rewritten before parsing: spaces to [' '],
    decimal digits to ASCII digits, anything else to ['?'], which ends the
    text. *)
Fixpoint transform_decimal_and_space (s : text) : text :=
  match s with
  | [] => []
  | c :: rest =>
      if c <? 127 then c :: transform_decimal_and_space rest
      else if isspace c then 32 :: transform_decimal_and_space rest
      else if c <? 128 then [63]
      else match unicode_todecimal c with
           | Some d => (48 + d) :: transform_decimal_and_space rest
           | None => [63]
           end
  end.

Definition is_ascii (s : text) : bool := forallb (fun c => c <? 128) s.

(** [int(s)]: [None] stands for [ValueError]. *)
Definition int_of_text (s : text) : option Z :=
  long_from_string (if is_ascii s then s else transform_decimal_and_space s).
End Runtime.

(* ================================================================== *)
(** ** The socket and the clock *)

(** Python exceptions the scripts raise or meet. [InvalidLiteral] and
    [UnicodeDecodeError] are subclasses of [ValueError] in Python;
    [BrokenPipeError] and [ConnectionResetError], which a write to a
    connection that is gone raises, are subclasses of [ConnectionError]. *)
Inductive exn :=
| ValueError (msg : string)
| InvalidLiteral
| UnicodeDecodeError
| SocketTimeout
| BlockingIOError
| ConnectionError (msg : string)
| BrokenPipeError
| ConnectionResetError
| RuntimeError (msg : string)
| TimeoutError (msg : string).

(** [s.settimeout(None)], [s.settimeout(0)] and [s.settimeout(t)]; times are
    in milliseconds. *)
Inductive so_mode := Blocking | NonBlocking | Timed (ms : Z).

(** What the script does to the outside, in order. *)
Inductive event :=
| Sent (cmd : string)
| Recv (bufsize : Z)
| Slept (ms : Z).

(** A segment of the incoming byte stream: the bytes one [recv] may return
    at once, and how long a [recv] has to wait for them.  The cuts between
    the segments are the fragmentation of the response; a [recv] never
    returns bytes of two segments. *)
Definition segment := (Z * bytes)%type.

Record world := mkWorld {
  inbox : list segment;   (** what the instrument will deliver, in order *)
  eof : bool;             (** after [inbox]: peer closed, or silent for ever *)
  mode : so_mode;         (** the socket's timeout setting *)
  now : Z;                (** the clock read by [time.perf_counter] *)
  trace : list event      (** the events so far, oldest first *)
}.

Definition set_inbox (i : list segment) (w : world) : world :=
  mkWorld i (eof w) (mode w) (now w) (trace w).
Definition set_mode (m : so_mode) (w : world) : world :=
  mkWorld (inbox w) (eof w) m (now w) (trace w).
Definition log (e : event) (w : world) : world :=
  mkWorld (inbox w) (eof w) (mode w) (now w) (trace w ++ [e]).

(** Time passes: the clock advances and the head segment comes closer. *)
Definition elapse (d : Z) (w : world) : world :=
  mkWorld (match inbox w with
           | (g, bs) :: rest => (g - d, bs) :: rest
           | [] => []
           end)
          (eof w) (mode w) (now w + d) (trace w).

(** All bytes still to come. *)
Definition stream (w : world) : bytes := List.concat (map snd (inbox w)).

(** How a computation ends: a value, a Python exception, a system call that
    never returns, or a loop cut off by the fuel of the model. *)
Inductive outcome (A : Type) :=
| Ret (a : A)
| Raise (e : exn)
| Hang
| OutOfFuel.
Arguments Ret {A} a.
Arguments Raise {A} e.
Arguments Hang {A}.
Arguments OutOfFuel {A}.

Definition M (A : Type) := world -> outcome A * world.

Definition ret {A} (a : A) : M A := fun w => (Ret a, w).
Definition raise {A} (e : exn) : M A := fun w => (Raise e, w).
Definition out_of_fuel {A} : M A := fun w => (OutOfFuel, w).

Definition bind {A B} (m : M A) (k : A -> M B) : M B :=
  fun w => match m w with
           | (Ret a, w') => k a w'
           | (Raise e, w') => (Raise e, w')
           | (Hang, w') => (Hang, w')
           | (OutOfFuel, w') => (OutOfFuel, w')
           end.

Notation "x <- m ;; k" := (bind m (fun x => k))
  (at level 61, m at next level, right associativity).
Notation "m ;; k" := (bind m (fun _ => k))
  (at level 61, right associativity).
Notation "' pat <- m ;; k" := (bind m (fun x => match x with pat => k end))
  (at level 61, pat pattern, m at next level, right associativity).

(** [try: m  except <handled>: h]: [handler e = None] lets [e] through. *)
Definition try_except {A} (m : M A) (handler : exn -> option (M A)) : M A :=
  fun w => match m w with
           | (Raise e, w') =>
               match handler e with
               | Some h => h w'
               | None => (Raise e, w')
               end
           | r => r
           end.

(** [finally]: the clean-up runs whether the body returned or raised. *)
Definition finally {A} (m : M A) (cleanup : M unit) : M A :=
  fun w => match m w with
           | (Ret a, w') => (a' <- cleanup ;; ret a) w'
           | (Raise e, w') => (a' <- cleanup ;; raise e) w'
           | r => r
           end.

(** Lifting [option] results of the built-ins. *)
Definition or_raise {A} (e : exn) (o : option A) : M A :=
  match o with
  | Some a => ret a
  | None => raise e
  end.

(** How a write fails once the connection is gone. *)
Inductive fault := BrokenPipe | ConnectionReset.

Definition fault_exn (f : fault) : exn :=
  match f with
  | BrokenPipe => BrokenPipeError
  | ConnectionReset => ConnectionResetError
  end.

(** The far end of the connection as a write meets it: whether the write of
    [cmd] in the world [w] is refused, and how.  The world holds the clock
    and the whole trace, so a [Link] may refuse any write of a run and take
    any other. *)
Class Link := {
  write_fault : string -> world -> option fault
}.

(** The instrument that keeps the connection: it takes every write.
    Whatever is stated of a script without a [Link] of its own is stated of
    the script talking to this one. *)
#[export] Instance reliable : Link := {|
  write_fault := fun _ _ => None
|}.

(** [s.sendall(f'{cmd}\n'.encode())]: the command goes out, or the write
    raises and nothing is recorded as sent. *)
Definition sendall `{Link} (cmd : string) : M unit :=
  fun w => match write_fault cmd w with
           | Some f => (Raise (fault_exn f), w)
           | None => (Ret tt, log (Sent cmd) w)
           end.

(** The bytes handed out by one [recv] and what stays in the socket. *)
Definition take (n : Z) (bs : bytes) (rest : list segment)
  : bytes * list segment :=
  (firstn (Z.to_nat n) bs,
   match skipn (Z.to_nat n) bs with
   | [] => rest
   | more => (0, more) :: rest
   end).

(** [s.recv(n)]: up to [n] bytes of the head segment, once it is there.  A
    blocking socket waits for it, a socket with a timeout raises
    [socket.timeout] when the segment is further away than the timeout, a
    non-blocking one raises [BlockingIOError] unless the segment is there
    already.  After the last segment a closed peer gives the empty bytes and
    a silent one never answers. *)
Definition recv (n : Z) : M bytes :=
  fun w0 =>
    let w := log (Recv n) w0 in
    if n <? 0 then (Raise (ValueError "negative buffersize in recv"), w)
    else if n =? 0 then (Ret [], w)
    else
      match inbox w with
      | [] =>
          if eof w then (Ret [], w)
          else match mode w with
               | Blocking => (Hang, w)
               | NonBlocking => (Raise BlockingIOError, w)
               | Timed t => (Raise SocketTimeout, elapse t w)
               end
      | (g, bs) :: rest =>
          let deliver (w1 : world) :=
            let '(chunk, inbox') := take n bs rest in
            (Ret chunk, set_inbox inbox' w1) in
          match mode w with
          | Blocking => deliver (elapse (Z.max 0 g) w)
          | NonBlocking =>
              if g <=? 0 then deliver w else (Raise BlockingIOError, w)
          | Timed t =>
              if g <=? t then deliver (elapse (Z.max 0 g) w)
              else (Raise SocketTimeout, elapse t w)
          end
      end.

Definition settimeout (m : so_mode) : M unit :=
  fun w => (Ret tt, set_mode m w).

(** [time.sleep(ms)] *)
Definition sleep (ms : Z) : M unit :=
  fun w => (Ret tt, elapse ms (log (Slept ms) w)).

(** [time.perf_counter()] and [time.time()] *)
Definition perf_counter : M Z := fun w => (Ret (now w), w).

(** [bytes.decode()] and [float(...)] as steps of a script. *)
Definition decode (bs : bytes) : M text :=
  or_raise UnicodeDecodeError (utf8_decode bs).

Definition py_float `{PyRuntime} (s : text) : M float :=
  or_raise InvalidLiteral (float_of_text s).

(** [int(bs.decode())] *)
Definition parse_int `{PyRuntime} (bs : bytes) : exn + Z :=
  match utf8_decode bs with
  | None => inl UnicodeDecodeError
  | Some t =>
      match int_of_text t with
      | None => inl InvalidLiteral
      | Some n => inr n
      end
  end.

(** The two lines every script parses the block header with:
    [header_len = int(data[start + 1:start + 2].decode())] and
    [byte_count = int(data[start + 2:start + 2 + header_len].decode())]. *)
Definition read_header `{PyRuntime} (data : bytes) (start : Z)
  : exn + (Z * Z) :=
  match parse_int (slice data (start + 1) (start + 2)) with
  | inl e => inl e
  | inr header_len =>
      match parse_int (slice data (start + 2) (start + 2 + header_len)) with
      | inl e => inl e
      | inr byte_count => inr (header_len, byte_count)
      end
  end.

Definition lift {A} (r : exn + A) : M A :=
  match r with
  | inl e => raise e
  | inr a => ret a
  end.

(** [f'{n}'] of an integer. *)
Definition str_of_int (n : Z) : string :=
  NilZero.string_of_int (Z.to_int n).

(* ================================================================== *)
(** ** numpy: samples to voltages *)

(** [np.frombuffer(payload, dtype=np.uint8)], promoted to float64 by the
    first operation with a Python float. *)
Definition of_uint8 (b : byte) : float :=
  PrimFloat.of_uint63 (Uint63.of_Z (ord b)).

Definition frombuffer (payload : bytes) : list float := map of_uint8 payload.

(** [(raw - yorigin - yref) * yinc], one array operation after the other. *)
Definition scale (raw : list float) (yinc yorigin yref : float) : list float :=
  let a1 := map (fun x => PrimFloat.sub x yorigin) raw in
  let a2 := map (fun x => PrimFloat.sub x yref) a1 in
  map (fun x => PrimFloat.mul x yinc) a2.

Definition calibrate (payload : bytes) (yinc yorigin yref : float) : list float :=
  scale (frombuffer payload) yinc yorigin yref.

(** [np.arange(n)] of an integer: the int64 array [0, 1, ..., n-1], empty
    for [n <= 0].  The array is taken to fit in memory. *)
Definition arange (n : Z) : list Z := map Z.of_nat (seq 0 (Z.to_nat n)).

(** An index of the array (below [2^63]), promoted to float64 by the first
    operation with a Python float. *)
Definition of_index (i : Z) : float := PrimFloat.of_uint63 (Uint63.of_Z i).

(** [xorigin + np.arange(npts) * xinc], one array operation after the
    other. *)
Definition time_axis (npts : Z) (xinc xorigin : float) : list float :=
  let a1 := map (fun i => PrimFloat.mul (of_index i) xinc) (arange npts) in
  map (fun x => PrimFloat.add xorigin x) a1.

(** [a == b] on text. *)
Fixpoint text_eqb (a b : text) : bool :=
  match a, b with
  | [], [] => true
  | x :: a', y :: b' => (x =? y) && text_eqb a' b'
  | _, _ => false
  end.

Definition TD : text := s_ "TD".

(** The calibration of one channel: [yinc], [yorigin], [yref]. *)
Record calibration := mkCal { yinc : float; yorigin : float; yref : float }.

(* ================================================================== *)
(** ** rigolDAQ.py *)

Module Basic.
Section Script.
Context `{PyRuntime} `{Link}.

Definition send_command (cmd : string) : M unit := sendall cmd.

Definition receive_data (buffer_size : Z) : M bytes := recv buffer_size.

(** [float(receive_data().decode())] *)
Definition query_float (command : string) : M float :=
  send_command command ;;
  d <- receive_data 4096 ;;
  t <- decode d ;;
  py_float t.

(** Lines 56-62 of [get_waveform_data]: from the response buffer to the
    raw samples. *)
Definition decode_block (data : bytes) : M bytes :=
  let start_idx := find hash data in
  if start_idx =? -1 then raise (ValueError "Data block not found")
  else
    '(header_length, byte_count) <- lift (read_header data start_idx) ;;
    ret (slice data (start_idx + 2 + header_length)
               (start_idx + 2 + header_length + byte_count)).

Definition get_waveform_data (channel : Z) : M (list float) :=
  send_command "WAVeform:MODE NORMal" ;;
  send_command "WAVeform:FORMat BYTE" ;;
  send_command ("WAVeform:SOURce CHAN" ++ str_of_int channel) ;;
  voltage_increment <- query_float "WAVeform:YINC?" ;;
  voltage_origin <- query_float "WAVeform:YORigin?" ;;
  voltage_reference <- query_float "WAVeform:YREFerence?" ;;
  send_command "WAVeform:DATA?" ;;
  data <- receive_data 4096 ;;
  waveform_data <- decode_block data ;;
  ret (calibrate waveform_data voltage_increment voltage_origin
                 voltage_reference).

Definition arm_scope : M unit := send_command "TRIGger:SWEep SINGle".

Definition get_trigger_status : M text :=
  send_command "TRIGger:STATus?" ;;
  d <- receive_data 4096 ;;
  t <- decode d ;;
  ret (strip t).

(** Lines 109-112: [while True: if get_trigger_status() == 'TD': break;
    time.sleep(0.1)]. *)
Fixpoint wait_for_trigger (fuel : nat) : M unit :=
  match fuel with
  | O => out_of_fuel
  | S fuel' =>
      status <- get_trigger_status ;;
      if text_eqb status TD then ret tt
      else sleep 100 ;; wait_for_trigger fuel'
  end.

(** One pass of the [for itrg in range(n_trigs)] body, lines 108-119. *)
Definition acquire_one (fuel : nat) : M (list float * list float) :=
  wait_for_trigger fuel ;;
  voltage_ch3 <- get_waveform_data 3 ;;
  voltage_ch4 <- get_waveform_data 4 ;;
  arm_scope ;;
  ret (voltage_ch3, voltage_ch4).

Fixpoint acquire_loop (fuel : nat) (n_trigs : nat)
  : M (list (list float * list float)) :=
  match n_trigs with
  | O => ret []
  | S n =>
      r <- acquire_one fuel ;;
      rs <- acquire_loop fuel n ;;
      ret (r :: rs)
  end.

(** Lines 104-131. *)
Definition acquire (fuel : nat) (n_trigs : nat)
  : M (list (list float * list float)) :=
  arm_scope ;;
  acquire_loop fuel n_trigs.
End Script.
End Basic.

(* ================================================================== *)
(** ** rigolDAQ_max_mode.py *)

Module MaxMode.
Section Script.
Context `{PyRuntime} `{Link}.

Definition send_command (cmd : string) : M unit := sendall cmd.

(** The [while True] of [receive_data]; a [socket.timeout] ends it and
    keeps the chunks read so far. *)
Fixpoint receive_chunks (fuel : nat) (buffer_size : Z) (chunks : list bytes)
  : M bytes :=
  match fuel with
  | O => out_of_fuel
  | S fuel' =>
      r <- try_except (chunk <- recv buffer_size ;; ret (Some chunk))
             (fun e => match e with
                       | SocketTimeout => Some (ret None)
                       | _ => None
                       end) ;;
      match r with
      | None => ret (List.concat chunks)
      | Some [] => ret (List.concat chunks)
      | Some chunk =>
          let chunks' := chunks ++ [chunk] in
          if len chunk <? buffer_size then ret (List.concat chunks')
          else receive_chunks fuel' buffer_size chunks'
      end
  end.

Definition receive_data (fuel : nat) (buffer_size : Z) : M bytes :=
  settimeout (Timed 100) ;;
  receive_chunks fuel buffer_size [].

(** The [while len(received) < byte_count] of [receive_waveform_data]. *)
Fixpoint receive_more (fuel : nat) (byte_count buffer_size : Z)
         (received : bytes) : M bytes :=
  if len received <? byte_count then
    match fuel with
    | O => out_of_fuel
    | S fuel' =>
        chunk <- recv (Z.min buffer_size (byte_count - len received)) ;;
        match chunk with
        | [] => raise (ConnectionError
                         "Connection lost while receiving waveform data.")
        | _ => receive_more fuel' byte_count buffer_size (received ++ chunk)
        end
    end
  else ret received.

Definition receive_waveform_data (fuel : nat) (byte_count buffer_size : Z)
  : M bytes :=
  receive_more fuel byte_count buffer_size [].

(** One pass of the [try] body of [query_float]: [None] when the reply is
    empty, when it raises the handler turns it into [None] as well. *)
Definition query_float_try (fuel : nat) : M (option float) :=
  try_except
    (d <- receive_data fuel 4096 ;;
     t <- decode d ;;
     let resp := strip t in
     match resp with
     | [] => ret None
     | _ => v <- py_float resp ;; ret (Some v)
     end)
    (fun _ => Some (ret None)).

(** The [for i in range(retries)] of [query_float] and the [raise] behind
    it. *)
Fixpoint query_float_from (fuel : nat) (command : string) (retries : nat)
  : M float :=
  match retries with
  | O => raise (RuntimeError
                  ("Failed to get valid float response for command: "
                   ++ command))
  | S retries' =>
      send_command command ;;
      r <- query_float_try fuel ;;
      match r with
      | Some v => ret v
      | None => sleep 10 ;; query_float_from fuel command retries'
      end
  end.

Definition query_float (fuel : nat) (command : string) (retries : nat)
  : M float :=
  query_float_from fuel command retries.


(** Lines 134-140 of the main routine: the time axis. *)
Definition timebase (fuel : nat) : M (list float) :=
  send_command "WAVeform:SOURce CHAN3" ;;
  xinc <- query_float fuel "WAVeform:XINC?" 3 ;;
  xorigin <- query_float fuel "WAVeform:XORigin?" 3 ;;
  send_command "WAVeform:POINTs?" ;;
  sleep 20 ;;
  d <- receive_data fuel 4096 ;;
  t <- decode d ;;
  npts <- or_raise InvalidLiteral (int_of_text (strip t)) ;;
  ret (time_axis npts xinc xorigin).

(** Lines 71-80: [for attempt in range(3): ... else: raise]. *)
Fixpoint request_block (fuel : nat) (channel : Z) (attempts : nat)
  : M (bytes * Z) :=
  match attempts with
  | O => raise (ValueError ("No waveform data header found for channel "
                            ++ str_of_int channel))
  | S attempts' =>
      send_command "WAVeform:DATA?" ;;
      data <- receive_data fuel 4096 ;;
      let start := find hash data in
      if negb (start =? -1) then ret (data, start)
      else sleep 100 ;; request_block fuel channel attempts'
  end.

(** Lines 82-88: from the response buffer and the marker's index to the
    raw samples. *)
Definition decode_block (fuel : nat) (data : bytes) (start : Z) : M bytes :=
  '(header_len, byte_count) <- lift (read_header data start) ;;
  let waveform_data := slice_from data (start + 2 + header_len) in
  waveform_data <-
    (if len waveform_data <? byte_count then
       more <- receive_waveform_data fuel (byte_count - len waveform_data)
                 4096 ;;
       ret (waveform_data ++ more)
     else ret waveform_data) ;;
  ret (slice_to waveform_data byte_count).

Definition get_waveform_data (fuel : nat) (channel : Z) (c : calibration)
  : M (list float) :=
  send_command ("WAVeform:SOURce CHAN" ++ str_of_int channel) ;;
  '(data, start) <- request_block fuel channel 3 ;;
  raw <- decode_block fuel data start ;;
  ret (calibrate raw (yinc c) (yorigin c) (yref c)).

(** The [while True: _ = s.recv(4096)] of [flush_socket]. *)
Fixpoint drain (fuel : nat) : M unit :=
  match fuel with
  | O => out_of_fuel
  | S fuel' => recv 4096 ;; drain fuel'
  end.

Definition flush_socket (fuel : nat) : M unit :=
  settimeout NonBlocking ;;
  finally
    (try_except (drain fuel)
       (fun e => match e with
                 | BlockingIOError => Some (ret tt)
                 | _ => None
                 end))
    (settimeout Blocking).

Definition get_trigger_status (fuel : nat) : M text :=
  send_command "TRIGger:STATus?" ;;
  d <- receive_data fuel 4096 ;;
  t <- decode d ;;
  ret (strip t).

(** The [while True] of lines 173-178. *)
Fixpoint wait_loop (fuel : nat) (trigger_start : Z) : M unit :=
  match fuel with
  | O => out_of_fuel
  | S fuel' =>
      status <- get_trigger_status fuel ;;
      if text_eqb status TD then ret tt
      else
        t <- perf_counter ;;
        if t - trigger_start >? 10000
        then raise (TimeoutError "Timeout waiting for trigger")
        else sleep 100 ;; wait_loop fuel' trigger_start
  end.

(** Lines 171-178. *)
Definition wait_for_trigger (fuel : nat) : M unit :=
  trigger_start <- perf_counter ;;
  wait_loop fuel trigger_start.

(** One pass of the [for itrg in range(args.ntrig)] body, lines 166-188. *)
Definition acquire_one (fuel : nat) (c3 c4 : calibration)
  : M (list float * list float) :=
  flush_socket fuel ;;
  sleep 50 ;;
  send_command ":SINGle" ;;
  wait_for_trigger fuel ;;
  send_command ":STOP" ;;
  sleep 50 ;;
  voltage_ch3 <- get_waveform_data fuel 3 c3 ;;
  flush_socket fuel ;;
  voltage_ch4 <- get_waveform_data fuel 4 c4 ;;
  ret (voltage_ch3, voltage_ch4).

Fixpoint acquire_loop (fuel : nat) (c3 c4 : calibration) (ntrig : nat)
  : M (list (list float * list float)) :=
  match ntrig with
  | O => ret []
  | S n =>
      r <- acquire_one fuel c3 c4 ;;
      rs <- acquire_loop fuel c3 c4 n ;;
      ret (r :: rs)
  end.

(** Lines 161-194. *)
Definition acquire (fuel : nat) (c3 c4 : calibration) (ntrig : nat)
  : M (list (list float * list float)) :=
  send_command ":STOP" ;;
  send_command "TRIGger:SWEep SINGle" ;;
  acquire_loop fuel c3 c4 ntrig.
End Script.
End MaxMode.

(* ================================================================== *)
(** ** rigolDAQ_normal_mode.py *)

Module NormalMode.
Section Script.
Context `{PyRuntime} `{Link}.

Definition send_command (cmd : string) : M unit := sendall cmd.

Definition receive_data (buffer_size : Z) : M bytes := recv buffer_size.

Definition query (cmd : string) : M text :=
  send_command cmd ;;
  d <- receive_data 4096 ;;
  t <- decode d ;;
  ret (strip t).

Definition query_float (cmd : string) : M float :=
  t <- query cmd ;;
  py_float t.

Definition arm_scope : M unit := send_command ":SING".

(** The [while True] of [wait_for_trigger]. *)
Fixpoint wait_loop (fuel : nat) (timeout start : Z) : M unit :=
  match fuel with
  | O => out_of_fuel
  | S fuel' =>
      send_command "TRIGger:STATus?" ;;
      d <- receive_data 4096 ;;
      t <- decode d ;;
      let status := strip t in
      if text_eqb status TD then ret tt
      else
        t' <- perf_counter ;;
        if t' - start >? timeout
        then raise (TimeoutError "Trigger wait timeout.")
        else sleep 1 ;; wait_loop fuel' timeout start
  end.

Definition wait_for_trigger (fuel : nat) (timeout : Z) : M unit :=
  start <- perf_counter ;;
  wait_loop fuel timeout start.

Definition get_timebase : M (list float) :=
  send_command "WAVeform:SOURce CHAN3" ;;
  t <- query "WAVeform:POINTs?" ;;
  npts <- or_raise InvalidLiteral (int_of_text t) ;;
  xinc <- query_float "WAVeform:XINC?" ;;
  xorigin <- query_float "WAVeform:XORigin?" ;;
  ret (time_axis npts xinc xorigin).

Definition prepare_channel (channel : Z) : M calibration :=
  send_command ("WAVeform:SOURce CHAN" ++ str_of_int channel) ;;
  yinc <- query_float "WAVeform:YINC?" ;;
  yorigin <- query_float "WAVeform:YORigin?" ;;
  yref <- query_float "WAVeform:YREFerence?" ;;
  ret (mkCal yinc yorigin yref).

(** Lines 76-77: [while len(waveform_data) < byte_count: waveform_data +=
    receive_data(byte_count - len(waveform_data))]. *)
Fixpoint read_rest (fuel : nat) (byte_count : Z) (waveform_data : bytes)
  : M bytes :=
  if len waveform_data <? byte_count then
    match fuel with
    | O => out_of_fuel
    | S fuel' =>
        chunk <- receive_data (byte_count - len waveform_data) ;;
        read_rest fuel' byte_count (waveform_data ++ chunk)
    end
  else ret waveform_data.

(** Lines 71-79 of [get_waveform]: from the response buffer to the raw
    samples. *)
Definition decode_block (fuel : nat) (data : bytes) : M bytes :=
  let start := find hash data in
  '(header_len, byte_count) <- lift (read_header data start) ;;
  let waveform_data := slice_from data (start + 2 + header_len) in
  waveform_data <- read_rest fuel byte_count waveform_data ;;
  ret (slice_to waveform_data byte_count).

Definition get_waveform (fuel : nat) (channel : Z) (c : calibration)
  : M (list float) :=
  send_command ("WAVeform:SOURce CHAN" ++ str_of_int channel) ;;
  send_command "WAVeform:DATA?" ;;
  data <- receive_data 4096 ;;
  raw <- decode_block fuel data ;;
  ret (calibrate raw (yinc c) (yorigin c) (yref c)).

(** One pass of the [for itrg in range(args.ntrig)] body, lines 142-147. *)
Definition acquire_one (fuel : nat) (c3 c4 : calibration)
  : M (list float * list float) :=
  arm_scope ;;
  wait_for_trigger fuel 10000 ;;
  voltage_ch3 <- get_waveform fuel 3 c3 ;;
  voltage_ch4 <- get_waveform fuel 4 c4 ;;
  ret (voltage_ch3, voltage_ch4).

Fixpoint acquire_loop (fuel : nat) (c3 c4 : calibration) (ntrig : nat)
  : M (list (list float * list float)) :=
  match ntrig with
  | O => ret []
  | S n =>
      r <- acquire_one fuel c3 c4 ;;
      rs <- acquire_loop fuel c3 c4 n ;;
      ret (r :: rs)
  end.

(** Lines 136-156. *)
Definition acquire (fuel : nat) (c3 c4 : calibration) (ntrig : nat)
  : M (list (list float * list float)) :=
  send_command ":STOP" ;;
  send_command "TRIGger:SWEep SINGle" ;;
  acquire_loop fuel c3 c4 ntrig.
End Script.
End NormalMode.

(* ================================================================== *)
(** ** Vocabulary of the specification *)

(** The calibration formula in the specification's words:
    [voltage = (rawByte - offset - reference) * scale]. *)
Definition toVoltage (rawByte : byte) (c : calibration) : float :=
  PrimFloat.mul
    (PrimFloat.sub (PrimFloat.sub (of_uint8 rawByte) (yorigin c)) (yref c))
    (yinc c).

(** [f] holds the integer [n] exactly. *)
Definition exact_int (f : float) (n : Z) : bool :=
  match Prim2SF f with
  | S754_zero false => n =? 0
  | S754_finite false m e => (e <=? 0) && (Z.pos m =? n * 2 ^ (- e))
  | _ => false
  end.

(** An ASCII digit ['1'..'9']. *)
Definition is_digit19 (d : byte) : bool := (49 <=? ord d) && (ord d <=? 57).

(** The errors of a header that does not parse. *)
Definition malformed_header (e : exn) : Prop :=
  e = InvalidLiteral \/ e = UnicodeDecodeError.

(** The value of a run of ASCII digits. *)
Definition digits_value (ds : bytes) : Z :=
  fold_left (fun acc d => 10 * acc + (ord d - 48)) ds 0.

Definition all_digits (ds : bytes) : bool :=
  forallb (fun d => is_digit (ord d)) ds.

(** The header [#<d><L>] of a block of [L] bytes: [d] counts the digits of
    [L]. *)
Definition valid_header (d : byte) (digits : bytes) (L : Z) : Prop :=
  is_digit19 d = true /\ ord d - 48 = len digits
  /\ all_digits digits = true /\ digits_value digits = L.

(** The errors the max-mode script raises itself. *)
Definition no_header_found (channel : Z) : exn :=
  ValueError ("No waveform data header found for channel "
              ++ str_of_int channel).

Definition no_float_response (command : string) : exn :=
  RuntimeError ("Failed to get valid float response for command: "
                ++ command).

(* ------------------------------------------------------------------ *)
(** *** Streams *)

(** Every segment of the stream holds bytes. *)
Definition wf_inbox (i : list segment) : Prop :=
  Forall (fun s : segment => snd s <> []) i.

(** A stream the socket's timeout never interrupts: every segment holds
    bytes and is at most [t] away. *)
Definition timely (t : Z) (i : list segment) : Prop :=
  Forall (fun s : segment => fst s <= t /\ snd s <> []) i.

(* ------------------------------------------------------------------ *)
(** *** Traces *)

(** How often a command was sent, how often the script slept [ms]. *)
Definition count_sent (cmd : string) (tr : list event) : nat :=
  List.length (filter (fun e => match e with
                                | Sent c => String.eqb c cmd
                                | _ => false
                                end) tr).

Definition count_slept (ms : Z) (tr : list event) : nat :=
  List.length (filter (fun e => match e with
                                | Slept d => d =? ms
                                | _ => false
                                end) tr).

Definition is_arm (cmd : string) : bool :=
  String.eqb cmd ":SINGle" || String.eqb cmd ":SING"
  || String.eqb cmd "TRIGger:SWEep SINGle".

Definition is_fetch (cmd : string) : bool := String.eqb cmd "WAVeform:DATA?".

Definition is_stop (cmd : string) : bool := String.eqb cmd ":STOP".

Definition is_poll (cmd : string) : bool :=
  String.eqb cmd "TRIGger:STATus?".

(** Where a pass of the acquisition stands, as the commands sent so far
    tell: nothing armed; armed by a single-sweep command; armed and asked for
    its status at least once; halted by [:STOP] after that. *)
Inductive stage := Idle | Armed | Polled | Halted.

(** The stage after one more command; [None] when the command fetches
    waveform data from an acquisition that is not halted. *)
Definition next_stage (s : stage) (cmd : string) : option stage :=
  if is_arm cmd then Some Armed
  else if is_poll cmd then
    Some (match s with
          | Armed | Polled => Polled
          | _ => Idle
          end)
  else if is_stop cmd then
    Some (match s with
          | Polled | Halted => Halted
          | _ => Idle
          end)
  else if is_fetch cmd then
    match s with
    | Halted => Some Halted
    | _ => None
    end
  else Some s.

(** Runs the commands of a trace: [None] as soon as waveform data is
    fetched anywhere but from an acquisition that was armed, asked for its
    status and then stopped. *)
Fixpoint fetch_when_halted (s : stage) (tr : list event) : option stage :=
  match tr with
  | [] => Some s
  | Sent cmd :: rest =>
      match next_stage s cmd with
      | Some s' => fetch_when_halted s' rest
      | None => None
      end
  | _ :: rest => fetch_when_halted s rest
  end.

(** Classes of events. *)
Definition no_fetch (e : event) : bool :=
  match e with
  | Sent c => negb (is_fetch c)
  | _ => true
  end.

Definition no_arm (e : event) : bool :=
  match e with
  | Sent c => negb (is_arm c)
  | _ => true
  end.

Definition no_stop (e : event) : bool :=
  match e with
  | Sent c => negb (is_stop c)
  | _ => true
  end.

(** Events that leave the stage of the acquisition as it is. *)
Definition neutral (e : event) : bool :=
  match e with
  | Sent c => negb (is_arm c || is_poll c || is_stop c || is_fetch c)
  | _ => true
  end.

(** What may follow the [:STOP] of a pass: no arming, no status query. *)
Definition after_stop (e : event) : bool :=
  match e with
  | Sent c => negb (is_arm c || is_poll c)
  | _ => true
  end.

Definition reads_only (e : event) : bool :=
  match e with
  | Recv _ => true
  | _ => false
  end.

(** Reads of at least one byte. *)
Definition positive_reads (e : event) : bool :=
  match e with
  | Recv n => 0 <? n
  | _ => false
  end.

(** [m] only adds events of the class [ok] to the trace, however it ends. *)
Definition emits {A} (ok : event -> bool) (m : M A) : Prop :=
  forall w, exists d, trace (snd (m w)) = trace w ++ d /\ forallb ok d = true.


(** The bytes read between [w1] and [w2] end with a status reply that says
    ['TD']. *)
Definition fired_between (w1 w2 : world) : Prop :=
  exists before reply s,
    stream w1 = before ++ reply ++ stream w2
    /\ utf8_decode reply = Some s
    /\ text_eqb (strip s) TD = true.

(** However [m] ends, it has fetched nothing, or else: it has waited for the
    trigger with [wait], the wait has returned on a status reply ['TD'],
    [:STOP] was the next command, nothing was fetched before it, and nothing
    was armed or asked for its status after it. *)
Definition stops_on_trigger {A} (wait : M unit) (m : M A) : Prop :=
  forall w, exists d,
    trace (snd (m w)) = trace w ++ d
    /\ (forallb no_fetch d = true
        \/ exists d1 d2 w1 w2,
             d = d1 ++ Sent ":STOP" :: d2
             /\ wait w1 = (Ret tt, w2)
             /\ trace w2 = trace w ++ d1
             /\ fired_between w1 w2
             /\ forallb no_fetch d1 = true
             /\ forallb after_stop d2 = true).

(** However [m] ends and at whatever stage of [P] it begins, it fetches
    waveform data from a halted acquisition only; when it returns, the stage
    is one of [Q]. *)
Definition keeps_protocol {A} (P : stage -> Prop) (m : M A)
           (Q : stage -> Prop) : Prop :=
  forall w s, P s ->
    exists d s',
      trace (snd (m w)) = trace w ++ d
      /\ fetch_when_halted s d = Some s'
      /\ (forall a, fst (m w) = Ret a -> Q s').

Definition any_stage (s : stage) : Prop := True.

Definition at_stage (s0 : stage) (s : stage) : Prop := s = s0.

Definition polling (s : stage) : Prop := s = Armed \/ s = Polled.


(* ------------------------------------------------------------------ *)
(** *** A runtime and worlds for examples *)

(** A runtime that reads unsigned integer numerals only; it stands in for
    the interpreter where a concrete one is needed. *)
#[export] Program Instance integer_runtime : PyRuntime := {|
  float_of_text := fun t =>
    match long_from_string t with
    | Some n => if (0 <=? n) && (n <? 9007199254740992)
                then Some (PrimFloat.of_uint63 (Uint63.of_Z n))
                else None
    | None => None
    end;
  unicode_todecimal := fun _ => None
|}.

Definition NL : string := String (ascii_of_nat 10) EmptyString.

Definition unit_calibration : calibration :=
  mkCal (PrimFloat.of_uint63 1) (PrimFloat.of_uint63 0) (PrimFloat.of_uint63 0).

(** Replies that are there when the script reads, one per [recv]. *)
Definition replies (rs : list string) : list segment :=
  map (fun r => (0, b_ r)) rs.

Definition serving (rs : list string) (m : so_mode) : world :=
  mkWorld (replies rs) true m 0 [].

(** A socket with nothing to deliver: the peer gone, or silent. *)
Definition idle (m : so_mode) : world := mkWorld [] true m 0 [].

Definition silence (m : so_mode) : world := mkWorld [] false m 0 [].

(** The trigger has fired, then the replies each script asks for; in max
    mode every reply comes after the flush before it. *)
Definition fired_normal : world :=
  serving [String.append "TD" NL; "#13abc"; "#13def"] (Timed 1000).

Definition fired_basic : world :=
  serving [String.append "TD" NL;
           "1"; "0"; "0"; "#13abc";
           "1"; "0"; "0"; "#13def"] Blocking.

Definition fired_max : world :=
  mkWorld [(60, b_ (String.append "TD" NL)); (60, b_ "#13abc"); (10, b_ "#13def")]
          true (Timed 20000) 0 [].

(** Three bytes that come one by one, 90 ms apart. *)
Definition trickle : world :=
  mkWorld [(90, b_ "a"); (90, b_ "b"); (90, b_ "c")] false (Timed 100) 0 [].


(** The block [#13abc] after two stray bytes: cut inside the payload, with
    one sample in the initial buffer and the rest in two later segments,
    and whole in the initial buffer. *)
Definition cut_buffer : bytes := b_ "xx#13a".

Definition cut_rest : world :=
  mkWorld [(0, b_ "b"); (40, b_ (String.append "c" NL))] false (Timed 100) 0 [].


(** Buffers without the marker: a numeric reply read in place of the
    waveform block (the answer to [WAVeform:POINTs?]), and bytes that look
    like a header from their first byte on. *)
Definition stale_reply : bytes := b_ (String.append "1000" NL).

Definition headerless_reply : bytes := b_ "15abcdefgh".

(** The replies of the trigger-poll scenario: three polls, the third one
    answered ['TD'], and the events of three polls [pause] ms apart. *)
Definition RUN_reply : bytes := b_ (String.append "RUN" NL).
Definition TD_reply : bytes := b_ (String.append "TD" NL).

Definition three_polls (rest : list segment) : list segment :=
  (0, RUN_reply) :: (0, RUN_reply) :: (0, TD_reply) :: rest.

Definition poll_events (pause : Z) : list event :=
  [Sent "TRIGger:STATus?"; Recv 4096; Slept pause;
   Sent "TRIGger:STATus?"; Recv 4096; Slept pause;
   Sent "TRIGger:STATus?"; Recv 4096].

(** An instrument that answers every poll with ['RUN']. *)
Definition running_replies (gaps : list Z) : list segment :=
  map (fun g => (g, RUN_reply)) gaps.

Definition always_running (polls : nat) : world :=
  mkWorld (repeat (0, RUN_reply) polls) false Blocking 0 [].

(* ------------------------------------------------------------------ *)
(** *** Judgements on computations *)

(** What has not arrived yet: the inbox without the segments at its head
    that are there already. *)
Fixpoint pending (i : list segment) : list segment :=
  match i with
  | (g, bs) :: rest => if g <=? 0 then pending rest else i
  | [] => []
  end.



(** [m], started on a socket whose mode satisfies [P], never ends in a
    system call that does not return; when it returns, [Q] holds of the
    mode it leaves the socket in, and when it raises [e], [E e] does. *)
Definition guarded {A} (P : so_mode -> Prop) (m : M A)
           (Q : so_mode -> Prop) (E : exn -> so_mode -> Prop) : Prop :=
  forall w, P (mode w) ->
    match m w with
    | (Ret _, w') => Q (mode w')
    | (Raise e, w') => E e (mode w')
    | (Hang, _) => False
    | (OutOfFuel, _) => True
    end.

(** Events other than sending [cmd]. *)
Definition other_than (cmd : string) (e : event) : bool :=
  match e with
  | Sent c => negb (String.eqb c cmd)
  | _ => true
  end.

(** Whenever [m] returns, it has sent [cmd] exactly [k] times. *)
Definition sends {A} (cmd : string) (k : nat) (m : M A) : Prop :=
  forall w a w', m w = (Ret a, w') ->
    exists d, trace w' = trace w ++ d /\ count_sent cmd d = k.

(** Whenever [m] returns, it returns a list of [n] entries. *)
Definition returns_n {A} (n : nat) (m : M (list A)) : Prop :=
  forall w rs w', m w = (Ret rs, w') -> List.length rs = n.

(** The exceptions the acquisition loops let out. *)
Definition connection_lost : exn :=
  ConnectionError "Connection lost while receiving waveform data.".

(** A reply, [fst] ms after its query, from which [query_float] of the
    max-mode script gets no number: it comes whole and in time, and it is
    blank, not UTF-8, or no numeral. *)
Definition no_float `{PyRuntime} (x : Z * bytes) : Prop :=
  0 <= fst x <= 100
  /\ 0 < len (snd x) < 4096
  /\ (forall s, utf8_decode (snd x) = Some s ->
                float_of_text (strip s) = None).


Definition delays (rs : list (Z * bytes)) : Z :=
  fold_right (fun x acc => fst x + acc) 0 rs.

(** The events of [k] attempts of [query_float] that got no number. *)
Fixpoint attempts (cmd : string) (k : nat) : list event :=
  match k with
  | O => []
  | S k' => Sent cmd :: Recv 4096 :: Slept 10 :: attempts cmd k'
  end.



(** The socket after the first [recv] of [receive_data] has taken up to 4096
    bytes of the head segment [(g, bs)]. *)
Definition first_read (g : Z) (bs : bytes) (rest : list segment)
           (w : world) : world :=
  set_inbox (snd (take 4096 bs rest))
            (elapse (Z.max 0 g) (log (Recv 4096) (set_mode (Timed 100) w))).

(** How many commands have gone out. *)
Definition sent_count (tr : list event) : nat :=
  List.length (filter (fun e => match e with
                                | Sent _ => true
                                | _ => false
                                end) tr).

(** A connection that takes [k] writes and refuses every later one with
    [BrokenPipeError], as a peer that has closed does. *)
Definition hangs_up_after (k : nat) : Link := {|
  write_fault := fun _ w =>
    if (k <=? sent_count (trace w))%nat then Some BrokenPipe else None
|}.






(** The block [#13abc] after two stray bytes and before a newline, cut behind
    its first sample, with the second segment 40 ms behind. *)
Definition cut_block (m : so_mode) : world :=
  mkWorld [(0, cut_buffer); (40, b_ (String.append "bc" NL))] false m 0 [].

(** A block of five declared bytes of which two are in the buffer and one
    more arrives before the peer closes. *)
Definition short_rest : world :=
  mkWorld [(0, b_ "c")] true (Timed 100) 0 [].

(** A reply in two pieces, the second one too late for a timeout of 0.1 s. *)
Definition late_piece : world :=
  mkWorld [(30, b_ "1.5"); (150, b_ "e-3")] false Blocking 0 [].

(** Two stale segments in the socket and a status 60 ms away. *)
Definition stale_segments : list segment :=
  [(0, b_ "stale"); (-5, b_ NL); (60, TD_reply)].

(** An instrument that answers with empty lines. *)
Definition blank_lines : world := serving [NL; NL; NL] (Timed 20000).

(** A trigger, the scaling values, and a response without the marker. *)
Definition number_for_block : world :=
  serving [String.append "TD" NL; "1"; "0"; "0"; "1000"] Blocking.

(* ================================================================== *)
(** ** Lists, slices and the marker search *)

Lemma len_nonneg {A} (l : list A) : 0 <= len l.
Proof. unfold len. lia. Qed.

Lemma len_app {A} (a b : list A) : len (a ++ b) = len a + len b.
Proof. unfold len. rewrite length_app. lia. Qed.

Lemma len_cons {A} (x : A) (l : list A) : len (x :: l) = 1 + len l.
Proof. unfold len. simpl List.length. lia. Qed.

Lemma len_nil {A} : len (@nil A) = 0.
Proof. reflexivity. Qed.

Lemma clamp_inside (n i : Z) : 0 <= i -> 0 <= n -> clamp n i = Z.min i n.
Proof. intros Hi Hn. unfold clamp. destruct (Z.ltb_spec i 0); lia. Qed.

Lemma clamp_shift (n k i : Z) :
  0 <= i -> 0 <= n -> 0 <= k -> clamp (k + n) (k + i) = k + clamp n i.
Proof.
  intros Hi Hn Hk. rewrite !clamp_inside by lia. lia.
Qed.

Lemma skipn_app_exact {A} (g l : list A) (k : nat) :
  skipn (List.length g + k) (g ++ l) = skipn k l.
Proof.
  induction g as [|x g IH]; simpl; auto.
Qed.

Lemma slice_app_shift {A} (g data : list A) (lo hi : Z) :
  0 <= lo -> 0 <= hi ->
  slice (g ++ data) (len g + lo) (len g + hi) = slice data lo hi.
Proof.
  intros Hlo Hhi. unfold slice.
  rewrite len_app.
  pose proof (len_nonneg g) as Hg. pose proof (len_nonneg data) as Hd.
  rewrite !clamp_shift by lia.
  replace (Z.to_nat (len g + clamp (len data) lo))
    with (List.length g + Z.to_nat (clamp (len data) lo))%nat.
  - rewrite skipn_app_exact. f_equal. lia.
  - rewrite !clamp_inside by lia. unfold len. lia.
Qed.

Lemma slice_from_app_shift {A} (g data : list A) (lo : Z) :
  0 <= lo -> slice_from (g ++ data) (len g + lo) = slice_from data lo.
Proof.
  intros Hlo. unfold slice_from.
  rewrite len_app.
  pose proof (len_nonneg g) as Hg. pose proof (len_nonneg data) as Hd.
  rewrite clamp_shift by lia.
  replace (Z.to_nat (len g + clamp (len data) lo))
    with (List.length g + Z.to_nat (clamp (len data) lo))%nat.
  - apply skipn_app_exact.
  - rewrite !clamp_inside by lia. unfold len. lia.
Qed.

(** A slice [data[i:i+1]] holds the byte at [i], or nothing past the end. *)
Lemma slice_one {A} (data : list A) (i : Z) :
  0 <= i ->
  slice data i (i + 1) = match nth_error data (Z.to_nat i) with
                         | Some d => [d]
                         | None => []
                         end.
Proof.
  intros Hi. unfold slice.
  pose proof (len_nonneg data) as Hd.
  rewrite !clamp_inside by lia.
  destruct (nth_error data (Z.to_nat i)) as [d|] eqn:E.
  - assert (Hlt : (Z.to_nat i < List.length data)%nat).
    { apply nth_error_Some. congruence. }
    apply nth_error_split in E. destruct E as (l1 & l2 & -> & Hl1).
    unfold len in *. rewrite length_app in *. simpl List.length in *.
    replace (Z.to_nat (Z.min i (Z.of_nat (List.length l1 + S (List.length l2)))))
      with (List.length l1 + 0)%nat by lia.
    rewrite skipn_app_exact. simpl.
    match goal with
    | |- firstn ?n _ = _ => replace n with 1%nat by lia
    end.
    reflexivity.
  - apply nth_error_None in E.
    unfold len in *.
    match goal with
    | |- firstn ?n _ = _ => replace n with 0%nat by lia
    end.
    reflexivity.
Qed.

Lemma slice_empty {A} (data : list A) (lo : Z) : slice data lo lo = [].
Proof.
  unfold slice. rewrite Z.sub_diag. reflexivity.
Qed.

Lemma find_bounds (c : byte) (data : bytes) :
  -1 <= find c data < len data.
Proof.
  induction data as [|b rest IH]; simpl find.
  - rewrite len_nil. lia.
  - rewrite len_cons. destruct (Byte.eqb b c); [pose proof (len_nonneg rest); lia|].
    destruct (Z.ltb_spec (find c rest) 0); lia.
Qed.

Lemma find_app_absent (c : byte) (g data : bytes) :
  find c g = -1 -> find c data <> -1 ->
  find c (g ++ data) = len g + find c data.
Proof.
  induction g as [|b g IH]; intros Hg Hd.
  - rewrite len_nil. simpl. lia.
  - simpl in Hg. simpl app. simpl find.
    destruct (Byte.eqb b c); [discriminate|].
    pose proof (find_bounds c g) as Hb.
    pose proof (find_bounds c data) as Hbd.
    destruct (Z.ltb_spec (find c g) 0) as [Hlt|Hge].
    + assert (find c g = -1) by lia.
      rewrite IH by assumption.
      pose proof (len_nonneg g).
      destruct (Z.ltb_spec (len g + find c data) 0); [lia|].
      rewrite len_cons. lia.
    + pose proof (len_nonneg g). lia.
Qed.

Lemma find_app_present (c : byte) (pre rest : bytes) :
  find c pre = -1 -> find c (pre ++ c :: rest) = len pre.
Proof.
  intros Hp. rewrite find_app_absent; auto.
  - simpl. rewrite (Byte.byte_dec_lb eq_refl). lia.
  - simpl. rewrite (Byte.byte_dec_lb eq_refl). lia.
Qed.

(* ================================================================== *)
(** ** The header fields *)

Section HeaderFacts.
Context `{PyRuntime}.

Lemma parse_int_nil : parse_int [] = inl InvalidLiteral.
Proof. reflexivity. Qed.

(** [int] of one byte: its digit value, or an error. *)
Lemma parse_int_single (d : byte) :
  parse_int [d] =
  if is_digit (ord d) then inr (ord d - 48)
  else inl (if ord d <? 128 then InvalidLiteral else UnicodeDecodeError).
Proof. destruct d; reflexivity. Qed.

(** The length-of-length field is a digit value whenever it parses. *)
Lemma header_len_range (data : bytes) (i n : Z) :
  0 <= i -> parse_int (slice data i (i + 1)) = inr n -> 0 <= n <= 9.
Proof.
  intros Hi. rewrite slice_one by assumption.
  destruct (nth_error data (Z.to_nat i)) as [d|].
  - rewrite parse_int_single.
    destruct (is_digit (ord d)) eqn:E; [|discriminate].
    intros [= <-]. unfold is_digit in E. lia.
  - rewrite parse_int_nil. discriminate.
Qed.

Lemma read_header_fields (data : bytes) (start hl bc : Z) :
  0 <= start -> read_header data start = inr (hl, bc) -> 0 <= hl <= 9.
Proof.
  intros Hs. unfold read_header.
  destruct (parse_int (slice data (start + 1) (start + 2))) as [e|n] eqn:E;
    [discriminate|].
  replace (start + 2) with (start + 1 + 1) in E by lia.
  apply header_len_range in E; [|lia].
  destruct (parse_int _) as [e|m]; [discriminate|].
  intros [= <- <-]. exact E.
Qed.

(** Bytes before the marker do not change the header fields. *)
Lemma read_header_shift (g data : bytes) (start : Z) :
  0 <= start ->
  read_header (g ++ data) (len g + start) = read_header data start.
Proof.
  intros Hs. unfold read_header.
  replace (len g + start + 1) with (len g + (start + 1)) by lia.
  replace (len g + start + 2) with (len g + (start + 2)) by lia.
  rewrite slice_app_shift by lia.
  destruct (parse_int (slice data (start + 1) (start + 2))) as [e|n] eqn:E;
    [reflexivity|].
  replace (start + 2) with (start + 1 + 1) in E by lia.
  apply header_len_range in E; [|lia].
  replace (len g + (start + 2) + n) with (len g + (start + 2 + n)) by lia.
  rewrite slice_app_shift by lia.
  reflexivity.
Qed.
End HeaderFacts.

(* ================================================================== *)
(** ** Calibration *)

Lemma of_uint8_exact (b : byte) : exact_int (of_uint8 b) (ord b) = true.
Proof. destruct b; vm_compute; reflexivity. Qed.

(** C2: the calibration step is the pure function [calibrate]; applied to a
    decoded payload it yields, sample by sample, the specification's
    [(b - yorigin - yref) * yinc] in float64 arithmetic, one voltage per
    byte, and the byte enters the formula as its exact integer value. *)
Theorem C2_calibration_linear (payload : bytes) (c : calibration) :
  calibrate payload (yinc c) (yorigin c) (yref c)
  = map (fun b => toVoltage b c) payload
  /\ List.length (calibrate payload (yinc c) (yorigin c) (yref c))
     = List.length payload
  /\ (forall i : nat,
        nth_error (calibrate payload (yinc c) (yorigin c) (yref c)) i
        = option_map (fun b => toVoltage b c) (nth_error payload i))
  /\ (forall b : byte, exact_int (of_uint8 b) (ord b) = true).
Proof.
  assert (E : calibrate payload (yinc c) (yorigin c) (yref c)
              = map (fun b => toVoltage b c) payload).
  { unfold calibrate, scale, frombuffer. rewrite !map_map. reflexivity. }
  repeat split.
  - exact E.
  - rewrite E. apply length_map.
  - intros i. rewrite E. apply nth_error_map.
  - apply of_uint8_exact.
Qed.

(* ================================================================== *)
(** ** The codec on the response buffer *)

Section CodecFacts.
Context `{PyRuntime}.

Lemma bind_lift_inr {A B} (a : A) (k : A -> M B) (w : world) :
  bind (lift (inr a)) k w = k a w.
Proof. reflexivity. Qed.

(** A length-of-length byte that is no digit ['1'..'9'] stops the header
    parse. *)
Lemma read_header_bad_digit (data : bytes) (start : Z) (d : byte) :
  0 <= start ->
  nth_error data (Z.to_nat (start + 1)) = Some d ->
  is_digit19 d = false ->
  exists e, malformed_header e /\ read_header data start = inl e.
Proof.
  intros Hs Hd Hbad. unfold read_header.
  replace (start + 2) with (start + 1 + 1) by lia.
  rewrite slice_one by lia. rewrite Hd, parse_int_single.
  destruct (is_digit (ord d)) eqn:E.
  - assert (ord d - 48 = 0) as ->.
    { unfold is_digit, is_digit19 in *. lia. }
    rewrite Z.add_0_r, slice_empty, parse_int_nil.
    exists InvalidLiteral. split; [left|]; reflexivity.
  - destruct (ord d <? 128); eexists; (split; [|reflexivity]);
      [left|right]; reflexivity.
Qed.

Lemma basic_decode_block_header (data : bytes) (w : world) :
  find hash data <> -1 ->
  Basic.decode_block data w
  = match read_header data (find hash data) with
    | inl e => (Raise e, w)
    | inr (hl, bc) =>
        (Ret (slice data (find hash data + 2 + hl)
                    (find hash data + 2 + hl + bc)), w)
    end.
Proof.
  intros Hf. unfold Basic.decode_block.
  destruct (Z.eqb_spec (find hash data) (-1)) as [E|_]; [contradiction|].
  destruct (read_header data (find hash data)) as [e|[hl bc]]; reflexivity.
Qed.

(** A response without the marker: [rigolDAQ.py] raises at once. *)
Lemma basic_missing_marker (data : bytes) (w : world) :
  find hash data = -1 ->
  Basic.decode_block data w = (Raise (ValueError "Data block not found"), w).
Proof.
  intros Hf. unfold Basic.decode_block. rewrite Hf. reflexivity.
Qed.
End CodecFacts.

(** C5: when the byte after the marker is ['0'] or no ASCII digit
    ['1'..'9'], the decode raises the error of the failed header parse
    ([ValueError] of [int], or [UnicodeDecodeError]) and leaves the socket
    untouched: no [recv] is attempted, whatever the byte count. *)
Theorem C5_malformed_length_digit `{PyRuntime}
    (data : bytes) (d : byte) (fuel : nat) (w : world) :
  find hash data <> -1 ->
  nth_error data (Z.to_nat (find hash data + 1)) = Some d ->
  is_digit19 d = false ->
  exists e, malformed_header e
    /\ Basic.decode_block data w = (Raise e, w)
    /\ MaxMode.decode_block fuel data (find hash data) w = (Raise e, w)
    /\ NormalMode.decode_block fuel data w = (Raise e, w).
Proof.
  intros Hf Hd Hbad.
  pose proof (find_bounds hash data) as Hb.
  destruct (read_header_bad_digit data (find hash data) d) as (e & He & Hr);
    try assumption; [lia|].
  exists e. split; [exact He|]. repeat split.
  - rewrite basic_decode_block_header by assumption. rewrite Hr. reflexivity.
  - unfold MaxMode.decode_block. rewrite Hr. reflexivity.
  - unfold NormalMode.decode_block. rewrite Hr. reflexivity.
Qed.

(** The header [#0]: a length-of-length of zero. *)
Lemma C5_witness :
  exists e, malformed_header e
    /\ Basic.decode_block (b_ "#0123") (idle Blocking)
       = (Raise e, idle Blocking)
    /\ MaxMode.decode_block 5 (b_ "#0123") (find hash (b_ "#0123"))
         (idle Blocking) = (Raise e, idle Blocking)
    /\ NormalMode.decode_block 5 (b_ "#0123") (idle Blocking)
       = (Raise e, idle Blocking).
Proof.
  apply (C5_malformed_length_digit (b_ "#0123") x30 5 (idle Blocking)).
  - vm_compute. discriminate.
  - reflexivity.
  - reflexivity.
Defined.

(** C10, as stated, fails in [rigolDAQ.py]: with a negative byte count in
    the header the final slice [data[a:a+byte_count]] counts from the end of
    the buffer, so two bytes in front of the marker change the result. *)
Lemma C10_counterexample :
  find hash (b_ "xx") = -1
  /\ find hash (b_ "#2-5abcdefgh") <> -1
  /\ Basic.decode_block (b_ "#2-5abcdefgh") (idle Blocking)
     = (Ret (b_ "abcdefg"), idle Blocking)
  /\ Basic.decode_block (b_ "xx" ++ b_ "#2-5abcdefgh") (idle Blocking)
     = (Ret [], idle Blocking).
Proof.
  repeat split; vm_compute; discriminate.
Qed.

(** C10 (amended): bytes without the marker in front of a buffer that holds
    the marker leave the decode unchanged, result and socket alike, in the
    max-mode and normal-mode scripts for every buffer, and in [rigolDAQ.py]
    whenever the header's byte count is not negative. *)
Theorem C10_leading_bytes_skipped `{PyRuntime}
    (g data : bytes) (fuel : nat) (w : world) :
  find hash g = -1 ->
  find hash data <> -1 ->
  MaxMode.decode_block fuel (g ++ data) (find hash (g ++ data)) w
  = MaxMode.decode_block fuel data (find hash data) w
  /\ NormalMode.decode_block fuel (g ++ data) w
     = NormalMode.decode_block fuel data w
  /\ ((forall hl bc, read_header data (find hash data) = inr (hl, bc) -> 0 <= bc) ->
      Basic.decode_block (g ++ data) w = Basic.decode_block data w).
Proof.
  intros Hg Hd.
  pose proof (find_bounds hash data) as Hb.
  pose proof (len_nonneg g) as Hlg.
  assert (Hs : 0 <= find hash data) by lia.
  assert (Hf : find hash (g ++ data) = len g + find hash data)
    by (apply find_app_absent; assumption).
  repeat split.
  - unfold MaxMode.decode_block. rewrite Hf, read_header_shift by assumption.
    destruct (read_header data (find hash data)) as [e|[hl bc]] eqn:E;
      [reflexivity|].
    apply read_header_fields in E; [|assumption].
    rewrite !bind_lift_inr.
    replace (len g + find hash data + 2 + hl)
      with (len g + (find hash data + 2 + hl)) by lia.
    rewrite slice_from_app_shift by lia. reflexivity.
  - unfold NormalMode.decode_block. rewrite Hf, read_header_shift by assumption.
    destruct (read_header data (find hash data)) as [e|[hl bc]] eqn:E;
      [reflexivity|].
    apply read_header_fields in E; [|assumption].
    rewrite !bind_lift_inr.
    replace (len g + find hash data + 2 + hl)
      with (len g + (find hash data + 2 + hl)) by lia.
    rewrite slice_from_app_shift by lia. reflexivity.
  - intros Hbc.
    rewrite !basic_decode_block_header by lia.
    rewrite Hf, read_header_shift by assumption.
    destruct (read_header data (find hash data)) as [e|[hl bc]] eqn:E;
      [reflexivity|].
    pose proof (Hbc _ _ eq_refl) as Hnn.
    apply read_header_fields in E; [|assumption].
    replace (len g + find hash data + 2 + hl + bc)
      with (len g + (find hash data + 2 + hl + bc)) by lia.
    replace (len g + find hash data + 2 + hl)
      with (len g + (find hash data + 2 + hl)) by lia.
    rewrite slice_app_shift by lia. reflexivity.
Qed.

(** Two stray bytes in front of the block [#13abcd]. *)
Lemma C10_witness :
  MaxMode.decode_block 5 (b_ "xx" ++ b_ "#13abcd")
    (find hash (b_ "xx" ++ b_ "#13abcd")) (idle (Timed 100))
  = MaxMode.decode_block 5 (b_ "#13abcd") (find hash (b_ "#13abcd"))
      (idle (Timed 100))
  /\ NormalMode.decode_block 5 (b_ "xx" ++ b_ "#13abcd") (idle (Timed 100))
     = NormalMode.decode_block 5 (b_ "#13abcd") (idle (Timed 100))
  /\ Basic.decode_block (b_ "xx" ++ b_ "#13abcd") (idle (Timed 100))
     = Basic.decode_block (b_ "#13abcd") (idle (Timed 100)).
Proof.
  destruct (C10_leading_bytes_skipped (b_ "xx") (b_ "#13abcd") 5
              (idle (Timed 100))) as (HM & HN & HB).
  - reflexivity.
  - vm_compute. discriminate.
  - split; [exact HM | split; [exact HN |]].
    apply HB. intros hl bc E. vm_compute in E. inversion E. lia.
Defined.

(* ================================================================== *)
(** ** What a computation adds to the trace *)

Lemma emits_ret {A} ok (a : A) : emits ok (ret a).
Proof. intros w. exists []. simpl. rewrite app_nil_r. auto. Qed.

Lemma emits_raise {A} ok (e : exn) : emits ok (@raise A e).
Proof. intros w. exists []. simpl. rewrite app_nil_r. auto. Qed.

Lemma emits_out_of_fuel {A} ok : emits ok (@out_of_fuel A).
Proof. intros w. exists []. simpl. rewrite app_nil_r. auto. Qed.

Lemma emits_bind {A B} ok (m : M A) (k : A -> M B) :
  emits ok m -> (forall a, emits ok (k a)) -> emits ok (bind m k).
Proof.
  unfold emits. intros Hm Hk w. unfold bind.
  destruct (Hm w) as (d1 & Ht1 & Hd1).
  destruct (m w) as [[a|e| |] w1]; simpl in Ht1;
    try solve [exists d1; simpl; auto].
  destruct (Hk a w1) as (d2 & Ht2 & Hd2).
  exists (d1 ++ d2). rewrite Ht2, Ht1, app_assoc, forallb_app, Hd1, Hd2. auto.
Qed.

Lemma emits_try_except {A} ok (m : M A) (handler : exn -> option (M A)) :
  emits ok m ->
  (forall e h, handler e = Some h -> emits ok h) ->
  emits ok (try_except m handler).
Proof.
  unfold emits. intros Hm Hh w. unfold try_except.
  destruct (Hm w) as (d1 & Ht1 & Hd1).
  destruct (m w) as [[a|e| |] w1]; simpl in Ht1;
    try solve [exists d1; simpl; auto].
  destruct (handler e) as [h|] eqn:E; [|solve [exists d1; simpl; auto]].
  destruct (Hh e h E w1) as (d2 & Ht2 & Hd2).
  exists (d1 ++ d2). rewrite Ht2, Ht1, app_assoc, forallb_app, Hd1, Hd2. auto.
Qed.

Lemma emits_finally {A} ok (m : M A) (cleanup : M unit) :
  emits ok m -> emits ok cleanup -> emits ok (finally m cleanup).
Proof.
  unfold emits. intros Hm Hc w. unfold finally.
  destruct (Hm w) as (d1 & Ht1 & Hd1).
  destruct (m w) as [[a|e| |] w1]; simpl in Ht1;
    try solve [exists d1; simpl; auto].
  - destruct (emits_bind ok cleanup (fun _ => ret a) Hc
                (fun _ => emits_ret ok a) w1) as (d2 & Ht2 & Hd2).
    exists (d1 ++ d2). rewrite Ht2, Ht1, app_assoc, forallb_app, Hd1, Hd2. auto.
  - destruct (emits_bind ok cleanup (fun _ => @raise A e) Hc
                (fun _ => emits_raise ok e) w1) as (d2 & Ht2 & Hd2).
    exists (d1 ++ d2). rewrite Ht2, Ht1, app_assoc, forallb_app, Hd1, Hd2. auto.
Qed.

Lemma emits_sendall `{Link} ok (cmd : string) :
  ok (Sent cmd) = true -> emits ok (sendall cmd).
Proof.
  intros Hok w. unfold sendall. destruct (write_fault cmd w).
  - exists []. simpl. rewrite app_nil_r. auto.
  - exists [Sent cmd]. simpl. rewrite Hok. auto.
Qed.

Lemma emits_sleep ok (ms : Z) : ok (Slept ms) = true -> emits ok (sleep ms).
Proof. intros Hok w. exists [Slept ms]. simpl. rewrite Hok. auto. Qed.

Lemma emits_perf_counter ok : emits ok perf_counter.
Proof. intros w. exists []. simpl. rewrite app_nil_r. auto. Qed.

Lemma emits_settimeout ok (m : so_mode) : emits ok (settimeout m).
Proof. intros w. exists []. simpl. rewrite app_nil_r. auto. Qed.

Lemma emits_lift {A} ok (r : exn + A) : emits ok (lift r).
Proof. destruct r; [apply emits_raise | apply emits_ret]. Qed.

Lemma emits_or_raise {A} ok (e : exn) (o : option A) : emits ok (or_raise e o).
Proof. destruct o; [apply emits_ret | apply emits_raise]. Qed.

Lemma emits_recv ok (n : Z) : ok (Recv n) = true -> emits ok (recv n).
Proof.
  intros Hok w. exists [Recv n]. split; [|simpl; rewrite Hok; reflexivity].
  unfold recv.
  destruct (n <? 0); [reflexivity|].
  destruct (n =? 0); [reflexivity|].
  cbn [inbox log eof mode].
  destruct (inbox w) as [|[g bs] rest].
  - destruct (eof w); [reflexivity|]. destruct (mode w); reflexivity.
  - unfold take.
    destruct (mode w) as [| |t].
    + reflexivity.
    + destruct (g <=? 0); reflexivity.
    + destruct (g <=? t); reflexivity.
Qed.

Ltac emits_step :=
  lazymatch goal with
  | |- emits _ (ret _) => apply emits_ret
  | |- emits _ (raise _) => apply emits_raise
  | |- emits _ out_of_fuel => apply emits_out_of_fuel
  | |- emits _ (lift _) => apply emits_lift
  | |- emits _ (or_raise _ _) => apply emits_or_raise
  | |- emits _ (decode _) => apply emits_or_raise
  | |- emits _ (py_float _) => apply emits_or_raise
  | |- emits _ perf_counter => apply emits_perf_counter
  | |- emits _ (settimeout _) => apply emits_settimeout
  | |- emits _ (sendall _) => apply emits_sendall; try reflexivity
  | |- emits _ (sleep _) => apply emits_sleep
  | |- emits _ (recv _) => apply emits_recv
  | |- emits _ (bind _ _) => apply emits_bind; [|intros ?]
  | |- emits _ (finally _ _) => apply emits_finally
  end.

Ltac emits_tac := repeat emits_step; try solve [auto | reflexivity].

(** Whatever the buffer, the decode of the max-mode and of the normal-mode
    script only ever asks the socket for a positive number of bytes. *)
Lemma receive_more_reads_positive (fuel : nat) (n : Z) (received : bytes) :
  emits positive_reads (MaxMode.receive_more fuel n 4096 received).
Proof.
  revert received. induction fuel as [|fuel IH]; intros received; simpl.
  - destruct (len received <? n); emits_tac.
  - destruct (Z.ltb_spec (len received) n) as [Hlt|Hge]; [|emits_tac].
    apply emits_bind.
    + apply emits_recv. simpl. lia.
    + intros [|c chunk]; [emits_tac | apply IH].
Qed.

Lemma read_rest_reads_positive (fuel : nat) (n : Z) (wd : bytes) :
  emits positive_reads (NormalMode.read_rest fuel n wd).
Proof.
  revert wd. induction fuel as [|fuel IH]; intros wd; simpl.
  - destruct (len wd <? n); emits_tac.
  - destruct (Z.ltb_spec (len wd) n) as [Hlt|Hge]; [|emits_tac].
    apply emits_bind.
    + apply emits_recv. simpl. lia.
    + intros chunk. apply IH.
Qed.

Lemma decode_reads_positive `{PyRuntime}
    (fuel : nat) (data : bytes) (start : Z) :
  emits positive_reads (MaxMode.decode_block fuel data start)
  /\ emits positive_reads (NormalMode.decode_block fuel data).
Proof.
  split.
  - unfold MaxMode.decode_block, MaxMode.receive_waveform_data.
    apply emits_bind; [emits_tac|]. intros [hl bc]. emits_tac.
    destruct (len (slice_from data (start + 2 + hl)) <? bc); emits_tac.
    apply receive_more_reads_positive.
  - unfold NormalMode.decode_block.
    apply emits_bind; [emits_tac|]. intros [hl bc]. emits_tac.
    apply read_rest_reads_positive.
Qed.

Section MaxModeTrace.
Context `{PyRuntime} `{Link}.
Variable ok : event -> bool.
Hypothesis Hrecv : forall n, ok (Recv n) = true.
Hypothesis Hslept : forall ms, ok (Slept ms) = true.

Lemma receive_chunks_emits fuel n chunks :
  emits ok (MaxMode.receive_chunks fuel n chunks).
Proof.
  revert chunks. induction fuel as [|fuel IH]; intros chunks; simpl.
  - emits_tac.
  - apply emits_bind.
    + apply emits_try_except.
      * emits_tac.
      * intros e h Hh. destruct e; inversion Hh. emits_tac.
    + intros [[|b chunk]|]; emits_tac.
      destruct (len (b :: chunk) <? n); [emits_tac | apply IH].
Qed.

Lemma max_receive_data_emits fuel n :
  emits ok (MaxMode.receive_data fuel n).
Proof.
  unfold MaxMode.receive_data. emits_tac. apply receive_chunks_emits.
Qed.

Lemma receive_more_emits fuel n bsz received :
  emits ok (MaxMode.receive_more fuel n bsz received).
Proof.
  revert received. induction fuel as [|fuel IH]; intros received; simpl.
  - destruct (len received <? n); emits_tac.
  - destruct (len received <? n); emits_tac.
    destruct a; [emits_tac | apply IH].
Qed.

Lemma drain_emits fuel : emits ok (MaxMode.drain fuel).
Proof.
  induction fuel as [|fuel IH]; simpl; emits_tac.
Qed.

Lemma flush_socket_emits fuel : emits ok (MaxMode.flush_socket fuel).
Proof.
  unfold MaxMode.flush_socket. emits_tac.
  apply emits_try_except.
  - apply drain_emits.
  - intros e h Hh. destruct e; inversion Hh. emits_tac.
Qed.

Lemma max_decode_block_emits fuel data start :
  emits ok (MaxMode.decode_block fuel data start).
Proof.
  unfold MaxMode.decode_block. emits_tac.
  match goal with
  | p : (Z * Z)%type |- _ => destruct p as [hl bc]
  end.
  emits_tac.
  destruct (len (slice_from data (start + 2 + hl)) <? bc); emits_tac.
  apply receive_more_emits.
Qed.

Lemma max_get_trigger_status_emits fuel :
  ok (Sent "TRIGger:STATus?") = true ->
  emits ok (MaxMode.get_trigger_status fuel).
Proof.
  intros Hs. unfold MaxMode.get_trigger_status, MaxMode.send_command, decode.
  emits_tac. apply max_receive_data_emits.
Qed.

Lemma max_wait_loop_emits fuel start :
  ok (Sent "TRIGger:STATus?") = true ->
  emits ok (MaxMode.wait_loop fuel start).
Proof.
  intros Hs. induction fuel as [|fuel IH]; simpl.
  - emits_tac.
  - apply emits_bind; [apply max_get_trigger_status_emits; assumption|].
    intros status. destruct (text_eqb status TD); emits_tac.
    match goal with
    | |- context [?c >? 10000] => destruct (c >? 10000)
    end; emits_tac.
Qed.

Lemma max_wait_for_trigger_emits fuel :
  ok (Sent "TRIGger:STATus?") = true ->
  emits ok (MaxMode.wait_for_trigger fuel).
Proof.
  intros Hs. unfold MaxMode.wait_for_trigger. emits_tac.
  apply max_wait_loop_emits. assumption.
Qed.

Lemma request_block_emits fuel channel attempts :
  ok (Sent "WAVeform:DATA?") = true ->
  emits ok (MaxMode.request_block fuel channel attempts).
Proof.
  intros Hs. induction attempts as [|attempts IH]; simpl.
  - emits_tac.
  - unfold MaxMode.send_command. emits_tac.
    + apply max_receive_data_emits.
    + match goal with
      | |- context [negb ?c] => destruct (negb c)
      end; emits_tac.
Qed.

Lemma max_get_waveform_data_emits fuel channel c :
  ok (Sent "WAVeform:DATA?") = true ->
  ok (Sent ("WAVeform:SOURce CHAN" ++ str_of_int channel)) = true ->
  emits ok (MaxMode.get_waveform_data fuel channel c).
Proof.
  intros Hd Hs. unfold MaxMode.get_waveform_data, MaxMode.send_command.
  emits_tac.
  - apply request_block_emits. assumption.
  - match goal with
    | p : (bytes * Z)%type |- _ => destruct p as [data start]
    end.
    emits_tac. apply max_decode_block_emits.
Qed.
End MaxModeTrace.

Ltac io_ok := intros; reflexivity.

Section NormalModeTrace.
Context `{PyRuntime} `{Link}.
Variable ok : event -> bool.
Hypothesis Hrecv : forall n, ok (Recv n) = true.
Hypothesis Hslept : forall ms, ok (Slept ms) = true.

Lemma normal_wait_loop_emits fuel timeout start :
  ok (Sent "TRIGger:STATus?") = true ->
  emits ok (NormalMode.wait_loop fuel timeout start).
Proof.
  intros Hs. induction fuel as [|fuel IH]; simpl.
  - emits_tac.
  - unfold NormalMode.send_command, NormalMode.receive_data. emits_tac.
    match goal with
    | |- context [text_eqb ?s TD] => destruct (text_eqb s TD)
    end; emits_tac.
    match goal with
    | |- context [?c >? timeout] => destruct (c >? timeout)
    end; emits_tac.
Qed.

Lemma read_rest_emits fuel n wd : emits ok (NormalMode.read_rest fuel n wd).
Proof.
  revert wd. induction fuel as [|fuel IH]; intros wd; simpl.
  - destruct (len wd <? n); emits_tac.
  - unfold NormalMode.receive_data. destruct (len wd <? n); emits_tac.
Qed.

Lemma normal_get_waveform_emits fuel channel c :
  ok (Sent "WAVeform:DATA?") = true ->
  ok (Sent ("WAVeform:SOURce CHAN" ++ str_of_int channel)) = true ->
  emits ok (NormalMode.get_waveform fuel channel c).
Proof.
  intros Hd Hs.
  unfold NormalMode.get_waveform, NormalMode.send_command,
    NormalMode.receive_data, NormalMode.decode_block.
  emits_tac.
  match goal with
  | p : (Z * Z)%type |- _ => destruct p as [hl bc]
  end.
  emits_tac. apply read_rest_emits.
Qed.

Lemma normal_acquire_one_emits fuel c3 c4 :
  ok (Sent ":SING") = true ->
  ok (Sent "TRIGger:STATus?") = true ->
  ok (Sent "WAVeform:DATA?") = true ->
  (forall channel,
      ok (Sent ("WAVeform:SOURce CHAN" ++ str_of_int channel)) = true) ->
  emits ok (NormalMode.acquire_one fuel c3 c4).
Proof.
  intros Ha Hs Hd Hc.
  unfold NormalMode.acquire_one, NormalMode.arm_scope,
    NormalMode.wait_for_trigger, NormalMode.send_command.
  emits_tac.
  - apply normal_wait_loop_emits. assumption.
  - apply normal_get_waveform_emits; auto.
  - apply normal_get_waveform_emits; auto.
Qed.
End NormalModeTrace.

Section BasicTrace.
Context `{PyRuntime} `{Link}.
Variable ok : event -> bool.
Hypothesis Hrecv : forall n, ok (Recv n) = true.
Hypothesis Hslept : forall ms, ok (Slept ms) = true.

Lemma basic_query_float_emits command :
  ok (Sent command) = true -> emits ok (Basic.query_float command).
Proof.
  intros Hc. unfold Basic.query_float, Basic.send_command, Basic.receive_data.
  emits_tac.
Qed.

Lemma basic_wait_for_trigger_emits fuel :
  ok (Sent "TRIGger:STATus?") = true ->
  emits ok (Basic.wait_for_trigger fuel).
Proof.
  intros Hs. induction fuel as [|fuel IH]; simpl.
  - emits_tac.
  - unfold Basic.get_trigger_status, Basic.send_command, Basic.receive_data.
    emits_tac.
    match goal with
    | |- context [text_eqb ?s TD] => destruct (text_eqb s TD)
    end; emits_tac.
Qed.

Lemma basic_get_waveform_data_emits channel :
  (forall cmd, is_stop cmd = false -> ok (Sent cmd) = true) ->
  emits ok (Basic.get_waveform_data channel).
Proof.
  intros Hc.
  unfold Basic.get_waveform_data, Basic.send_command, Basic.receive_data,
    Basic.decode_block.
  emits_tac; try (apply Hc; reflexivity).
  - apply basic_query_float_emits. apply Hc. reflexivity.
  - apply basic_query_float_emits. apply Hc. reflexivity.
  - apply basic_query_float_emits. apply Hc. reflexivity.
  - match goal with
    | |- context [?s =? -1] => destruct (s =? -1)
    end; emits_tac.
    match goal with
    | p : (Z * Z)%type |- _ => destruct p as [hl bc]
    end.
    emits_tac.
Qed.

Lemma basic_acquire_one_emits fuel :
  (forall cmd, is_stop cmd = false -> ok (Sent cmd) = true) ->
  emits ok (Basic.acquire_one fuel).
Proof.
  intros Hc.
  unfold Basic.acquire_one, Basic.arm_scope, Basic.send_command.
  emits_tac; try (apply Hc; reflexivity).
  - apply basic_wait_for_trigger_emits. apply Hc. reflexivity.
  - apply basic_get_waveform_data_emits. assumption.
  - apply basic_get_waveform_data_emits. assumption.
Qed.
End BasicTrace.

(** One trigger in max mode, run on [fired_max]. *)
Example max_mode_run :
  trace (snd (MaxMode.acquire 5 unit_calibration unit_calibration 1 fired_max))
  = [Sent ":STOP"; Sent "TRIGger:SWEep SINGle";
     Recv 4096; Slept 50; Sent ":SINGle";
     Sent "TRIGger:STATus?"; Recv 4096;
     Sent ":STOP"; Slept 50;
     Sent "WAVeform:SOURce CHAN3"; Sent "WAVeform:DATA?"; Recv 4096;
     Recv 4096;
     Sent "WAVeform:SOURce CHAN4"; Sent "WAVeform:DATA?"; Recv 4096]
  /\ exists v3 v4,
       fst (MaxMode.acquire 5 unit_calibration unit_calibration 1 fired_max)
       = Ret [(v3, v4)]
       /\ List.length v3 = 3%nat /\ List.length v4 = 3%nat.
Proof.
  split; [vm_compute; reflexivity|].
  do 2 eexists. split; [vm_compute; reflexivity|]. split; reflexivity.
Qed.

(* ================================================================== *)
(** ** One [recv] on a socket with a timeout *)

Lemma stream_cons (w : world) (g : Z) (bs : bytes) (rest : list segment) :
  inbox w = (g, bs) :: rest -> stream w = bs ++ List.concat (map snd rest).
Proof. intros E. unfold stream. rewrite E. reflexivity. Qed.

Lemma timely_wf (t : Z) (i : list segment) : timely t i -> wf_inbox i.
Proof.
  unfold timely, wf_inbox. intros Hi.
  eapply Forall_impl; [|exact Hi]. simpl. intros s [_ Hs]. exact Hs.
Qed.

Lemma firstn_nonempty {A} (n : nat) (l : list A) :
  (0 < n)%nat -> l <> [] -> firstn n l <> [].
Proof.
  intros Hn Hl. destruct n; [lia|]. destruct l; [congruence|]. discriminate.
Qed.

Lemma len_firstn_le {A} (n : Z) (l : list A) :
  0 <= n -> len (firstn (Z.to_nat n) l) <= n.
Proof.
  intros Hn. unfold len. rewrite length_firstn. lia.
Qed.

(** The three ways a [recv] of [n > 0] bytes ends on a socket with timeout
    [t]: it hands out at most [n] bytes of the head segment; the peer has
    closed; the head segment is further away than the timeout. *)
Lemma recv_timed_cases (n : Z) (w : world) (t : Z) :
  0 < n -> 0 <= t -> mode w = Timed t -> wf_inbox (inbox w) ->
  (exists chunk w',
      recv n w = (Ret chunk, w')
      /\ chunk <> [] /\ len chunk <= n
      /\ stream w = chunk ++ stream w'
      /\ mode w' = Timed t /\ eof w' = eof w /\ wf_inbox (inbox w')
      /\ now w <= now w'
      /\ trace w' = trace w ++ [Recv n]
      /\ (timely t (inbox w) -> timely t (inbox w')))
  \/ (exists w',
        recv n w = (Ret [], w')
        /\ inbox w = [] /\ eof w = true
        /\ inbox w' = [] /\ mode w' = Timed t /\ eof w' = true
        /\ now w' = now w
        /\ trace w' = trace w ++ [Recv n])
  \/ (exists w',
        recv n w = (Raise SocketTimeout, w')
        /\ stream w' = stream w
        /\ mode w' = Timed t /\ eof w' = eof w /\ wf_inbox (inbox w')
        /\ now w' = now w + t
        /\ trace w' = trace w ++ [Recv n]
        /\ (~ timely t (inbox w) \/ (inbox w = [] /\ eof w = false))).
Proof.
  intros Hn Ht Hm Hwf. unfold recv.
  destruct (Z.ltb_spec n 0) as [?|_]; [lia|].
  destruct (Z.eqb_spec n 0) as [?|_]; [lia|].
  cbn [inbox log eof mode]. rewrite Hm.
  destruct (inbox w) as [|[g bs] rest] eqn:Ei.
  - destruct (eof w) eqn:Ee.
    + right. left. eexists. split; [reflexivity|].
      cbn. rewrite Ei, Hm, Ee. auto 10.
    + right. right. eexists. split; [reflexivity|].
      unfold stream. cbn. rewrite Ei, Hm, Ee. cbn.
      repeat split; auto.
  - inversion Hwf as [|? ? Hbs Hrest]; subst. simpl in Hbs.
    destruct (Z.leb_spec g t) as [Hg|Hg].
    + left. unfold take.
      exists (firstn (Z.to_nat n) bs). eexists. split; [reflexivity|].
      split; [apply firstn_nonempty; [lia|assumption]|].
      split; [apply len_firstn_le; lia|].
      split.
      { unfold stream at 1. rewrite Ei. cbn [map snd List.concat].
        rewrite <- (firstn_skipn (Z.to_nat n) bs) at 1. rewrite <- app_assoc.
        f_equal. unfold stream. cbn [inbox set_inbox].
        destruct (skipn (Z.to_nat n) bs); reflexivity. }
      cbn [mode eof set_inbox elapse log inbox now trace].
      repeat split; auto; try lia.
      * destruct (skipn (Z.to_nat n) bs) eqn:Es; [assumption|].
        constructor; [simpl; discriminate|assumption].
      * intros Htm. inversion Htm as [|? ? _ Hr]; subst.
        destruct (skipn (Z.to_nat n) bs) eqn:Es; [assumption|].
        constructor; [simpl; split; [lia|discriminate]|assumption].
    + right. right. eexists. split; [reflexivity|].
      unfold stream. cbn. rewrite Ei. cbn.
      repeat split; auto.
      * constructor; assumption.
      * left. intros Htm. inversion Htm as [|? ? [Hgt _] _]; subst.
        simpl in Hgt. lia.
Qed.

(* ================================================================== *)
(** ** The exact read of the max-mode script *)

Lemma stream_nil (w : world) : inbox w = [] -> stream w = [].
Proof. intros E. unfold stream. rewrite E. reflexivity. Qed.

(** How [receive_more] ends on a socket with timeout [t]: with the buffer
    filled up to [n] bytes, with a timeout, or with the connection lost;
    [got] are the bytes it took from the stream. *)
Lemma receive_more_cases (fuel : nat) (n : Z) (received : bytes)
      (w : world) (t : Z) :
  0 <= t -> mode w = Timed t -> wf_inbox (inbox w) ->
  (Z.to_nat (n - len received) <= fuel)%nat ->
  (exists got w',
      MaxMode.receive_more fuel n 4096 received w = (Ret (received ++ got), w')
      /\ stream w = got ++ stream w'
      /\ len (received ++ got) = Z.max n (len received)
      /\ mode w' = Timed t /\ eof w' = eof w /\ wf_inbox (inbox w')
      /\ now w <= now w'
      /\ (timely t (inbox w) -> timely t (inbox w')))
  \/ (exists got w',
        MaxMode.receive_more fuel n 4096 received w = (Raise SocketTimeout, w')
        /\ stream w = got ++ stream w'
        /\ len (received ++ got) < n
        /\ now w + t <= now w'
        /\ (~ timely t (inbox w) \/ stream w' = []))
  \/ (exists got w' msg,
        MaxMode.receive_more fuel n 4096 received w
        = (Raise (ConnectionError msg), w')
        /\ stream w = got ++ stream w'
        /\ len (received ++ got) < n
        /\ stream w' = [] /\ eof w = true).
Proof.
  revert received w.
  induction fuel as [|fuel IH]; intros received w Ht Hm Hwf Hfuel.
  - left. exists [], w. simpl.
    destruct (Z.ltb_spec (len received) n) as [Hlt|Hge]; [lia|].
    rewrite app_nil_r. repeat split; auto; lia.
  - simpl. destruct (Z.ltb_spec (len received) n) as [Hlt|Hge].
    2:{ left. exists [], w. rewrite app_nil_r. repeat split; auto; lia. }
    unfold bind.
    destruct (recv_timed_cases (Z.min 4096 (n - len received)) w t)
      as [(chunk & w1 & -> & Hne & Hlen & Hs & Hm1 & He1 & Hwf1 & Hnow1 & _ & Htm1)
         |[(w1 & -> & Hi & He & Hi1 & _)
          |(w1 & -> & Hs & Hm1 & He1 & Hwf1 & Hnow1 & _ & Hwhy)]];
      try assumption; try lia.
    + destruct chunk as [|c chunk]; [congruence|].
      set (ch := c :: chunk) in *.
      assert (Hch : 0 < len ch) by (unfold ch; rewrite len_cons;
                                     pose proof (len_nonneg chunk); lia).
      destruct (IH (received ++ ch) w1 Ht Hm1 Hwf1) as
        [(got & w' & -> & Hs' & Hl' & Hm' & He' & Hwf' & Hnow' & Htm')
        |[(got & w' & -> & Hs' & Hl' & Hnow' & Hwhy')
         |(got & w' & msg & -> & Hs' & Hl' & Hs0 & He')]].
      { rewrite len_app. lia. }
      * left. exists (ch ++ got), w'. rewrite app_assoc.
        split; [reflexivity|].
        split; [rewrite Hs, Hs', app_assoc; reflexivity|].
        split; [rewrite Hl', len_app; lia|].
        repeat split; auto; try lia; try congruence.
      * right. left. exists (ch ++ got), w'. rewrite app_assoc.
        split; [reflexivity|].
        split; [rewrite Hs, Hs', app_assoc; reflexivity|].
        split; [exact Hl'|].
        split; [lia|].
        destruct Hwhy' as [Hnt|Hnil]; [left; auto | right; assumption].
      * right. right. exists (ch ++ got), w', msg. rewrite app_assoc.
        split; [reflexivity|].
        split; [rewrite Hs, Hs', app_assoc; reflexivity|].
        split; [exact Hl'|].
        split; [assumption | congruence].
    + right. right. exists [], w1. eexists. split; [reflexivity|].
      rewrite app_nil_r, (stream_nil w Hi), (stream_nil w1 Hi1).
      repeat split; auto.
    + right. left. exists [], w1. split; [reflexivity|].
      rewrite app_nil_r, Hs. repeat split; auto; try lia.
      destruct Hwhy as [Hnt|[Hi _]]; [left; assumption|right].
      rewrite (stream_nil w Hi). reflexivity.
Qed.

(** The three endings of the exact read, each on a stream that leads to it. *)
Example exact_read_endings :
  fst (MaxMode.receive_waveform_data 4 4 4096
         (mkWorld [(0, b_ "ab"); (50, b_ "cde")] false (Timed 100) 0 []))
  = Ret (b_ "abcd")
  /\ fst (MaxMode.receive_waveform_data 4 4 4096
            (mkWorld [(0, b_ "ab"); (150, b_ "cde")] false (Timed 100) 0 []))
     = Raise SocketTimeout
  /\ fst (MaxMode.receive_waveform_data 4 4 4096
            (mkWorld [(0, b_ "ab")] true (Timed 100) 0 []))
     = Raise (ConnectionError "Connection lost while receiving waveform data.").
Proof. repeat split. Qed.

(* ================================================================== *)
(** ** Headers of valid blocks *)

Lemma utf8_decode_ascii (bs : bytes) :
  forallb (fun b => ord b <? 128) bs = true ->
  utf8_decode bs = Some (map ord bs).
Proof.
  induction bs as [|b bs IH]; intros Hb; [reflexivity|].
  simpl in Hb. apply andb_prop in Hb. destruct Hb as [Hb Hbs].
  cbn [utf8_decode map]. rewrite Hb, IH by assumption. reflexivity.
Qed.

Lemma all_digits_ascii (ds : bytes) :
  all_digits ds = true -> forallb (fun b => ord b <? 128) ds = true.
Proof.
  unfold all_digits. rewrite !forallb_forall. intros Hd b Hb.
  specialize (Hd b Hb). unfold is_digit in Hd. lia.
Qed.

Lemma scan_digits_all (ds : bytes) (prev count acc : Z) :
  all_digits ds = true ->
  (prev =? underscore) = false ->
  scan_digits prev count acc (map ord ds)
  = Some (count + len ds,
          fold_left (fun a d => 10 * a + (ord d - 48)) ds acc, []).
Proof.
  revert prev count acc.
  induction ds as [|b ds IH]; intros prev count acc Hd Hp.
  - simpl. rewrite Hp, len_nil, Z.add_0_r. reflexivity.
  - simpl in Hd. apply andb_prop in Hd. destruct Hd as [Hb Hds].
    cbn [map scan_digits fold_left]. rewrite Hb, IH; try assumption.
    + rewrite len_cons. do 3 f_equal. lia.
    + unfold is_digit, underscore in *. lia.
Qed.

Lemma long_from_string_digits (b : byte) (ds : bytes) :
  all_digits (b :: ds) = true ->
  len (b :: ds) <= max_str_digits ->
  long_from_string (map ord (b :: ds)) = Some (digits_value (b :: ds)).
Proof.
  intros Hd Hmax. rewrite len_cons in Hmax.
  assert (Hb : is_digit (ord b) = true).
  { simpl in Hd. apply andb_prop in Hd. tauto. }
  assert (Hs : c_lstrip (map ord (b :: ds)) = map ord (b :: ds)).
  { cbn [map c_lstrip]. unfold c_isspace.
    unfold is_digit in Hb.
    destruct (Z.leb_spec 9 (ord b)), (Z.leb_spec (ord b) 13),
      (Z.eqb_spec (ord b) 32); try lia; reflexivity. }
  unfold long_from_string. rewrite Hs.
  pose proof (scan_digits_all (b :: ds) 0 0 0 Hd eq_refl) as Hscan.
  pose proof (len_nonneg ds) as Hl.
  destruct b; try discriminate Hb;
    cbn [map ord Byte.to_N Z.of_N] in *;
    rewrite Hscan, len_cons;
    (destruct (Z.eqb_spec (0 + (1 + len ds)) 0); [lia|]);
    (destruct (Z.ltb_spec max_str_digits (0 + (1 + len ds))); [lia|]);
    unfold digits_value; cbn [c_lstrip]; f_equal; lia.
Qed.

Section ValidHeader.
Context `{PyRuntime}.

Lemma is_ascii_digits (ds : bytes) :
  all_digits ds = true -> is_ascii (map ord ds) = true.
Proof.
  intros Hd. apply all_digits_ascii in Hd. unfold is_ascii.
  induction ds as [|b ds IH]; [reflexivity|].
  simpl in *. apply andb_prop in Hd. destruct Hd as [Hb Hds].
  rewrite Hb, IH by assumption. reflexivity.
Qed.

(** [int] of a run of ASCII digits is its decimal value. *)
Lemma parse_int_digits (ds : bytes) :
  all_digits ds = true -> ds <> [] -> len ds <= max_str_digits ->
  parse_int ds = inr (digits_value ds).
Proof.
  intros Hd Hne Hmax. unfold parse_int, int_of_text.
  rewrite utf8_decode_ascii by (apply all_digits_ascii; exact Hd).
  rewrite is_ascii_digits by exact Hd.
  destruct ds as [|b ds]; [congruence|].
  rewrite long_from_string_digits by assumption. reflexivity.
Qed.
End ValidHeader.

(* ================================================================== *)
(** ** Blocks cut across reads *)

Lemma slice_middle {A} (a b c : list A) :
  slice (a ++ b ++ c) (len a) (len a + len b) = b.
Proof.
  pose proof (len_nonneg a) as Ha. pose proof (len_nonneg b) as Hb.
  pose proof (len_nonneg c) as Hc.
  replace (len a) with (len a + 0) at 1 by lia.
  rewrite slice_app_shift by lia.
  unfold slice. rewrite len_app.
  rewrite !clamp_inside by lia.
  replace (Z.to_nat (Z.min 0 (len b + len c))) with 0%nat by lia.
  replace (Z.to_nat (Z.min (len b) (len b + len c) - Z.min 0 (len b + len c)))
    with (List.length b + 0)%nat by (unfold len; lia).
  simpl skipn. rewrite firstn_app_2. simpl. apply app_nil_r.
Qed.

Lemma slice_from_app {A} (a b : list A) : slice_from (a ++ b) (len a) = b.
Proof.
  pose proof (len_nonneg a) as Ha. pose proof (len_nonneg b) as Hb.
  unfold slice_from. rewrite len_app, clamp_inside by lia.
  replace (Z.to_nat (Z.min (len a) (len a + len b)))
    with (List.length a + 0)%nat by (unfold len; lia).
  apply skipn_app_exact.
Qed.

Lemma slice_to_app {A} (a b : list A) : slice_to (a ++ b) (len a) = a.
Proof.
  pose proof (len_nonneg a) as Ha. pose proof (len_nonneg b) as Hb.
  unfold slice_to. rewrite len_app, clamp_inside by lia.
  replace (Z.to_nat (Z.min (len a) (len a + len b)))
    with (List.length a + 0)%nat by (unfold len; lia).
  rewrite firstn_app_2. simpl. apply app_nil_r.
Qed.

Lemma slice_to_all {A} (a : list A) : slice_to a (len a) = a.
Proof.
  rewrite <- (app_nil_r a) at 1. apply slice_to_app.
Qed.

Lemma app_eq_len {A} (a b c d : list A) :
  a ++ b = c ++ d -> len a = len c -> a = c /\ b = d.
Proof.
  revert c. induction a as [|x a IH]; intros [|y c] E Hl;
    rewrite ?len_cons, ?len_nil in Hl.
  - auto.
  - pose proof (len_nonneg c). lia.
  - pose proof (len_nonneg a). lia.
  - simpl in E. injection E as -> E.
    destruct (IH c E) as [-> ->]; [lia|]. auto.
Qed.

Lemma app_split_prefix {A} (a b c e : list A) :
  a ++ b = c ++ e -> len c <= len a -> exists p, a = c ++ p /\ e = p ++ b.
Proof.
  revert a. induction c as [|y c IH]; intros a E Hl.
  - exists a. simpl in E. auto.
  - destruct a as [|x a].
    + rewrite len_cons, len_nil in Hl. pose proof (len_nonneg c). lia.
    + simpl in E. injection E as -> E. rewrite !len_cons in Hl.
      destruct (IH a E) as (p & -> & ->); [lia|].
      exists p. auto.
Qed.

Section Blocks.
Context `{PyRuntime}.

(** The header of a valid block parses to its fields, wherever the block
    starts in the buffer. *)
Lemma read_header_valid (pre digits rest : bytes) (d : byte) (L : Z) :
  valid_header d digits L ->
  read_header (pre ++ hash :: d :: digits ++ rest) (len pre)
  = inr (len digits, L).
Proof.
  intros (Hd19 & Hcount & Hdig & Hval).
  assert (Hne : digits <> []).
  { intros ->. rewrite len_nil in Hcount. unfold is_digit19 in Hd19. lia. }
  unfold read_header.
  replace (pre ++ hash :: d :: digits ++ rest)
    with ((pre ++ [hash]) ++ [d] ++ (digits ++ rest))
    by (rewrite <- !app_assoc; reflexivity).
  replace (len pre + 1) with (len (pre ++ [hash]))
    by (rewrite len_app, len_cons, len_nil; lia).
  replace (len pre + 2) with (len (pre ++ [hash]) + len [d])
    by (rewrite len_app, !len_cons, len_nil; lia).
  rewrite slice_middle, parse_int_single.
  assert (Hdg : is_digit (ord d) = true)
    by (unfold is_digit, is_digit19 in *; lia).
  rewrite Hdg, Hcount.
  replace ((pre ++ [hash]) ++ [d] ++ digits ++ rest)
    with ((pre ++ [hash; d]) ++ digits ++ rest)
    by (rewrite <- !app_assoc; reflexivity).
  replace (len (pre ++ [hash]) + len [d]) with (len (pre ++ [hash; d]))
    by (rewrite !len_app, !len_cons, len_nil; lia).
  assert (Hshort : len digits <= max_str_digits)
    by (unfold max_str_digits, is_digit19 in *; lia).
  rewrite slice_middle, parse_int_digits by assumption.
  rewrite Hval. reflexivity.
Qed.

(** The read loop of the normal-mode script on a stream that delivers in
    time. *)
Lemma read_rest_timely (fuel : nat) (n : Z) (wd : bytes) (w : world) (t : Z) :
  0 <= t -> mode w = Timed t -> timely t (inbox w) ->
  n - len wd <= len (stream w) ->
  (Z.to_nat (n - len wd) <= fuel)%nat ->
  exists got w',
    NormalMode.read_rest fuel n wd w = (Ret (wd ++ got), w')
    /\ stream w = got ++ stream w'
    /\ len (wd ++ got) = Z.max n (len wd)
    /\ (n <= len wd -> w' = w).
Proof.
  revert wd w.
  induction fuel as [|fuel IH]; intros wd w Ht Hm Htm Hen Hfuel.
  - exists [], w. simpl.
    destruct (Z.ltb_spec (len wd) n) as [Hlt|Hge]; [lia|].
    rewrite app_nil_r. repeat split; auto; lia.
  - simpl. destruct (Z.ltb_spec (len wd) n) as [Hlt|Hge].
    2:{ exists [], w. rewrite app_nil_r. repeat split; auto; lia. }
    unfold bind, NormalMode.receive_data.
    destruct (recv_timed_cases (n - len wd) w t)
      as [(chunk & w1 & -> & Hne & Hlen & Hs & Hm1 & He1 & Hwf1 & Hnow1 & _ & Htm1)
         |[(w1 & -> & Hi & _)
          |(w1 & -> & Hs & Hm1 & He1 & Hwf1 & Hnow1 & _ & Hwhy)]];
      try assumption; try lia.
    + eapply timely_wf; eassumption.
    + assert (Hch : 0 < len chunk).
      { destruct chunk; [congruence|]. rewrite len_cons.
        pose proof (len_nonneg chunk). lia. }
      destruct (IH (wd ++ chunk) w1 Ht Hm1 (Htm1 Htm))
        as (got & w' & -> & Hs' & Hl' & _).
      { rewrite Hs, !len_app in *. lia. }
      { rewrite len_app. lia. }
      exists (chunk ++ got), w'. rewrite app_assoc.
      split; [reflexivity|].
      split; [rewrite Hs, Hs', app_assoc; reflexivity|].
      split; [rewrite Hl', len_app; lia | lia].
    + rewrite (stream_nil w Hi), len_nil in Hen. lia.
    + destruct Hwhy as [Hnt|[Hi _]]; [contradiction|].
      rewrite (stream_nil w Hi), len_nil in Hen. lia.
Qed.

(** The exact read of the max-mode script on a stream that delivers in
    time. *)
Lemma receive_more_timely (fuel : nat) (n : Z) (w : world) (t : Z) :
  0 <= t -> mode w = Timed t -> timely t (inbox w) ->
  0 <= n <= len (stream w) ->
  (Z.to_nat n <= fuel)%nat ->
  exists got w',
    MaxMode.receive_more fuel n 4096 [] w = (Ret got, w')
    /\ stream w = got ++ stream w'
    /\ len got = n.
Proof.
  intros Ht Hm Htm Hn Hfuel.
  destruct (receive_more_cases fuel n [] w t Ht Hm (timely_wf _ _ Htm)) as
    [(got & w' & E & Hs & Hl & _)
    |[(got & w' & E & Hs & Hl & _ & Hwhy)
     |(got & w' & msg & E & Hs & Hl & Hs0 & _)]].
  { rewrite len_nil. lia. }
  - exists got, w'. simpl app in *. rewrite len_nil in Hl. repeat split; auto; lia.
  - simpl app in Hl. destruct Hwhy as [Hnt|Hs0]; [contradiction|].
    rewrite Hs, Hs0, app_nil_r in Hn. lia.
  - simpl app in Hl. rewrite Hs, Hs0, app_nil_r in Hn. lia.
Qed.
End Blocks.




(* ================================================================== *)
(** ** One poll of the trigger status *)

Lemma take_whole (n : Z) (bs : bytes) (rest : list segment) :
  len bs <= n -> take n bs rest = (bs, rest).
Proof.
  intros Hl. unfold take, len in *.
  rewrite firstn_all2, skipn_all2 by lia. reflexivity.
Qed.

(** A [recv] that finds a whole segment within reach. *)
Lemma recv_whole_segment (n g : Z) (bs : bytes) (rest : list segment)
      (e : bool) (m : so_mode) (nw : Z) (tr : list event) :
  0 < n -> len bs <= n ->
  m = Blocking \/ (exists t, m = Timed t /\ g <= t) ->
  recv n (mkWorld ((g, bs) :: rest) e m nw tr)
  = (Ret bs, mkWorld rest e m (nw + Z.max 0 g) (tr ++ [Recv n])).
Proof.
  intros Hn Hl Hm. unfold recv.
  destruct (Z.ltb_spec n 0) as [?|_]; [lia|].
  destruct (Z.eqb_spec n 0) as [?|_]; [lia|].
  cbn [inbox log eof mode]. rewrite take_whole by assumption.
  destruct Hm as [->|(t & -> & Hg)].
  - reflexivity.
  - destruct (Z.leb_spec g t); [reflexivity|lia].
Qed.

Section Polls.
Context `{PyRuntime}.

Lemma basic_poll (g : Z) (reply : bytes) (status : text) (rest : list segment)
      (e : bool) (nw : Z) (tr : list event) :
  utf8_decode reply = Some status ->
  len reply <= 4096 ->
  Basic.get_trigger_status (mkWorld ((g, reply) :: rest) e Blocking nw tr)
  = (Ret (strip status),
     mkWorld rest e Blocking (nw + Z.max 0 g)
             (tr ++ [Sent "TRIGger:STATus?"; Recv 4096])).
Proof.
  intros Hreply Hl.
  unfold Basic.get_trigger_status, Basic.send_command, Basic.receive_data,
    bind, sendall, write_fault, reliable, log. fold reliable. cbn [inbox eof mode now trace].
  rewrite recv_whole_segment by (auto; lia).
  unfold decode. rewrite Hreply. cbn. rewrite <- app_assoc. reflexivity.
Qed.

Lemma basic_wait_running (g : Z) (reply : bytes) (status : text) (rest : list segment)
      (e : bool) (nw : Z) (tr : list event) (fuel : nat) :
  utf8_decode reply = Some status ->
  len reply <= 4096 -> text_eqb (strip status) TD = false ->
  Basic.wait_for_trigger (S fuel)
    (mkWorld ((g, reply) :: rest) e Blocking nw tr)
  = Basic.wait_for_trigger fuel
      (elapse 100
         (mkWorld rest e Blocking (nw + Z.max 0 g)
                  (tr ++ [Sent "TRIGger:STATus?"; Recv 4096; Slept 100]))).
Proof.
  intros Hreply Hl Hs. cbn [Basic.wait_for_trigger]. unfold bind at 1.
  rewrite (basic_poll _ _ status) by assumption. rewrite Hs.
  unfold bind, sleep, log. cbn [inbox eof mode now trace].
  rewrite <- app_assoc. reflexivity.
Qed.

Lemma basic_wait_fired (g : Z) (reply : bytes) (status : text) (rest : list segment)
      (e : bool) (nw : Z) (tr : list event) (fuel : nat) :
  utf8_decode reply = Some status ->
  len reply <= 4096 -> text_eqb (strip status) TD = true ->
  Basic.wait_for_trigger (S fuel)
    (mkWorld ((g, reply) :: rest) e Blocking nw tr)
  = (Ret tt,
     mkWorld rest e Blocking (nw + Z.max 0 g)
             (tr ++ [Sent "TRIGger:STATus?"; Recv 4096])).
Proof.
  intros Hreply Hl Hs. cbn [Basic.wait_for_trigger]. unfold bind at 1.
  rewrite (basic_poll _ _ status) by assumption. rewrite Hs. reflexivity.
Qed.

Lemma max_poll (g : Z) (reply : bytes) (status : text) (rest : list segment)
      (e : bool) (nw : Z) (tr : list event) (fuel : nat) (m : so_mode) :
  utf8_decode reply = Some status ->
  0 < len reply < 4096 -> g <= 100 ->
  MaxMode.get_trigger_status (S fuel)
    (mkWorld ((g, reply) :: rest) e m nw tr)
  = (Ret (strip status),
     mkWorld rest e (Timed 100) (nw + Z.max 0 g)
             (tr ++ [Sent "TRIGger:STATus?"; Recv 4096])).
Proof.
  intros Hreply Hl Hg.
  unfold MaxMode.get_trigger_status, MaxMode.send_command,
    MaxMode.receive_data, bind, sendall, write_fault, reliable, settimeout, log, set_mode. fold reliable.
  cbn [inbox eof mode now trace MaxMode.receive_chunks].
  unfold bind, try_except.
  rewrite recv_whole_segment by (eauto; lia).
  unfold ret.
  destruct reply as [|b bs]; [cbn in Hl; lia|].
  destruct (Z.ltb_spec (len (b :: bs)) 4096) as [_|?]; [|lia].
  cbn [app List.concat]. rewrite app_nil_r.
  unfold decode. rewrite Hreply. cbn. rewrite <- app_assoc. reflexivity.
Qed.

Lemma max_wait_running (g : Z) (reply : bytes) (status : text) (rest : list segment)
      (e : bool) (nw : Z) (tr : list event) (fuel : nat) (m : so_mode) (start : Z) :
  utf8_decode reply = Some status ->
  0 < len reply < 4096 -> g <= 100 ->
  text_eqb (strip status) TD = false ->
  nw + Z.max 0 g - start <= 10000 ->
  MaxMode.wait_loop (S fuel) start (mkWorld ((g, reply) :: rest) e m nw tr)
  = MaxMode.wait_loop fuel start
      (elapse 100
         (mkWorld rest e (Timed 100) (nw + Z.max 0 g)
                  (tr ++ [Sent "TRIGger:STATus?"; Recv 4096; Slept 100]))).
Proof.
  intros Hreply Hl Hg Hs Ht. cbn [MaxMode.wait_loop]. unfold bind at 1.
  rewrite (max_poll _ _ status) by assumption. rewrite Hs.
  unfold bind, perf_counter, sleep, log. cbn [inbox eof mode now trace].
  destruct (Z.gtb_spec (nw + Z.max 0 g - start) 10000); [lia|].
  cbn [inbox eof mode now trace]. rewrite <- app_assoc. reflexivity.
Qed.

Lemma max_wait_fired (g : Z) (reply : bytes) (status : text) (rest : list segment)
      (e : bool) (nw : Z) (tr : list event) (fuel : nat) (m : so_mode) (start : Z) :
  utf8_decode reply = Some status ->
  0 < len reply < 4096 -> g <= 100 ->
  text_eqb (strip status) TD = true ->
  MaxMode.wait_loop (S fuel) start (mkWorld ((g, reply) :: rest) e m nw tr)
  = (Ret tt,
     mkWorld rest e (Timed 100) (nw + Z.max 0 g)
             (tr ++ [Sent "TRIGger:STATus?"; Recv 4096])).
Proof.
  intros Hreply Hl Hg Hs. cbn [MaxMode.wait_loop]. unfold bind at 1.
  rewrite (max_poll _ _ status) by assumption. rewrite Hs. reflexivity.
Qed.

Lemma normal_wait_running (g : Z) (reply : bytes) (status : text) (rest : list segment)
      (e : bool) (nw : Z) (tr : list event) (fuel : nat) (t timeout start : Z) :
  utf8_decode reply = Some status ->
  len reply <= 4096 -> g <= t ->
  text_eqb (strip status) TD = false ->
  nw + Z.max 0 g - start <= timeout ->
  NormalMode.wait_loop (S fuel) timeout start
    (mkWorld ((g, reply) :: rest) e (Timed t) nw tr)
  = NormalMode.wait_loop fuel timeout start
      (elapse 1
         (mkWorld rest e (Timed t) (nw + Z.max 0 g)
                  (tr ++ [Sent "TRIGger:STATus?"; Recv 4096; Slept 1]))).
Proof.
  intros Hreply Hl Hg Hs Ht. cbn [NormalMode.wait_loop].
  unfold NormalMode.send_command, NormalMode.receive_data,
    bind, sendall, write_fault, reliable, log. fold reliable. cbn [inbox eof mode now trace].
  rewrite recv_whole_segment by (eauto; lia).
  unfold decode. rewrite Hreply. cbn [or_raise]. unfold ret at 1.
  rewrite Hs.
  unfold perf_counter, sleep, log. cbn [inbox eof mode now trace].
  destruct (Z.gtb_spec (nw + Z.max 0 g - start) timeout); [lia|].
  cbn [inbox eof mode now trace]. rewrite <- !app_assoc. reflexivity.
Qed.

Lemma normal_wait_fired (g : Z) (reply : bytes) (status : text) (rest : list segment)
      (e : bool) (nw : Z) (tr : list event) (fuel : nat) (t timeout start : Z) :
  utf8_decode reply = Some status ->
  len reply <= 4096 -> g <= t ->
  text_eqb (strip status) TD = true ->
  NormalMode.wait_loop (S fuel) timeout start
    (mkWorld ((g, reply) :: rest) e (Timed t) nw tr)
  = (Ret tt,
     mkWorld rest e (Timed t) (nw + Z.max 0 g)
             (tr ++ [Sent "TRIGger:STATus?"; Recv 4096])).
Proof.
  intros Hreply Hl Hg Hs. cbn [NormalMode.wait_loop].
  unfold NormalMode.send_command, NormalMode.receive_data,
    bind, sendall, write_fault, reliable, log. fold reliable. cbn [inbox eof mode now trace].
  rewrite recv_whole_segment by (eauto; lia).
  unfold decode. rewrite Hreply. cbn [or_raise]. unfold ret at 1.
  rewrite Hs. unfold ret. rewrite <- app_assoc. reflexivity.
Qed.
End Polls.

(* ================================================================== *)
(** ** The trigger wait *)

Ltac poll_side :=
  first [ reflexivity | cbn; lia | vm_compute; intuition congruence ].

Ltac world_eq :=
  unfold elapse; cbn [inbox eof mode now trace];
  repeat rewrite <- app_assoc; cbn [app];
  f_equal; f_equal; first [lia | reflexivity].

(** C8: with the statuses ['RUN'], ['RUN'], ['TD'] delivered one per poll,
    each script sends one status query per pass of its wait loop and leaves
    the loop on the third query: two passes are not enough, and the trace
    grows by exactly three queries. *)
Theorem C8_fires_on_third_poll `{PyRuntime}
    (k : nat) (rest : list segment) (e : bool) (m : so_mode)
    (nw : Z) (tr : list event) :
  (Basic.wait_for_trigger (3 + k)
     (mkWorld (three_polls rest) e Blocking nw tr)
   = (Ret tt, mkWorld rest e Blocking (nw + 200) (tr ++ poll_events 100))
   /\ fst (Basic.wait_for_trigger 2
             (mkWorld (three_polls rest) e Blocking nw tr)) = OutOfFuel)
  /\ (MaxMode.wait_for_trigger (3 + k) (mkWorld (three_polls rest) e m nw tr)
      = (Ret tt, mkWorld rest e (Timed 100) (nw + 200) (tr ++ poll_events 100))
      /\ fst (MaxMode.wait_for_trigger 2
                (mkWorld (three_polls rest) e m nw tr)) = OutOfFuel)
  /\ (NormalMode.wait_for_trigger (3 + k) 10000
        (mkWorld (three_polls rest) e (Timed 1000) nw tr)
      = (Ret tt, mkWorld rest e (Timed 1000) (nw + 2) (tr ++ poll_events 1))
      /\ fst (NormalMode.wait_for_trigger 2 10000
                (mkWorld (three_polls rest) e (Timed 1000) nw tr)) = OutOfFuel)
  /\ (forall pause, count_sent "TRIGger:STATus?" (poll_events pause) = 3%nat).
Proof.
  set (run := s_ (String.append "RUN" NL)).
  set (td := s_ (String.append "TD" NL)).
  unfold three_polls.
  split; [split|split; [split|split; [split|]]].
  - cbn [Nat.add].
    rewrite (basic_wait_running _ _ run) by poll_side.
    unfold elapse; cbn [inbox eof mode now trace].
    rewrite (basic_wait_running _ _ run) by poll_side.
    unfold elapse; cbn [inbox eof mode now trace].
    rewrite (basic_wait_fired _ _ td) by poll_side.
    unfold poll_events. world_eq.
  - rewrite (basic_wait_running _ _ run) by poll_side.
    unfold elapse; cbn [inbox eof mode now trace].
    rewrite (basic_wait_running _ _ run) by poll_side.
    reflexivity.
  - cbn [Nat.add]. unfold MaxMode.wait_for_trigger, bind, perf_counter.
    cbn [now].
    rewrite (max_wait_running _ _ run) by poll_side.
    unfold elapse; cbn [inbox eof mode now trace].
    rewrite (max_wait_running _ _ run) by poll_side.
    unfold elapse; cbn [inbox eof mode now trace].
    rewrite (max_wait_fired _ _ td) by poll_side.
    unfold poll_events. world_eq.
  - unfold MaxMode.wait_for_trigger, bind, perf_counter. cbn [now].
    rewrite (max_wait_running _ _ run) by poll_side.
    unfold elapse; cbn [inbox eof mode now trace].
    rewrite (max_wait_running _ _ run) by poll_side.
    reflexivity.
  - cbn [Nat.add]. unfold NormalMode.wait_for_trigger, bind, perf_counter.
    cbn [now].
    rewrite (normal_wait_running _ _ run) by poll_side.
    unfold elapse; cbn [inbox eof mode now trace].
    rewrite (normal_wait_running _ _ run) by poll_side.
    unfold elapse; cbn [inbox eof mode now trace].
    rewrite (normal_wait_fired _ _ td) by poll_side.
    unfold poll_events. world_eq.
  - unfold NormalMode.wait_for_trigger, bind, perf_counter. cbn [now].
    rewrite (normal_wait_running _ _ run) by poll_side.
    unfold elapse; cbn [inbox eof mode now trace].
    rewrite (normal_wait_running _ _ run) by poll_side.
    reflexivity.
  - intros pause. reflexivity.
Qed.

(** The wait loop of [rigolDAQ.py] against an instrument that keeps
    answering ['RUN']: every pass ends in the next one, 100 ms later. *)
Lemma basic_wait_keeps_polling (fuel : nat) :
  forall (gaps : list Z) (e : bool) (nw : Z) (tr : list event),
    (fuel <= List.length gaps)%nat ->
    Forall (fun g => g <= 0) gaps ->
    fst (Basic.wait_for_trigger fuel
           (mkWorld (running_replies gaps) e Blocking nw tr)) = OutOfFuel
    /\ now (snd (Basic.wait_for_trigger fuel
                   (mkWorld (running_replies gaps) e Blocking nw tr)))
       = nw + 100 * Z.of_nat fuel.
Proof.
  induction fuel as [|fuel IH]; intros gaps e nw tr Hlen Hgaps.
  - simpl. split; [reflexivity|lia].
  - destruct gaps as [|g gaps]; [simpl in Hlen; lia|].
    inversion Hgaps as [|? ? Hg Hrest]; subst.
    cbn [running_replies map].
    rewrite (basic_wait_running _ _ (s_ (String.append "RUN" NL)))
      by poll_side.
    destruct gaps as [|g2 gaps].
    + destruct fuel; [|simpl in Hlen; lia].
      simpl. split; [reflexivity|lia].
    + inversion Hrest as [|? ? Hg2 Hrest2]; subst.
      unfold elapse. cbn [map inbox eof mode now trace].
      specialize (IH ((g2 - 100) :: gaps) e (nw + Z.max 0 g + 100)
                     (tr ++ [Sent "TRIGger:STATus?"; Recv 4096; Slept 100])).
      cbn [running_replies map] in IH.
      destruct IH as [IH1 IH2].
      * simpl in *. lia.
      * constructor; [lia|assumption].
      * split; [exact IH1|]. rewrite IH2. lia.
Qed.

Lemma repeat_running (n : nat) :
  repeat (0, RUN_reply) n = running_replies (repeat 0 n).
Proof.
  induction n as [|n IH]; simpl; [reflexivity|]. rewrite IH. reflexivity.
Qed.

(** C3 fails in [rigolDAQ.py]: its wait loop has no timeout.  Against an
    instrument that answers ['RUN'] to every poll, the loop is still polling
    after any number [fuel] of passes, [100 * fuel] ms after it started. *)
Theorem C3_basic_wait_has_no_timeout (fuel : nat) :
  fst (Basic.wait_for_trigger fuel (always_running fuel)) = OutOfFuel
  /\ now (snd (Basic.wait_for_trigger fuel (always_running fuel)))
     = 100 * Z.of_nat fuel.
Proof.
  unfold always_running. rewrite repeat_running.
  destruct (basic_wait_keeps_polling fuel (repeat 0 fuel) false 0 [])
    as [H1 H2].
  - rewrite repeat_length. lia.
  - apply Forall_forall. intros g Hg. apply repeat_spec in Hg. lia.
  - split; [exact H1|]. rewrite H2. lia.
Qed.

(* ------------------------------------------------------------------ *)
(** *** The wait loops with a timeout come to an end *)

Lemma stream_elapse (d : Z) (w : world) : stream (elapse d w) = stream w.
Proof.
  unfold stream, elapse. cbn [inbox].
  destruct (inbox w) as [|[g bs] rest]; reflexivity.
Qed.

Lemma wf_inbox_elapse (d : Z) (w : world) :
  wf_inbox (inbox w) -> wf_inbox (inbox (elapse d w)).
Proof.
  unfold elapse. cbn [inbox].
  destruct (inbox w) as [|[g bs] rest]; [auto|].
  intros Hwf. inversion Hwf; subst. constructor; assumption.
Qed.

Lemma stream_shorter (w w' : world) (chunk : bytes) :
  stream w = chunk ++ stream w' ->
  (List.length (stream w') <= List.length (stream w))%nat.
Proof.
  intros ->. rewrite length_app. lia.
Qed.

(** [receive_data]'s loop returns once the fuel exceeds the bytes still to
    come, with the next bytes [got] of the stream behind the chunks it
    started with; the clock does not run backwards. *)
Lemma receive_chunks_total (fuel : nat) (n : Z) (t : Z) :
  0 < n -> 0 <= t ->
  forall (chunks : list bytes) (w : world),
    mode w = Timed t -> wf_inbox (inbox w) ->
    (List.length (stream w) < fuel)%nat ->
    exists got w',
      MaxMode.receive_chunks fuel n chunks w
      = (Ret (List.concat chunks ++ got), w')
      /\ stream w = got ++ stream w'
      /\ now w <= now w'
      /\ mode w' = Timed t /\ wf_inbox (inbox w').
Proof.
  intros Hn Ht.
  induction fuel as [|fuel IH]; intros chunks w Hm Hwf Hfuel; [lia|].
  cbn [MaxMode.receive_chunks]. unfold bind at 1. unfold try_except, bind at 1.
  destruct (recv_timed_cases n w t Hn Ht Hm Hwf)
    as [(chunk & w1 & -> & Hne & Hlen & Hs & Hm1 & He1 & Hwf1 & Hnow1 & _)
       |[(w1 & -> & Hi & He & Hi1 & Hm1 & He1 & Hnow1 & _)
        |(w1 & -> & Hs & Hm1 & He1 & Hwf1 & Hnow1 & _)]].
  - unfold ret at 1. destruct chunk as [|c chunk]; [congruence|].
    destruct (len (c :: chunk) <? n).
    + exists (c :: chunk), w1. unfold ret.
      rewrite concat_app. cbn [List.concat]. rewrite app_nil_r.
      repeat split; auto.
    + destruct (IH (chunks ++ [c :: chunk]) w1 Hm1 Hwf1)
        as (got & w' & E & Hs' & Hnow' & Hm' & Hwf').
      { rewrite Hs, length_app in Hfuel. simpl in Hfuel. lia. }
      exists ((c :: chunk) ++ got), w'.
      rewrite concat_app in E. cbn [List.concat] in E.
      rewrite app_nil_r, <- app_assoc in E.
      split; [exact E|].
      split; [rewrite Hs, Hs', <- app_assoc; reflexivity|].
      repeat split; auto; lia.
  - unfold ret. exists [], w1. rewrite app_nil_r.
    rewrite (stream_nil w Hi), (stream_nil w1 Hi1).
    repeat split; auto; try lia.
    rewrite Hi1. constructor.
  - unfold ret. exists [], w1. rewrite app_nil_r.
    rewrite Hs. repeat split; auto; lia.
Qed.

(** [receive_data] hands out the next bytes of the stream. *)
Lemma max_receive_data_total (fuel : nat) (w : world) :
  wf_inbox (inbox w) ->
  (List.length (stream w) < fuel)%nat ->
  exists data w',
    MaxMode.receive_data fuel 4096 w = (Ret data, w')
    /\ stream w = data ++ stream w'
    /\ now w <= now w'
    /\ mode w' = Timed 100 /\ wf_inbox (inbox w').
Proof.
  intros Hwf Hfuel. unfold MaxMode.receive_data, bind, settimeout.
  destruct (receive_chunks_total fuel 4096 100 ltac:(lia) ltac:(lia) []
              (set_mode (Timed 100) w))
    as (got & w' & E & Hs & Hnow & Hm & Hwf'); auto.
  exists got, w'. rewrite E. auto.
Qed.

(** What a [recv] hands out are the next bytes of the stream; a [recv] that
    raises has taken nothing. *)
Lemma recv_stream (n : Z) (w w' : world) (chunk : bytes) :
  recv n w = (Ret chunk, w') -> stream w = chunk ++ stream w'.
Proof.
  unfold recv.
  destruct (n <? 0); [discriminate|].
  destruct (n =? 0); [intros [= <- <-]; reflexivity|].
  cbn [inbox log eof mode]. unfold stream.
  destruct (inbox w) as [|[g bs] rest] eqn:Ei.
  - destruct (eof w); [|destruct (mode w); discriminate].
    intros [= <- <-]. cbn [inbox log]. rewrite Ei. reflexivity.
  - assert (Ht : bs ++ List.concat (map snd rest)
                 = fst (take n bs rest)
                   ++ List.concat (map snd (snd (take n bs rest)))).
    { unfold take. cbn [fst snd].
      rewrite <- (firstn_skipn (Z.to_nat n) bs) at 1. rewrite <- app_assoc.
      f_equal. destruct (skipn (Z.to_nat n) bs); reflexivity. }
    destruct (take n bs rest) as [c i'] eqn:Et. cbn [fst snd] in Ht.
    cbn [map snd List.concat].
    destruct (mode w) as [| |t].
    + intros [= <- <-]. exact Ht.
    + destruct (g <=? 0); [|discriminate]. intros [= <- <-]. exact Ht.
    + destruct (g <=? t); [|discriminate]. intros [= <- <-]. exact Ht.
Qed.

Lemma recv_raise_stream (n : Z) (w w' : world) (e : exn) :
  recv n w = (Raise e, w') -> stream w' = stream w.
Proof.
  unfold recv.
  destruct (n <? 0); [intros [= _ <-]; reflexivity|].
  destruct (n =? 0); [discriminate|].
  cbn [inbox log eof mode].
  destruct (inbox w) as [|[g bs] rest] eqn:Ei.
  - destruct (eof w); [discriminate|].
    destruct (mode w); try discriminate; intros [= _ <-];
      rewrite ?stream_elapse; unfold stream; cbn [inbox log]; reflexivity.
  - destruct (take n bs rest) as [c i'].
    destruct (mode w) as [| |t]; [discriminate| |].
    + destruct (g <=? 0); [discriminate|]. intros [= _ <-]. reflexivity.
    + destruct (g <=? t); [discriminate|]. intros [= _ <-].
      rewrite stream_elapse. reflexivity.
Qed.

(** So does [receive_data], on any socket. *)
Lemma receive_chunks_stream (fuel : nat) (n : Z) :
  forall (chunks : list bytes) (w w' : world) (data : bytes),
    MaxMode.receive_chunks fuel n chunks w = (Ret data, w') ->
    exists got, data = List.concat chunks ++ got /\ stream w = got ++ stream w'.
Proof.
  induction fuel as [|fuel IH]; intros chunks w w' data; [discriminate|].
  cbn [MaxMode.receive_chunks]. unfold bind at 1, try_except, bind at 1.
  destruct (recv n w) as [[chunk|e| |] w1] eqn:Er; try discriminate.
  - apply recv_stream in Er. unfold ret at 1.
    destruct chunk as [|c chunk].
    + intros [= <- <-]. exists []. rewrite app_nil_r. auto.
    + destruct (len (c :: chunk) <? n).
      * intros [= <- <-]. exists (c :: chunk).
        rewrite concat_app. cbn [List.concat]. rewrite app_nil_r. auto.
      * intros E. apply IH in E. destruct E as (got & -> & Hs).
        exists ((c :: chunk) ++ got).
        rewrite concat_app. cbn [List.concat].
        rewrite app_nil_r, <- !app_assoc. split; [reflexivity|].
        rewrite Er, Hs. reflexivity.
  - apply recv_raise_stream in Er.
    destruct e; try discriminate.
    unfold ret. intros [= <- <-]. exists []. rewrite app_nil_r. auto.
Qed.

Lemma max_receive_data_stream (fuel : nat) (n : Z) (w w' : world)
      (data : bytes) :
  MaxMode.receive_data fuel n w = (Ret data, w') ->
  stream w = data ++ stream w'.
Proof.
  unfold MaxMode.receive_data, bind, settimeout. intros E.
  apply receive_chunks_stream in E. destruct E as (got & -> & Hs).
  exact Hs.
Qed.

(* ------------------------------------------------------------------ *)
(** *** The exact read, segment by segment *)





Section ExactRead.
Variables n t : Z.
Hypothesis Ht : 0 <= t.


End ExactRead.

(** C6, as stated, fails: the exact read has no deadline of its own.  The
    timeout is the socket's and bounds each single [recv]; three bytes that
    come 90 ms apart on a socket with a timeout of 0.1 s are read to the
    end, 270 ms after the read began, and on a socket without a timeout the
    read waits for ever. *)
Lemma C6_counterexample :
  MaxMode.receive_waveform_data 3 3 4096 trickle
  = (Ret (b_ "abc"),
     mkWorld [] false (Timed 100) 270 [Recv 3; Recv 2; Recv 1])
  /\ now trickle + 100 < 270
  /\ fst (MaxMode.receive_waveform_data 3 3 4096 (silence Blocking)) = Hang.
Proof. repeat split. Qed.



Section WaitTerminates.
Context `{PyRuntime} `{Link}.






(** A wait that returns has read the status ['TD'] last. *)
Lemma fired_between_later (w0 w1 w2 : world) (data : bytes) :
  stream w0 = data ++ stream w1 -> fired_between w1 w2 -> fired_between w0 w2.
Proof.
  intros Hs (before & reply & s & Hs' & Hd & Ht).
  exists (data ++ before), reply, s.
  rewrite Hs, Hs', <- app_assoc. auto.
Qed.

Lemma max_wait_loop_fires (fuel : nat) (start : Z) :
  forall w w' : world,
    MaxMode.wait_loop fuel start w = (Ret tt, w') -> fired_between w w'.
Proof.
  induction fuel as [|fuel IH]; intros w w'; cbn [MaxMode.wait_loop];
    [discriminate|].
  unfold bind at 1, MaxMode.get_trigger_status, MaxMode.send_command,
    bind at 1, sendall.
  destruct (write_fault "TRIGger:STATus?" w) as [f|]; [discriminate|].
  unfold bind at 1.
  destruct (MaxMode.receive_data (S fuel) 4096 (log (Sent "TRIGger:STATus?") w))
    as [[data|e| |] w1] eqn:Er; try discriminate.
  apply max_receive_data_stream in Er.
  change (stream (log (Sent "TRIGger:STATus?") w)) with (stream w) in Er.
  unfold bind at 1, decode.
  destruct (utf8_decode data) as [s|] eqn:Ed; cbn [or_raise]; [|discriminate].
  unfold ret at 1. unfold ret at 1. cbv beta iota.
  destruct (text_eqb (strip s) TD) eqn:Et.
  - intros [= <-]. exists [], data, s. auto.
  - unfold bind, perf_counter.
    destruct (now w1 - start >? 10000); [discriminate|].
    unfold sleep. intros E. apply IH in E.
    eapply fired_between_later; [|exact E].
    rewrite stream_elapse.
    change (stream (log (Slept 100) w1)) with (stream w1). exact Er.
Qed.

Lemma max_wait_fires (fuel : nat) (w w' : world) :
  MaxMode.wait_for_trigger fuel w = (Ret tt, w') -> fired_between w w'.
Proof.
  unfold MaxMode.wait_for_trigger, bind, perf_counter.
  apply max_wait_loop_fires.
Qed.


End WaitTerminates.

(* ================================================================== *)
(** ** Stop before fetch *)

Lemma fetch_when_halted_app (s : stage) (d1 d2 : list event) :
  fetch_when_halted s (d1 ++ d2)
  = match fetch_when_halted s d1 with
    | Some s' => fetch_when_halted s' d2
    | None => None
    end.
Proof.
  revert s. induction d1 as [|e d1 IH]; intros s; simpl; [reflexivity|].
  destruct e as [cmd|n|ms]; auto.
  destruct (next_stage s cmd); auto.
Qed.

Lemma fetch_when_halted_neutral (s : stage) (d : list event) :
  forallb neutral d = true -> fetch_when_halted s d = Some s.
Proof.
  induction d as [|e d IH]; intros Hd; simpl in *; [reflexivity|].
  apply andb_prop in Hd. destruct Hd as [He Hd].
  destruct e as [cmd|n|ms]; auto.
  simpl in He. unfold next_stage.
  destruct (is_arm cmd); [discriminate|].
  destruct (is_poll cmd); [discriminate|].
  destruct (is_stop cmd); [discriminate|].
  destruct (is_fetch cmd); [discriminate|]. auto.
Qed.

Lemma keeps_protocol_ret {A} (P : stage -> Prop) (a : A) :
  keeps_protocol P (ret a) P.
Proof.
  intros w s Hs. exists [], s. simpl. rewrite app_nil_r. auto.
Qed.

Lemma keeps_protocol_raise {A} (P Q : stage -> Prop) (e : exn) :
  keeps_protocol P (@raise A e) Q.
Proof.
  intros w s Hs. exists [], s. simpl. rewrite app_nil_r.
  repeat split; auto. intros a [=].
Qed.

Lemma keeps_protocol_out_of_fuel {A} (P Q : stage -> Prop) :
  keeps_protocol P (@out_of_fuel A) Q.
Proof.
  intros w s Hs. exists [], s. simpl. rewrite app_nil_r.
  repeat split; auto. intros a [=].
Qed.

Lemma keeps_protocol_bind {A B} (P Q R : stage -> Prop)
      (m : M A) (k : A -> M B) :
  keeps_protocol P m Q -> (forall a, keeps_protocol Q (k a) R) ->
  keeps_protocol P (bind m k) R.
Proof.
  intros Hm Hk w s Hs. unfold bind.
  destruct (Hm w s Hs) as (d1 & s1 & Ht1 & Hf1 & Hq).
  destruct (m w) as [[a|e| |] w1]; simpl in Ht1;
    try solve [exists d1, s1; simpl; repeat split; auto; intros b [=]].
  destruct (Hk a w1 s1 (Hq a eq_refl)) as (d2 & s2 & Ht2 & Hf2 & Hr).
  exists (d1 ++ d2), s2. rewrite Ht2, Ht1, app_assoc.
  split; [reflexivity|]. split; [|exact Hr].
  rewrite fetch_when_halted_app, Hf1. exact Hf2.
Qed.

Lemma keeps_protocol_weaken {A} (P P' Q Q' : stage -> Prop) (m : M A) :
  keeps_protocol P m Q ->
  (forall s, P' s -> P s) -> (forall s, Q s -> Q' s) ->
  keeps_protocol P' m Q'.
Proof.
  intros Hm HP HQ w s Hs.
  destruct (Hm w s (HP s Hs)) as (d & s' & Ht & Hf & Hq).
  exists d, s'. split; [exact Ht|]. split; [exact Hf|].
  intros a Ha. apply HQ, (Hq a Ha).
Qed.

(** What sends none of the four commands leaves the stage as it is. *)
Lemma keeps_protocol_emits {A} (P : stage -> Prop) (m : M A) :
  emits neutral m -> keeps_protocol P m P.
Proof.
  intros Hm w s Hs. destruct (Hm w) as (d & Ht & Hd).
  exists d, s. rewrite fetch_when_halted_neutral by exact Hd. auto.
Qed.

Lemma keeps_protocol_sendall `{Link} (P Q : stage -> Prop) (cmd : string) :
  (forall s, P s -> exists s', next_stage s cmd = Some s' /\ Q s') ->
  keeps_protocol P (sendall cmd) Q.
Proof.
  intros Hc w s Hs. unfold sendall.
  destruct (write_fault cmd w) as [f|].
  - exists [], s. simpl. rewrite app_nil_r. repeat split; auto.
    intros a [=].
  - destruct (Hc s Hs) as (s' & Hn & Hq).
    exists [Sent cmd], s'. simpl. rewrite Hn. auto.
Qed.

Lemma stops_on_trigger_before {A B} (wait : M unit)
      (m : M A) (k : A -> M B) :
  emits no_fetch m -> (forall a, stops_on_trigger wait (k a)) ->
  stops_on_trigger wait (bind m k).
Proof.
  intros Hm Hk w. unfold bind.
  destruct (Hm w) as (d0 & Ht0 & Hd0).
  destruct (m w) as [[a|e| |] w0]; simpl in Ht0;
    try solve [exists d0; simpl; auto].
  destruct (Hk a w0) as (d & Ht & Hd).
  exists (d0 ++ d). rewrite Ht, Ht0, app_assoc. split; [reflexivity|].
  destruct Hd as [Hd|(d1 & d2 & w1 & w2 & -> & Hw & Htw & Hf & H1 & H2)].
  - left. rewrite forallb_app, Hd0, Hd. reflexivity.
  - right. exists (d0 ++ d1), d2, w1, w2.
    rewrite <- app_assoc. split; [reflexivity|].
    split; [exact Hw|].
    split; [rewrite Htw, Ht0, app_assoc; reflexivity|].
    split; [exact Hf|].
    rewrite forallb_app, Hd0, H1. auto.
Qed.

Lemma stops_on_trigger_wait `{Link} {B} (wait : M unit) (k : M B) :
  emits no_fetch wait ->
  (forall w1 w2, wait w1 = (Ret tt, w2) -> fired_between w1 w2) ->
  emits after_stop k ->
  stops_on_trigger wait
    (bind wait (fun _ => bind (sendall ":STOP") (fun _ => k))).
Proof.
  intros Hwait Hfired Hk w. unfold bind at 1.
  destruct (Hwait w) as (d1 & Ht1 & Hd1).
  destruct (wait w) as [[[]|e| |] w2] eqn:Ew; simpl in Ht1;
    try solve [exists d1; simpl; auto].
  unfold bind, sendall.
  destruct (write_fault ":STOP" w2) as [f|]; [exists d1; simpl; auto|].
  destruct (Hk (log (Sent ":STOP") w2)) as (d2 & Ht2 & Hd2).
  exists (d1 ++ Sent ":STOP" :: d2). split.
  - rewrite Ht2. simpl. rewrite Ht1, <- !app_assoc. reflexivity.
  - right. exists d1, d2, w, w2. auto 10.
Qed.

Section MaxModeStop.
Context `{PyRuntime} `{Link}.

Ltac neutral_io := apply keeps_protocol_emits.

Lemma max_get_trigger_status_protocol fuel :
  keeps_protocol polling (MaxMode.get_trigger_status fuel) (at_stage Polled).
Proof.
  unfold MaxMode.get_trigger_status, MaxMode.send_command.
  eapply keeps_protocol_bind.
  - apply (keeps_protocol_sendall polling (at_stage Polled)). unfold polling.
    intros s [Hs | Hs]; subst s; exists Polled; split; reflexivity.
  - intros _. neutral_io. unfold decode. emits_tac.
    apply max_receive_data_emits; io_ok.
Qed.

Lemma max_wait_loop_protocol fuel start :
  keeps_protocol polling (MaxMode.wait_loop fuel start) (at_stage Polled).
Proof.
  induction fuel as [|fuel IH]; cbn [MaxMode.wait_loop].
  - apply keeps_protocol_out_of_fuel.
  - eapply keeps_protocol_bind; [apply max_get_trigger_status_protocol|].
    intros status. destruct (text_eqb status TD); [apply keeps_protocol_ret|].
    eapply keeps_protocol_bind; [neutral_io; emits_tac|]. intros t.
    destruct (t - start >? 10000); [apply keeps_protocol_raise|].
    eapply keeps_protocol_bind; [neutral_io; emits_tac|]. intros _.
    eapply keeps_protocol_weaken; [exact IH| |auto].
    unfold at_stage. intros s Hs. subst s. right. reflexivity.
Qed.

Lemma max_wait_for_trigger_protocol fuel :
  keeps_protocol polling (MaxMode.wait_for_trigger fuel) (at_stage Polled).
Proof.
  unfold MaxMode.wait_for_trigger.
  eapply keeps_protocol_bind; [neutral_io; emits_tac|]. intros start.
  apply max_wait_loop_protocol.
Qed.

Lemma request_block_protocol fuel channel attempts :
  keeps_protocol (at_stage Halted)
                 (MaxMode.request_block fuel channel attempts)
                 (at_stage Halted).
Proof.
  induction attempts as [|attempts IH]; cbn [MaxMode.request_block].
  - apply keeps_protocol_raise.
  - unfold MaxMode.send_command.
    eapply keeps_protocol_bind.
    { apply (keeps_protocol_sendall (at_stage Halted) (at_stage Halted)).
      unfold at_stage. intros s Hs. subst s. exists Halted.
      split; reflexivity. }
    intros _.
    eapply keeps_protocol_bind;
      [neutral_io; apply max_receive_data_emits; io_ok|].
    intros data.
    destruct (negb (find hash data =? -1)); [apply keeps_protocol_ret|].
    eapply keeps_protocol_bind; [neutral_io; emits_tac|]. intros _.
    exact IH.
Qed.

Lemma max_get_waveform_data_protocol fuel channel c :
  keeps_protocol (at_stage Halted)
                 (MaxMode.get_waveform_data fuel channel c)
                 (at_stage Halted).
Proof.
  unfold MaxMode.get_waveform_data, MaxMode.send_command.
  eapply keeps_protocol_bind; [neutral_io; emits_tac|]. intros _.
  eapply keeps_protocol_bind; [apply request_block_protocol|].
  intros [data start]. neutral_io. emits_tac.
  apply max_decode_block_emits; io_ok.
Qed.

(** One pass of the acquisition loop of the max-mode script, from whatever
    stage the pass before has left. *)
Lemma max_acquire_one_protocol fuel c3 c4 :
  keeps_protocol any_stage (MaxMode.acquire_one fuel c3 c4)
                 (at_stage Halted).
Proof.
  unfold MaxMode.acquire_one, MaxMode.send_command.
  eapply keeps_protocol_bind;
    [neutral_io; apply flush_socket_emits; io_ok|]. intros _.
  eapply keeps_protocol_bind; [neutral_io; emits_tac|]. intros _.
  eapply keeps_protocol_bind.
  { apply (keeps_protocol_sendall any_stage (at_stage Armed)).
    intros s _. exists Armed. split; reflexivity. }
  intros _.
  eapply keeps_protocol_bind.
  { eapply keeps_protocol_weaken;
      [apply max_wait_for_trigger_protocol| |intros s Hs; exact Hs].
    unfold at_stage. intros s Hs. subst s. left. reflexivity. }
  intros _.
  eapply keeps_protocol_bind.
  { apply (keeps_protocol_sendall (at_stage Polled) (at_stage Halted)).
    unfold at_stage. intros s Hs. subst s. exists Halted.
    split; reflexivity. }
  intros _.
  eapply keeps_protocol_bind; [neutral_io; emits_tac|]. intros _.
  eapply keeps_protocol_bind; [apply max_get_waveform_data_protocol|].
  intros v3.
  eapply keeps_protocol_bind;
    [neutral_io; apply flush_socket_emits; io_ok|]. intros _.
  eapply keeps_protocol_bind; [apply max_get_waveform_data_protocol|].
  intros v4. apply keeps_protocol_ret.
Qed.

Lemma max_acquire_loop_protocol fuel c3 c4 ntrig :
  keeps_protocol any_stage (MaxMode.acquire_loop fuel c3 c4 ntrig) any_stage.
Proof.
  induction ntrig as [|n IH]; cbn [MaxMode.acquire_loop].
  - apply keeps_protocol_ret.
  - eapply keeps_protocol_bind.
    { eapply keeps_protocol_weaken;
        [apply max_acquire_one_protocol|auto|intros s _; exact I]. }
    intros r. eapply keeps_protocol_bind; [exact IH|].
    intros rs. apply keeps_protocol_ret.
Qed.

Lemma max_acquire_protocol fuel c3 c4 ntrig :
  keeps_protocol any_stage (MaxMode.acquire fuel c3 c4 ntrig) any_stage.
Proof.
  unfold MaxMode.acquire, MaxMode.send_command.
  eapply keeps_protocol_bind.
  { apply (keeps_protocol_sendall any_stage any_stage).
    intros s _. destruct s; eexists; split; try reflexivity; exact I. }
  intros _.
  eapply keeps_protocol_bind.
  { apply (keeps_protocol_sendall any_stage any_stage).
    intros s _. exists Armed. split; [reflexivity|exact I]. }
  intros _. apply max_acquire_loop_protocol.
Qed.

(** The pass stops the acquisition when the wait has returned, and it
    returns on ['TD'] only. *)
Lemma max_acquire_one_stops fuel c3 c4 :
  stops_on_trigger (MaxMode.wait_for_trigger fuel)
                   (MaxMode.acquire_one fuel c3 c4).
Proof.
  unfold MaxMode.acquire_one, MaxMode.send_command.
  apply stops_on_trigger_before;
    [apply flush_socket_emits; io_ok | intros _].
  apply stops_on_trigger_before; [emits_tac | intros _].
  apply stops_on_trigger_before; [emits_tac | intros _].
  apply stops_on_trigger_wait.
  - apply max_wait_for_trigger_emits; io_ok.
  - apply max_wait_fires.
  - emits_tac.
    + apply max_get_waveform_data_emits; io_ok.
    + apply flush_socket_emits; io_ok.
    + apply max_get_waveform_data_emits; io_ok.
Qed.
End MaxModeStop.

(** C9, as stated, fails in the two scripts that read the screen buffer
    ([WAVeform:MODE NORMal]): they fetch right after the trigger has fired,
    and no [:STOP] lies between the status query and [WAVeform:DATA?]. *)
Lemma C9_counterexample :
  trace (snd (NormalMode.acquire 5 unit_calibration unit_calibration 1
                fired_normal))
  = [Sent ":STOP"; Sent "TRIGger:SWEep SINGle"; Sent ":SING";
     Sent "TRIGger:STATus?"; Recv 4096;
     Sent "WAVeform:SOURce CHAN3"; Sent "WAVeform:DATA?"; Recv 4096;
     Sent "WAVeform:SOURce CHAN4"; Sent "WAVeform:DATA?"; Recv 4096]
  /\ (exists rs, fst (NormalMode.acquire 5 unit_calibration unit_calibration 1
                        fired_normal) = Ret rs)
  /\ fetch_when_halted Idle
       (trace (snd (NormalMode.acquire 5 unit_calibration unit_calibration 1
                      fired_normal))) = None
  /\ (exists rs, fst (Basic.acquire 5 1 fired_basic) = Ret rs)
  /\ fetch_when_halted Idle
       (trace (snd (Basic.acquire 5 1 fired_basic))) = None.
Proof.
  split; [vm_compute; reflexivity|].
  split; [eexists; vm_compute; reflexivity|].
  split; [vm_compute; reflexivity|].
  split; [eexists; vm_compute; reflexivity|].
  vm_compute; reflexivity.
Qed.

(** C9 (amended): in the max-mode script, whatever the instrument sends and
    whichever write the connection refuses, a pass of the acquisition loop
    that fetches anything has waited for the trigger, the wait has returned
    on a status reply ['TD'], [:STOP] was the command sent next, before the
    first [WAVeform:DATA?], and no arming command and no status query was
    sent after it; over the whole run, however it ends, waveform data is
    fetched only from an acquisition that was armed, asked for its status
    and then stopped.  A pass of the loop of [rigolDAQ.py] or of
    [rigolDAQ_normal_mode.py] sends no [:STOP] at all. *)
Theorem C9_stop_before_fetch `{PyRuntime} `{Link}
    (fuel : nat) (c3 c4 : calibration) (ntrig : nat) :
  stops_on_trigger (MaxMode.wait_for_trigger fuel)
                   (MaxMode.acquire_one fuel c3 c4)
  /\ keeps_protocol any_stage (MaxMode.acquire fuel c3 c4 ntrig) any_stage
  /\ emits no_stop (NormalMode.acquire_one fuel c3 c4)
  /\ emits no_stop (Basic.acquire_one fuel).
Proof.
  split; [apply max_acquire_one_stops|].
  split; [apply max_acquire_protocol|]. split.
  - apply normal_acquire_one_emits; io_ok.
  - apply basic_acquire_one_emits; try io_ok.
    intros cmd Hc. simpl. rewrite Hc. reflexivity.
Qed.

(* ================================================================== *)
(** ** Responses without the marker *)

Lemma find_app_none (c : byte) (a b : bytes) :
  find c (a ++ b) = -1 -> find c a = -1 /\ find c b = -1.
Proof.
  induction a as [|x a IH]; simpl; intros Hf.
  - auto.
  - destruct (Byte.eqb x c); [discriminate|].
    pose proof (find_bounds c (a ++ b)) as Hb.
    pose proof (find_bounds c a) as Ha.
    destruct (Z.ltb_spec (find c (a ++ b)) 0) as [Hlt|Hge]; [|lia].
    destruct IH as [IHa IHb]; [lia|].
    rewrite IHa. auto.
Qed.

Lemma count_sent_app (cmd : string) (d1 d2 : list event) :
  count_sent cmd (d1 ++ d2) = (count_sent cmd d1 + count_sent cmd d2)%nat.
Proof.
  unfold count_sent. rewrite filter_app, length_app. reflexivity.
Qed.

Lemma count_slept_app (ms : Z) (d1 d2 : list event) :
  count_slept ms (d1 ++ d2) = (count_slept ms d1 + count_slept ms d2)%nat.
Proof.
  unfold count_slept. rewrite filter_app, length_app. reflexivity.
Qed.

Lemma count_sent_reads (cmd : string) (d : list event) :
  forallb reads_only d = true -> count_sent cmd d = 0%nat.
Proof.
  unfold count_sent.
  induction d as [|e d IH]; simpl; intros Hd; [reflexivity|].
  apply andb_prop in Hd. destruct Hd as [He Hd].
  destruct e; simpl in *; try discriminate; auto.
Qed.

Lemma count_slept_reads (ms : Z) (d : list event) :
  forallb reads_only d = true -> count_slept ms d = 0%nat.
Proof.
  unfold count_slept.
  induction d as [|e d IH]; simpl; intros Hd; [reflexivity|].
  apply andb_prop in Hd. destruct Hd as [He Hd].
  destruct e; simpl in *; try discriminate; auto.
Qed.

(** The events of [receive_data] are reads only. *)
Lemma max_receive_data_reads (fuel : nat) (w : world) :
  exists d, trace (snd (MaxMode.receive_data fuel 4096 w)) = trace w ++ d
            /\ forallb reads_only d = true.
Proof.
  apply (max_receive_data_emits reads_only (fun _ => eq_refl) fuel 4096 w).
Qed.

Section MissingMarker.
Context `{PyRuntime}.

(** The max-mode script asks for the block [attempts] times, 100 ms apart,
    and then gives up, when the marker never shows up in what the
    instrument sends. *)
Lemma max_request_block_gives_up (fuel : nat) (channel : Z) (attempts : nat) :
  forall w : world,
    wf_inbox (inbox w) ->
    (List.length (stream w) < fuel)%nat ->
    find hash (stream w) = -1 ->
    exists w' d,
      MaxMode.request_block fuel channel attempts w
      = (Raise (no_header_found channel), w')
      /\ trace w' = trace w ++ d
      /\ count_sent "WAVeform:DATA?" d = attempts
      /\ count_slept 100 d = attempts.
Proof.
  induction attempts as [|attempts IH]; intros w Hwf Hfuel Hfind.
  - exists w, []. simpl. rewrite app_nil_r. auto.
  - cbn [MaxMode.request_block].
    unfold MaxMode.send_command, bind at 1, sendall, write_fault, reliable. fold reliable. unfold bind at 1.
    set (w0 := log (Sent "WAVeform:DATA?") w).
    destruct (max_receive_data_reads fuel w0) as (d1 & Ht1 & Hd1).
    destruct (max_receive_data_total fuel w0)
      as (data & w1 & E & Hs & Hnow & Hm & Hwf1); auto.
    rewrite E in *. cbn [snd] in Ht1.
    change (stream w0) with (stream w) in Hs.
    rewrite Hs in Hfind. apply find_app_none in Hfind.
    destruct Hfind as [Hfd Hfs]. rewrite Hfd. cbn [Z.eqb negb].
    unfold bind, sleep.
    destruct (IH (elapse 100 (log (Slept 100) w1)))
      as (w' & d & E' & Ht' & Hc' & Hp').
    + apply wf_inbox_elapse. exact Hwf1.
    + rewrite stream_elapse. change (stream (log (Slept 100) w1)) with (stream w1).
      apply stream_shorter in Hs. lia.
    + rewrite stream_elapse. exact Hfs.
    + exists w', (Sent "WAVeform:DATA?" :: d1 ++ Slept 100 :: d).
      split; [exact E'|].
      split.
      { rewrite Ht'. unfold elapse, log. cbn [trace]. rewrite Ht1.
        unfold w0, log. cbn [trace]. rewrite <- !app_assoc. reflexivity. }
      change (Sent "WAVeform:DATA?" :: d1 ++ Slept 100 :: d)
        with ([Sent "WAVeform:DATA?"] ++ d1 ++ [Slept 100] ++ d).
      split.
      { rewrite !count_sent_app, (count_sent_reads _ d1 Hd1), Hc'.
        reflexivity. }
      { rewrite !count_slept_app, (count_slept_reads _ d1 Hd1), Hp'.
        reflexivity. }
Qed.
End MissingMarker.

(** C4 fails in [rigolDAQ_normal_mode.py]: [get_waveform] does not test the
    result of [find].  With the numeric reply [1000] in the buffer, which
    holds no marker, it parses a header all the same, from the first byte of
    the buffer (length-of-length 1, byte count 0), and returns an empty
    waveform instead of an error; from the buffer [15abcdefgh] it returns
    the five samples [abcde]. *)
Theorem C4_normal_mode_ignores_missing_marker `{PyRuntime}
    (fuel : nat) (c : calibration) (rest : list segment) (e : bool)
    (nw : Z) (tr : list event) (w : world) :
  (find hash stale_reply = -1
   /\ NormalMode.decode_block fuel stale_reply w = (Ret [], w)
   /\ NormalMode.get_waveform fuel 3 c
        (mkWorld ((0, stale_reply) :: rest) e (Timed 1000) nw tr)
      = (Ret [],
         mkWorld rest e (Timed 1000) (nw + 0)
                 (tr ++ [Sent "WAVeform:SOURce CHAN3"; Sent "WAVeform:DATA?";
                         Recv 4096])))
  /\ (find hash headerless_reply = -1
      /\ NormalMode.decode_block fuel headerless_reply w
         = (Ret (b_ "abcde"), w)).
Proof.
  assert (Hd : forall w', NormalMode.decode_block fuel stale_reply w'
                          = (Ret [], w')).
  { intros w'. unfold NormalMode.decode_block.
    change (read_header stale_reply (find hash stale_reply))
      with (@inr exn _ (1, 0)).
    rewrite bind_lift_inr. unfold bind.
    destruct fuel; reflexivity. }
  split; [split; [reflexivity|split; [apply Hd|]] | split; [reflexivity|]].
  - unfold NormalMode.get_waveform, NormalMode.send_command,
      NormalMode.receive_data, bind at 1, sendall, write_fault, reliable. fold reliable.
    unfold bind at 1, sendall, write_fault, reliable. fold reliable. unfold bind at 1.
    unfold log. cbn [inbox eof mode now trace].
    rewrite recv_whole_segment by (try (right; exists 1000); poll_side).
    unfold bind. rewrite Hd. unfold ret. cbn [calibrate scale frombuffer map].
    rewrite <- !app_assoc. reflexivity.
  - unfold NormalMode.decode_block.
    change (read_header headerless_reply (find hash headerless_reply))
      with (@inr exn _ (1, 5)).
    rewrite bind_lift_inr. unfold bind.
    destruct fuel; reflexivity.
Qed.

(* ================================================================== *)
(** ** Scalar queries *)

Lemma count_sent_one (cmd : string) : count_sent cmd [Sent cmd] = 1%nat.
Proof. unfold count_sent. simpl. rewrite String.eqb_refl. reflexivity. Qed.

Section QueryFloat.
Context `{PyRuntime}.

(** One attempt of the max-mode [query_float] never raises: its handler
    catches every exception. *)
Lemma max_query_float_try_total (fuel : nat) (w : world) :
  wf_inbox (inbox w) ->
  (List.length (stream w) < fuel)%nat ->
  exists r w' d,
    MaxMode.query_float_try fuel w = (Ret r, w')
    /\ trace w' = trace w ++ d
    /\ forallb reads_only d = true
    /\ wf_inbox (inbox w')
    /\ (List.length (stream w') <= List.length (stream w))%nat.
Proof.
  intros Hwf Hfuel.
  destruct (max_receive_data_reads fuel w) as (d & Ht & Hd).
  destruct (max_receive_data_total fuel w Hwf Hfuel)
    as (data & w1 & E & Hs & _ & _ & Hwf1).
  rewrite E in Ht. cbn [snd] in Ht.
  assert (Hlen : (List.length (stream w1) <= List.length (stream w))%nat)
    by (eapply stream_shorter; eassumption).
  unfold MaxMode.query_float_try, try_except, bind at 1. rewrite E.
  unfold bind at 1, decode.
  destruct (utf8_decode data) as [s|]; cbn [or_raise].
  - unfold ret at 1. destruct (strip s) as [|c s'].
    + exists None, w1, d. auto.
    + unfold bind, py_float.
      destruct (float_of_text (c :: s')) as [v|]; cbn [or_raise].
      * exists (Some v), w1, d. auto.
      * exists None, w1, d. auto.
  - exists None, w1, d. auto.
Qed.

(** The max-mode [query_float] sends the command once per attempt, pauses
    10 ms after a failed one, and raises, with the command in the message,
    only when all [retries] attempts have failed. *)
Lemma max_query_float_outcomes (fuel : nat) (cmd : string) (retries : nat) :
  forall w : world,
    wf_inbox (inbox w) ->
    (List.length (stream w) < fuel)%nat ->
    exists o w' d,
      MaxMode.query_float fuel cmd retries w = (o, w')
      /\ trace w' = trace w ++ d
      /\ ((exists v, o = Ret v
                     /\ (1 <= count_sent cmd d <= retries)%nat)
          \/ (o = Raise (no_float_response cmd)
              /\ count_sent cmd d = retries
              /\ count_slept 10 d = retries)).
Proof.
  unfold MaxMode.query_float.
  induction retries as [|retries IH]; intros w Hwf Hfuel.
  - exists (Raise (no_float_response cmd)), w, []. simpl.
    rewrite app_nil_r. split; [reflexivity|]. split; [reflexivity|].
    right. auto.
  - cbn [MaxMode.query_float_from].
    unfold MaxMode.send_command, bind at 1, sendall, write_fault, reliable. fold reliable. unfold bind at 1.
    set (w0 := log (Sent cmd) w).
    destruct (max_query_float_try_total fuel w0)
      as (r & w1 & d1 & -> & Ht1 & Hd1 & Hwf1 & Hlen1); auto.
    destruct r as [v|].
    + exists (Ret v), w1, (Sent cmd :: d1). unfold ret.
      split; [reflexivity|].
      split.
      { rewrite Ht1. unfold w0, log. cbn [trace].
        rewrite <- app_assoc. reflexivity. }
      left. exists v. split; [reflexivity|].
      change (Sent cmd :: d1) with ([Sent cmd] ++ d1).
      rewrite count_sent_app, count_sent_one, (count_sent_reads _ d1 Hd1).
      lia.
    + unfold bind, sleep.
      destruct (IH (elapse 10 (log (Slept 10) w1)))
        as (o & w' & d & E & Ht & Ho).
      { apply wf_inbox_elapse. exact Hwf1. }
      { rewrite stream_elapse.
        change (stream (log (Slept 10) w1)) with (stream w1).
        change (stream w0) with (stream w) in Hlen1. lia. }
      exists o, w', (Sent cmd :: d1 ++ Slept 10 :: d).
      split; [exact E|].
      split.
      { rewrite Ht. unfold elapse, log. cbn [trace]. rewrite Ht1.
        unfold w0, log. cbn [trace]. rewrite <- !app_assoc. reflexivity. }
      change (Sent cmd :: d1 ++ Slept 10 :: d)
        with ([Sent cmd] ++ d1 ++ [Slept 10] ++ d).
      rewrite !count_sent_app, !count_slept_app, count_sent_one,
        (count_sent_reads _ d1 Hd1), (count_slept_reads _ d1 Hd1).
      destruct Ho as [(v & -> & Hc)|(-> & Hc & Hp)].
      * left. exists v. split; [reflexivity|]. simpl. lia.
      * right. split; [reflexivity|]. simpl. rewrite Hc, Hp. auto.
Qed.
End QueryFloat.

(** C7 fails in [rigolDAQ.py] and [rigolDAQ_normal_mode.py]: their
    [query_float] makes a single attempt.  A reply that does not parse as a
    float raises the [ValueError] of the conversion at once, after one send
    and one [recv], with no pause and no second attempt. *)
Theorem C7_query_float_without_retry `{PyRuntime}
    (cmd : string) (g t : Z) (reply : bytes) (rest : list segment)
    (e : bool) (nw : Z) (tr : list event) :
  len reply <= 4096 -> g <= t ->
  (forall s, utf8_decode reply = Some s -> float_of_text s = None) ->
  (forall s, utf8_decode reply = Some s -> float_of_text (strip s) = None) ->
  exists err,
    (err = InvalidLiteral \/ err = UnicodeDecodeError)
    /\ Basic.query_float cmd (mkWorld ((g, reply) :: rest) e Blocking nw tr)
       = (Raise err,
          mkWorld rest e Blocking (nw + Z.max 0 g)
                  (tr ++ [Sent cmd; Recv 4096]))
    /\ NormalMode.query_float cmd
         (mkWorld ((g, reply) :: rest) e (Timed t) nw tr)
       = (Raise err,
          mkWorld rest e (Timed t) (nw + Z.max 0 g)
                  (tr ++ [Sent cmd; Recv 4096])).
Proof.
  intros Hl Hg Hbasic Hnormal.
  unfold Basic.query_float, NormalMode.query_float, NormalMode.query,
    Basic.send_command, Basic.receive_data,
    NormalMode.send_command, NormalMode.receive_data.
  unfold bind, sendall, write_fault, reliable, log. fold reliable. cbn [inbox eof mode now trace].
  rewrite !recv_whole_segment by (eauto; lia).
  unfold decode, py_float.
  destruct (utf8_decode reply) as [s|] eqn:E; cbn [or_raise].
  - exists InvalidLiteral. split; [left; reflexivity|].
    unfold ret. rewrite (Hbasic s eq_refl), (Hnormal s eq_refl).
    cbn [or_raise]. unfold raise. rewrite <- !app_assoc. auto.
  - exists UnicodeDecodeError. split; [right; reflexivity|].
    unfold raise. rewrite <- !app_assoc. auto.
Qed.

(** An empty line in reply to [WAVeform:YINC?]. *)
Lemma C7_witness :
  exists err,
    (err = InvalidLiteral \/ err = UnicodeDecodeError)
    /\ Basic.query_float "WAVeform:YINC?"
         (mkWorld ((0, b_ NL) :: []) false Blocking 0 [])
       = (Raise err,
          mkWorld [] false Blocking (0 + Z.max 0 0)
                  ([] ++ [Sent "WAVeform:YINC?"; Recv 4096]))
    /\ NormalMode.query_float "WAVeform:YINC?"
         (mkWorld ((0, b_ NL) :: []) false (Timed 1000) 0 [])
       = (Raise err,
          mkWorld [] false (Timed 1000) (0 + Z.max 0 0)
                  ([] ++ [Sent "WAVeform:YINC?"; Recv 4096])).
Proof.
  apply (C7_query_float_without_retry "WAVeform:YINC?" 0 1000 (b_ NL) []
           false 0 []).
  - vm_compute. discriminate.
  - lia.
  - intros s E. vm_compute in E. injection E as <-. reflexivity.
  - intros s E. vm_compute in E. injection E as <-. reflexivity.
Defined.

(** The empty response of a closed peer: whatever the interpreter, the
    single attempt of [rigolDAQ.py] ends in the [ValueError] of [float] on the empty text. *)
Example query_float_on_closed_peer `{PyRuntime} (cmd : string) :
  Basic.query_float cmd (idle Blocking)
  = (Raise InvalidLiteral,
     mkWorld [] true Blocking 0 [Sent cmd; Recv 4096]).
Proof.
  unfold Basic.query_float, Basic.send_command, Basic.receive_data, bind,
    sendall, write_fault, reliable, decode, py_float. fold reliable.
  cbn. rewrite float_of_empty. reflexivity.
Qed.

(** [rigolDAQ.py] sets no socket timeout either: on a silent socket the
    first status read of its wait loop never returns. *)
Example basic_wait_hangs_on_silence (fuel : nat) :
  fst (Basic.wait_for_trigger (S fuel) (silence Blocking)) = Hang.
Proof. reflexivity. Qed.

(** On the same silent socket the two scripts with a timeout give up. *)
Example timed_waits_on_silence `{PyRuntime} :
  fst (MaxMode.wait_for_trigger 200 (silence (Timed 20000)))
  = Raise (TimeoutError "Timeout waiting for trigger")
  /\ fst (NormalMode.wait_for_trigger 200 10000 (silence (Timed 1000)))
     = Raise SocketTimeout.
Proof. split; vm_compute; reflexivity. Qed.

(* ================================================================== *)
(** ** Exceptions and blocking reads *)
















Lemma guarded_py_float `{PyRuntime} P (E : exn -> so_mode -> Prop) (s : text) :
  (forall md, E InvalidLiteral md) -> guarded P (py_float s) P E.
Proof.
  intros He w Hw. unfold py_float. destruct (float_of_text s); simpl; auto.
Qed.



Section HeaderErrors.
Context `{PyRuntime}.

Lemma parse_int_errors (bs : bytes) (e : exn) :
  parse_int bs = inl e -> malformed_header e.
Proof.
  unfold parse_int, malformed_header.
  destruct (utf8_decode bs) as [s|]; [|intros [= <-]; auto].
  destruct (int_of_text s); [discriminate|intros [= <-]; auto].
Qed.

Lemma read_header_errors (data : bytes) (start : Z) (e : exn) :
  read_header data start = inl e -> malformed_header e.
Proof.
  unfold read_header.
  destruct (parse_int (slice data (start + 1) (start + 2))) as [e1|hl] eqn:E1.
  - intros [= <-]. eapply parse_int_errors; eassumption.
  - destruct (parse_int (slice data (start + 2) (start + 2 + hl)))
      as [e2|bc] eqn:E2; [|discriminate].
    intros [= <-]. eapply parse_int_errors; eassumption.
Qed.

End HeaderErrors.

Section MaxModeGuarded.
Context `{PyRuntime} `{Link}.













End MaxModeGuarded.

Section NormalModeGuarded.
Context `{PyRuntime} `{Link}.
Variable t : Z.




End NormalModeGuarded.


(** Each of these exceptions does leave the loop on some stream: silence; a
    trigger and then silence; a header [#0]; a block cut short by silence,
    and by the peer closing; a peer that has closed before the status
    query. *)
Example max_mode_errors_met :
  fst (MaxMode.acquire 200 unit_calibration unit_calibration 1
         (silence (Timed 20000)))
  = Raise (TimeoutError "Timeout waiting for trigger")
  /\ fst (MaxMode.acquire 5 unit_calibration unit_calibration 1
            (mkWorld [(60, TD_reply)] false (Timed 20000) 0 []))
     = Raise (no_header_found 3)
  /\ fst (MaxMode.acquire 5 unit_calibration unit_calibration 1
            (mkWorld [(60, TD_reply); (60, b_ "#0")] false (Timed 20000) 0 []))
     = Raise InvalidLiteral
  /\ fst (MaxMode.acquire 5 unit_calibration unit_calibration 1
            (mkWorld [(60, TD_reply); (60, b_ "#15ab")] false (Timed 20000) 0 []))
     = Raise SocketTimeout
  /\ fst (MaxMode.acquire 5 unit_calibration unit_calibration 1
            (mkWorld [(60, TD_reply); (60, b_ "#15ab")] true (Timed 20000) 0 []))
     = Raise connection_lost
  /\ fst (@MaxMode.acquire integer_runtime (hangs_up_after 1) 5
            unit_calibration unit_calibration 1 (idle (Timed 20000)))
     = Raise BrokenPipeError.
Proof. repeat split; vm_compute; reflexivity. Qed.



(** On a blocking socket, as [rigolDAQ.py] leaves it, the same loop of reads
    does block; and each exception of the list is met. *)
Example normal_mode_errors_met :
  fst (NormalMode.acquire 5 unit_calibration unit_calibration 1
         (silence Blocking)) = Hang
  /\ fst (NormalMode.acquire 20 unit_calibration unit_calibration 1
            (mkWorld (running_replies (repeat 900 12)) false (Timed 1000) 0 []))
     = Raise (TimeoutError "Trigger wait timeout.")
  /\ fst (NormalMode.acquire 5 unit_calibration unit_calibration 1
            (serving [String.append "TD" NL; "#0"] (Timed 1000)))
     = Raise InvalidLiteral
  /\ fst (NormalMode.acquire 5 unit_calibration unit_calibration 1
            (silence (Timed 1000)))
     = Raise SocketTimeout
  /\ fst (@NormalMode.acquire integer_runtime (hangs_up_after 2) 5
            unit_calibration unit_calibration 1 fired_normal)
     = Raise BrokenPipeError.
Proof. repeat split; vm_compute; reflexivity. Qed.

(* ================================================================== *)
(** ** Flushing the socket *)

Lemma take_spec (n : Z) (bs : bytes) (rest : list segment) :
  0 < n -> bs <> [] -> wf_inbox rest ->
  fst (take n bs rest) <> []
  /\ bs ++ List.concat (map snd rest)
     = fst (take n bs rest) ++ List.concat (map snd (snd (take n bs rest)))
  /\ wf_inbox (snd (take n bs rest))
  /\ pending (snd (take n bs rest)) = pending rest.
Proof.
  intros Hn Hbs Hrest. unfold take. cbn [fst snd].
  split; [apply firstn_nonempty; [lia|assumption]|].
  split.
  { rewrite <- (firstn_skipn (Z.to_nat n) bs) at 1. rewrite <- app_assoc.
    f_equal. destruct (skipn (Z.to_nat n) bs); reflexivity. }
  destruct (skipn (Z.to_nat n) bs) eqn:Es; [auto|].
  split; [|reflexivity].
  constructor; [simpl; discriminate|assumption].
Qed.

(** The [while True] of [flush_socket] on a non-blocking socket: it reads
    what has arrived and ends with [BlockingIOError]. *)
Lemma drain_open (fuel : nat) :
  forall (i : list segment) (e : bool) (nw : Z) (tr : list event),
    wf_inbox i ->
    (List.length (List.concat (map snd i)) < fuel)%nat ->
    e = false \/ pending i <> [] ->
    exists k,
      MaxMode.drain fuel (mkWorld i e NonBlocking nw tr)
      = (Raise BlockingIOError,
         mkWorld (pending i) e NonBlocking nw
                 (tr ++ repeat (Recv 4096) (S k))).
Proof.
  induction fuel as [|fuel IH]; intros i e nw tr Hwf Hfuel Hopen; [lia|].
  cbn [MaxMode.drain]. unfold bind, recv, log.
  change (4096 <? 0) with false. change (4096 =? 0) with false.
  cbn [inbox eof mode now trace].
  destruct i as [|[g bs] rest].
  - destruct Hopen as [->|Hp]; [|simpl in Hp; congruence].
    exists 0%nat. reflexivity.
  - cbn [pending] in Hopen |- *. revert Hopen.
    destruct (Z.leb_spec g 0) as [Hg|Hg]; intros Hopen.
    + inversion Hwf as [|? ? Hbs Hrest]; subst. simpl in Hbs.
      destruct (take_spec 4096 bs rest ltac:(lia) Hbs Hrest)
        as (Hne & Hs & Hwf' & Hp').
      destruct (take 4096 bs rest) as [chunk inbox'] eqn:Et.
      cbn [fst snd] in *. unfold set_inbox. cbn [inbox eof mode now trace].
      destruct (IH inbox' e nw (tr ++ [Recv 4096])) as (k & ->).
      * exact Hwf'.
      * cbn [map snd List.concat] in Hfuel. rewrite Hs, length_app in Hfuel.
        destruct chunk; [congruence|]. simpl in Hfuel. lia.
      * rewrite Hp'. exact Hopen.
      * exists (S k). rewrite Hp', <- app_assoc. reflexivity.
    + exists 0%nat. reflexivity.
Qed.

(** On a closed connection with nothing on its way the loop reads the empty
    bytes, pass after pass. *)
Lemma drain_closed (fuel : nat) :
  forall (i : list segment) (nw : Z) (tr : list event),
    pending i = [] ->
    exists i',
      MaxMode.drain fuel (mkWorld i true NonBlocking nw tr)
      = (OutOfFuel,
         mkWorld i' true NonBlocking nw (tr ++ repeat (Recv 4096) fuel)).
Proof.
  induction fuel as [|fuel IH]; intros i nw tr Hp.
  - exists i. cbn. rewrite app_nil_r. reflexivity.
  - cbn [MaxMode.drain]. unfold bind, recv, log.
    change (4096 <? 0) with false. change (4096 =? 0) with false.
    cbn [inbox eof mode now trace].
    destruct i as [|[g bs] rest].
    + destruct (IH [] nw (tr ++ [Recv 4096]) eq_refl) as (i' & ->).
      exists i'. rewrite <- app_assoc. reflexivity.
    + cbn [pending] in Hp. destruct (Z.leb_spec g 0) as [Hg|Hg];
        [|discriminate].
      unfold take, set_inbox. cbn [inbox eof mode now trace].
      match goal with
      | |- context [MaxMode.drain fuel (mkWorld ?j _ _ _ _)] =>
          destruct (IH j nw (tr ++ [Recv 4096])) as (i' & ->)
      end.
      * destruct (skipn (Z.to_nat 4096) bs); [exact Hp|]. exact Hp.
      * exists i'. rewrite <- app_assoc. reflexivity.
Qed.

(** X2: [flush_socket] of the max-mode script, while the connection is open or
    has segments still on their way: it returns without waiting, having
    thrown away exactly the segments that had arrived, and it leaves the
    socket blocking, with no timeout at all, whatever its timeout was
    before. *)
Theorem max_flush_socket_discards_arrived (fuel : nat) (w : world) :
  wf_inbox (inbox w) ->
  (List.length (stream w) < fuel)%nat ->
  eof w = false \/ pending (inbox w) <> [] ->
  exists k,
    MaxMode.flush_socket fuel w
    = (Ret tt,
       mkWorld (pending (inbox w)) (eof w) Blocking (now w)
               (trace w ++ repeat (Recv 4096) (S k))).
Proof.
  destruct w as [i e m nw tr]. unfold stream. cbn [inbox eof now trace].
  intros Hwf Hfuel Hopen.
  destruct (drain_open fuel i e nw tr Hwf Hfuel Hopen) as (k & Hd).
  exists k.
  unfold MaxMode.flush_socket, bind, settimeout, set_mode, finally, try_except.
  cbn [inbox eof mode now trace]. rewrite Hd. reflexivity.
Qed.

(** Two stale segments in the socket and a third one 60 ms away. *)
Lemma max_flush_socket_discards_arrived_witness :
  exists k,
    MaxMode.flush_socket 10
      (mkWorld stale_segments false (Timed 20000) 7 [])
    = (Ret tt,
       mkWorld (pending stale_segments) false Blocking 7
               ([] ++ repeat (Recv 4096) (S k))).
Proof.
  apply (max_flush_socket_discards_arrived 10
           (mkWorld stale_segments false (Timed 20000) 7 [])).
  - repeat constructor; discriminate.
  - vm_compute. lia.
  - left. reflexivity.
Defined.

(** X3: once the peer has closed the connection and all it sent has arrived,
    [flush_socket] does not come back: [recv] on the closed socket returns
    the empty bytes at once and never raises [BlockingIOError], so the
    [while True] reads on.  After any number [fuel] of passes it is still in
    the loop, with [fuel] reads more in the trace and the clock where it
    was. *)
Theorem max_flush_socket_spins_on_closed_peer (fuel : nat) (w : world) :
  eof w = true -> pending (inbox w) = [] ->
  exists w',
    MaxMode.flush_socket fuel w = (OutOfFuel, w')
    /\ now w' = now w
    /\ trace w' = trace w ++ repeat (Recv 4096) fuel.
Proof.
  destruct w as [i e m nw tr]. cbn [inbox eof now trace].
  intros -> Hp.
  destruct (drain_closed fuel i nw tr Hp) as (i' & Hd).
  unfold MaxMode.flush_socket, bind, settimeout, set_mode, finally, try_except.
  cbn [inbox eof mode now trace]. rewrite Hd.
  eexists. split; [reflexivity|]. split; reflexivity.
Qed.

(** The peer has closed after a last line that is already there. *)
Lemma max_flush_socket_spins_witness :
  exists w',
    MaxMode.flush_socket 7 (serving [NL] (Timed 100)) = (OutOfFuel, w')
    /\ now w' = now (serving [NL] (Timed 100))
    /\ trace w' = trace (serving [NL] (Timed 100)) ++ repeat (Recv 4096) 7.
Proof.
  apply (max_flush_socket_spins_on_closed_peer 7 (serving [NL] (Timed 100))).
  - reflexivity.
  - reflexivity.
Defined.

(* ================================================================== *)
(** ** What [receive_data] of the max-mode script returns *)

Lemma recv_timed_head (n t g : Z) (bs : bytes) (rest : list segment)
      (w : world) :
  0 < n -> mode w = Timed t -> inbox w = (g, bs) :: rest -> g <= t ->
  fst (recv n w) = Ret (firstn (Z.to_nat n) bs).
Proof.
  intros Hn Hm Hi Hg. unfold recv.
  destruct (Z.ltb_spec n 0) as [?|_]; [lia|].
  destruct (Z.eqb_spec n 0) as [?|_]; [lia|].
  cbn [inbox log eof mode]. rewrite Hm, Hi.
  destruct (Z.leb_spec g t); [reflexivity|lia].
Qed.

Lemma wf_stream_nil (i : list segment) :
  wf_inbox i -> List.concat (map snd i) = [] -> i = [].
Proof.
  intros Hwf Hs. destruct i as [|[g bs] rest]; [reflexivity|].
  inversion Hwf as [|? ? Hbs _]; subst. simpl in *.
  destruct bs; [congruence|discriminate].
Qed.

(** The loop of [receive_data]: it returns the next bytes [got] of the
    stream, starting with what the first [recv] can take of the head
    segment; it returns nothing only after a timeout or on a closed
    connection. *)
Lemma receive_chunks_spec (fuel : nat) (n : Z) (t : Z) :
  0 < n -> 0 <= t ->
  forall (chunks : list bytes) (w : world),
    mode w = Timed t -> wf_inbox (inbox w) ->
    (List.length (stream w) < fuel)%nat ->
    exists got w',
      MaxMode.receive_chunks fuel n chunks w
      = (Ret (List.concat chunks ++ got), w')
      /\ stream w = got ++ stream w'
      /\ now w <= now w'
      /\ mode w' = Timed t /\ wf_inbox (inbox w') /\ eof w' = eof w
      /\ (timely t (inbox w) -> timely t (inbox w'))
      /\ (forall g bs rest,
            inbox w = (g, bs) :: rest -> g <= t ->
            exists more, got = firstn (Z.to_nat n) bs ++ more)
      /\ (got = [] ->
          now w' = now w + t \/ (stream w = [] /\ eof w = true)).
Proof.
  intros Hn Ht.
  induction fuel as [|fuel IH]; intros chunks w Hm Hwf Hfuel; [lia|].
  cbn [MaxMode.receive_chunks]. unfold bind at 1. unfold try_except, bind at 1.
  pose proof (recv_timed_head n t) as Hhead.
  destruct (recv_timed_cases n w t Hn Ht Hm Hwf)
    as [(chunk & w1 & E & Hne & Hlen & Hs & Hm1 & He1 & Hwf1 & Hnow1 & _ & Htm1)
       |[(w1 & E & Hi & He & Hi1 & Hm1 & He1 & Hnow1 & _)
        |(w1 & E & Hs & Hm1 & He1 & Hwf1 & Hnow1 & _ & Hwhy)]].
  - assert (Hfirst : forall g bs rest,
               inbox w = (g, bs) :: rest -> g <= t ->
               chunk = firstn (Z.to_nat n) bs).
    { intros g bs rest Hi Hg.
      specialize (Hhead g bs rest w Hn Hm Hi Hg).
      rewrite E in Hhead. cbn [fst] in Hhead. congruence. }
    rewrite E. unfold ret at 1. destruct chunk as [|c chunk]; [congruence|].
    destruct (len (c :: chunk) <? n).
    + exists (c :: chunk), w1. unfold ret.
      rewrite concat_app. cbn [List.concat]. rewrite app_nil_r.
      split; [reflexivity|]. split; [exact Hs|]. split; [exact Hnow1|].
      split; [exact Hm1|]. split; [exact Hwf1|]. split; [exact He1|].
      split; [exact Htm1|]. split; [|discriminate].
      intros g bs rest Hi Hg. exists []. rewrite app_nil_r. eauto.
    + destruct (IH (chunks ++ [c :: chunk]) w1 Hm1 Hwf1)
        as (got & w' & E' & Hs' & Hnow' & Hm' & Hwf' & He' & Htm' & _ & _).
      { rewrite Hs, length_app in Hfuel. simpl in Hfuel. lia. }
      exists ((c :: chunk) ++ got), w'.
      rewrite concat_app in E'. cbn [List.concat] in E'.
      rewrite app_nil_r, <- app_assoc in E'.
      split; [exact E'|].
      split; [rewrite Hs, Hs', <- app_assoc; reflexivity|].
      split; [lia|]. split; [exact Hm'|]. split; [exact Hwf'|].
      split; [congruence|]. split; [auto|]. split; [|discriminate].
      intros g bs rest Hi Hg. exists got. f_equal. eauto.
  - rewrite E. unfold ret. exists [], w1. rewrite app_nil_r.
    rewrite (stream_nil w Hi), (stream_nil w1 Hi1).
    split; [reflexivity|]. split; [reflexivity|]. split; [lia|].
    split; [exact Hm1|]. split; [rewrite Hi1; constructor|].
    split; [congruence|]. split; [intros _; rewrite Hi1; constructor|].
    split; [intros g bs rest Hi'; congruence|]. auto.
  - rewrite E. unfold ret. exists [], w1. rewrite app_nil_r.
    split; [reflexivity|]. split; [symmetry; exact Hs|]. split; [lia|].
    split; [exact Hm1|]. split; [exact Hwf1|]. split; [exact He1|].
    split.
    { intros Htm. destruct Hwhy as [Hnt|[Hi _]]; [contradiction|].
      assert (Hi1 : inbox w1 = []).
      { apply wf_stream_nil; [exact Hwf1|].
        change (stream w1 = []). rewrite Hs. apply stream_nil, Hi. }
      rewrite Hi1. constructor. }
    split.
    { intros g bs rest Hi Hg. exfalso.
      specialize (Hhead g bs rest w Hn Hm Hi Hg).
      rewrite E in Hhead. discriminate. }
    intros _. left. exact Hnow1.
Qed.

(** The chunks read so far are handed on unchanged. *)
Lemma receive_chunks_acc (fuel : nat) (n : Z) :
  forall (chunks : list bytes) (w : world),
    MaxMode.receive_chunks fuel n chunks w
    = (let (o, w') := MaxMode.receive_chunks fuel n [] w in
       (match o with
        | Ret got => Ret (List.concat chunks ++ got)
        | Raise e => Raise e
        | Hang => Hang
        | OutOfFuel => OutOfFuel
        end, w')).
Proof.
  induction fuel as [|fuel IH]; intros chunks w; [reflexivity|].
  cbn [MaxMode.receive_chunks]. unfold bind, try_except.
  destruct (recv n w) as [[chunk|e| |] w1]; try reflexivity.
  - unfold ret. destruct chunk as [|c chunk].
    + cbn [List.concat]. rewrite app_nil_r. reflexivity.
    + destruct (len (c :: chunk) <? n).
      * rewrite concat_app. reflexivity.
      * rewrite (IH (chunks ++ [c :: chunk])), (IH ([] ++ [c :: chunk])).
        destruct (MaxMode.receive_chunks fuel n [] w1) as [[got|e| |] w2];
          try reflexivity.
        rewrite concat_app, <- app_assoc. reflexivity.
  - destruct e; try reflexivity.
    unfold ret. cbn [List.concat]. rewrite app_nil_r. reflexivity.
Qed.

Lemma max_receive_data_summary (fuel : nat) (w : world) :
  wf_inbox (inbox w) ->
  (List.length (stream w) < fuel)%nat ->
  exists data w' reads,
    MaxMode.receive_data fuel 4096 w = (Ret data, w')
    /\ stream w = data ++ stream w'
    /\ mode w' = Timed 100
    /\ trace w' = trace w ++ reads /\ forallb reads_only reads = true
    /\ now w <= now w'.
Proof.
  intros Hwf Hfuel.
  destruct (max_receive_data_reads fuel w) as (reads & Ht & Hr).
  unfold MaxMode.receive_data, bind, settimeout in *.
  destruct (receive_chunks_spec fuel 4096 100 ltac:(lia) ltac:(lia) []
              (set_mode (Timed 100) w))
    as (got & w' & E & Hs & Hnow & Hm & _); auto.
  rewrite E in *. cbn [snd List.concat app] in *.
  exists got, w', reads. auto 10.
Qed.

(** X1: [receive_data] of the max-mode script on a socket in any mode.  It
    returns, and raises nothing; what it returns are the next bytes of the
    incoming stream, and those behind them stay in the socket; all it does
    to the outside is read; and it leaves the socket with a timeout of
    0.1 s, whatever the timeout was before.  What it returns is decided by
    the head of the stream.  With nothing to come it makes one read and
    returns the empty bytes, at once when the peer has closed and after
    0.1 s otherwise.  With the head segment more than 0.1 s away it makes
    one read, returns the empty bytes after 0.1 s and leaves the segment
    that much closer.  With a head segment of less than 4096 bytes within
    0.1 s it makes one read and returns exactly that segment at the moment
    it arrives.  With a longer head segment within 0.1 s it returns its
    first 4096 bytes followed by what [receive_data] returns on the socket
    as that first read leaves it. *)
Theorem max_receive_data_takes_prefix (fuel : nat) (w : world) :
  wf_inbox (inbox w) ->
  (List.length (stream w) < fuel)%nat ->
  exists data w' reads,
    MaxMode.receive_data fuel 4096 w = (Ret data, w')
    /\ stream w = data ++ stream w'
    /\ mode w' = Timed 100
    /\ trace w' = trace w ++ reads /\ forallb reads_only reads = true
    /\ now w <= now w'
    /\ match inbox w with
       | [] =>
           data = [] /\ reads = [Recv 4096] /\ inbox w' = []
           /\ now w' = (if eof w then now w else now w + 100)
       | (g, bs) :: rest =>
           if 100 <? g then
             data = [] /\ reads = [Recv 4096]
             /\ inbox w' = (g - 100, bs) :: rest /\ now w' = now w + 100
           else if len bs <? 4096 then
             data = bs /\ reads = [Recv 4096]
             /\ inbox w' = rest /\ now w' = now w + Z.max 0 g
           else
             exists more,
               data = firstn (Z.to_nat 4096) bs ++ more
               /\ MaxMode.receive_data (fuel - 1) 4096 (first_read g bs rest w)
                  = (Ret more, w')
       end.
Proof.
  intros Hwf Hfuel.
  destruct (max_receive_data_summary fuel w Hwf Hfuel)
    as (data & w' & reads & E & Hs & Hm & Ht & Hr & Hnow).
  exists data, w', reads.
  do 6 (split; [assumption|]).
  destruct fuel as [|f]; [lia|].
  destruct w as [i e m nw tr]. cbn [inbox eof mode now trace] in *.
  unfold MaxMode.receive_data, bind, settimeout, set_mode in E.
  cbn [MaxMode.receive_chunks inbox eof mode now trace] in E.
  unfold bind at 1, try_except, bind at 1, recv, log in E.
  change (4096 <? 0) with false in E. change (4096 =? 0) with false in E.
  cbn [inbox eof mode now trace] in E.
  destruct i as [|[g bs] rest].
  - destruct e; unfold ret, elapse in E; cbn [inbox eof mode now trace] in E;
      injection E as <- <-; cbn [inbox eof mode now trace] in *;
      apply app_inv_head in Ht; subst reads; auto.
  - inversion Hwf as [|? ? Hbs _]; subst. cbn [snd] in Hbs.
    destruct (Z.leb_spec g 100) as [Hg|Hg];
      destruct (Z.ltb_spec 100 g) as [Hg'|Hg']; try lia.
    + unfold take, set_inbox, elapse in E.
      cbn [inbox eof mode now trace] in E. unfold ret at 1 in E.
      destruct (Z.ltb_spec (len bs) 4096) as [Hl|Hl].
      * assert (Hf : firstn (Z.to_nat 4096) bs = bs)
          by (apply firstn_all2; unfold len in Hl; lia).
        assert (Hk : skipn (Z.to_nat 4096) bs = [])
          by (apply skipn_all2; unfold len in Hl; lia).
        rewrite Hf, Hk in E. destruct bs as [|b bs]; [congruence|].
        destruct (Z.ltb_spec (len (b :: bs)) 4096) as [_|?]; [|lia].
        unfold ret in E. cbn [List.concat app] in E. rewrite app_nil_r in E.
        injection E as <- <-. cbn [inbox eof mode now trace] in *.
        apply app_inv_head in Ht. subst reads. auto.
      * assert (Hlf : len (firstn (Z.to_nat 4096) bs) = 4096).
        { unfold len in *. rewrite length_firstn. lia. }
        destruct (firstn (Z.to_nat 4096) bs) as [|c chunk] eqn:Ef;
          [rewrite len_nil in Hlf; lia|].
        destruct (Z.ltb_spec (len (c :: chunk)) 4096) as [?|_]; [lia|].
        rewrite receive_chunks_acc in E.
        unfold first_read, take, set_inbox, set_mode, elapse, log.
        cbn [inbox eof mode now trace snd Nat.sub]. rewrite Nat.sub_0_r.
        unfold MaxMode.receive_data, bind, settimeout, set_mode.
        cbn [inbox eof mode now trace].
        match type of E with
        | context [MaxMode.receive_chunks f 4096 [] ?w1] =>
            destruct (MaxMode.receive_chunks f 4096 [] w1)
              as [[got|e'| |] w2]; try discriminate
        end.
        injection E as <- <-. exists got. cbn [List.concat app].
        rewrite app_nil_r. split; reflexivity.
    + unfold elapse, ret in E. cbn [inbox eof mode now trace] in E.
      injection E as <- <-. cbn [inbox eof mode now trace] in *.
      apply app_inv_head in Ht. subst reads. auto.
Qed.

(** A reply in two pieces, the second one too late for a timeout of 0.1 s:
    the first piece alone is returned. *)
Lemma max_receive_data_takes_prefix_witness :
  exists data w' reads,
    MaxMode.receive_data 20 4096 late_piece = (Ret data, w')
    /\ stream late_piece = data ++ stream w'
    /\ mode w' = Timed 100
    /\ trace w' = trace late_piece ++ reads
    /\ forallb reads_only reads = true
    /\ now late_piece <= now w'
    /\ match inbox late_piece with
       | [] =>
           data = [] /\ reads = [Recv 4096] /\ inbox w' = []
           /\ now w' = (if eof late_piece then now late_piece
                        else now late_piece + 100)
       | (g, bs) :: rest =>
           if 100 <? g then
             data = [] /\ reads = [Recv 4096]
             /\ inbox w' = (g - 100, bs) :: rest
             /\ now w' = now late_piece + 100
           else if len bs <? 4096 then
             data = bs /\ reads = [Recv 4096]
             /\ inbox w' = rest /\ now w' = now late_piece + Z.max 0 g
           else
             exists more,
               data = firstn (Z.to_nat 4096) bs ++ more
               /\ MaxMode.receive_data (20 - 1) 4096
                    (first_read g bs rest late_piece)
                  = (Ret more, w')
       end.
Proof.
  apply (max_receive_data_takes_prefix 20 late_piece).
  - repeat constructor; discriminate.
  - vm_compute. lia.
Defined.

(** The first piece is returned 30 ms on, and the second one stays in the
    socket. *)
Example max_receive_data_first_piece :
  MaxMode.receive_data 20 4096 late_piece
  = (Ret (b_ "1.5"),
     mkWorld [(150, b_ "e-3")] false (Timed 100) 30 [Recv 4096]).
Proof. vm_compute. reflexivity. Qed.

(* ================================================================== *)
(** ** The trigger waits that have a timeout *)

Lemma recv_raises (n : Z) (w w' : world) (e : exn) :
  recv n w = (Raise e, w') ->
  e = ValueError "negative buffersize in recv"
  \/ e = BlockingIOError \/ e = SocketTimeout.
Proof.
  unfold recv.
  destruct (n <? 0); [intros [= <- _]; auto|].
  destruct (n =? 0); [discriminate|].
  cbn [inbox log eof mode].
  destruct (inbox w) as [|[g bs] rest].
  - destruct (eof w); [discriminate|].
    destruct (mode w); intros [= <- _]; auto.
  - unfold take. destruct (mode w) as [| |t]; [discriminate| |].
    + destruct (g <=? 0); [discriminate|]. intros [= <- _]; auto.
    + destruct (g <=? t); [discriminate|]. intros [= <- _]; auto.
Qed.

Section WaitEnds.
Context `{PyRuntime} `{Link}.




End WaitEnds.





(** The peer has closed: the first status query goes out and finds the
    empty bytes, the second one, 1 ms later, is refused. *)
Example normal_wait_on_closed_peer :
  @NormalMode.wait_for_trigger (hangs_up_after 1) 5 10000 (idle (Timed 1000))
  = (Raise BrokenPipeError,
     mkWorld [] true (Timed 1000) 1
             [Sent "TRIGger:STATus?"; Recv 4096; Slept 1]).
Proof. reflexivity. Qed.

(* ================================================================== *)
(** ** Scalar queries with retries *)

Lemma count_sent_cons_sent (cmd : string) (d : list event) :
  count_sent cmd (Sent cmd :: d) = S (count_sent cmd d).
Proof. unfold count_sent. simpl. rewrite String.eqb_refl. reflexivity. Qed.

Lemma count_sent_cons_slept (cmd : string) (ms : Z) (d : list event) :
  count_sent cmd (Slept ms :: d) = count_sent cmd d.
Proof. reflexivity. Qed.

Lemma count_slept_cons_sent (ms : Z) (cmd : string) (d : list event) :
  count_slept ms (Sent cmd :: d) = count_slept ms d.
Proof. reflexivity. Qed.

Lemma count_slept_cons_slept (ms : Z) (d : list event) :
  count_slept ms (Slept ms :: d) = S (count_slept ms d).
Proof. unfold count_slept. simpl. rewrite Z.eqb_refl. reflexivity. Qed.

Section QueryFloatRetries.
Context `{PyRuntime}.

(** One [receive_data] that finds a short reply within reach. *)
Lemma max_receive_one (g : Z) (reply : bytes) (rest : list segment)
      (e : bool) (nw : Z) (tr : list event) (fuel : nat) (m : so_mode) :
  0 < len reply < 4096 -> g <= 100 ->
  MaxMode.receive_data (S fuel) 4096 (mkWorld ((g, reply) :: rest) e m nw tr)
  = (Ret reply,
     mkWorld rest e (Timed 100) (nw + Z.max 0 g) (tr ++ [Recv 4096])).
Proof.
  intros Hl Hg.
  unfold MaxMode.receive_data, bind, settimeout, set_mode.
  cbn [inbox eof mode now trace MaxMode.receive_chunks].
  unfold bind, try_except.
  rewrite recv_whole_segment by (eauto; lia).
  unfold ret.
  destruct reply as [|b bs]; [cbn in Hl; lia|].
  destruct (Z.ltb_spec (len (b :: bs)) 4096) as [_|?]; [|lia].
  cbn [app List.concat]. rewrite app_nil_r. reflexivity.
Qed.








Lemma delays_nonneg (bad : list (Z * bytes)) :
  Forall no_float bad -> 0 <= delays bad.
Proof.
  induction 1 as [|x bad [Hx _] _ IH]; cbn [delays fold_right]; [lia|].
  change (fold_right (fun y acc => fst y + acc) 0 bad) with (delays bad).
  lia.
Qed.

End QueryFloatRetries.



(** X6: a first reply that is blank, not UTF-8 or no number, and a second one
    that parses: the second attempt, 10 ms after the first, gives the
    value. *)
Theorem max_query_float_second_attempt `{PyRuntime}
    (cmd : string) (g1 g2 : Z) (r1 r2 : bytes) (s2 : text) (v : float)
    (rest : list segment) (e : bool) (m : so_mode) (nw : Z)
    (tr : list event) (fuel retries : nat) :
  0 < len r1 < 4096 -> 0 < len r2 < 4096 ->
  g1 <= 100 -> g2 <= 110 ->
  (forall s1, utf8_decode r1 = Some s1 -> float_of_text (strip s1) = None) ->
  utf8_decode r2 = Some s2 -> float_of_text (strip s2) = Some v ->
  MaxMode.query_float (S fuel) cmd (S (S retries))
    (mkWorld ((g1, r1) :: (g2, r2) :: rest) e m nw tr)
  = (Ret v,
     mkWorld rest e (Timed 100) (nw + Z.max 0 g1 + 10 + Z.max 0 (g2 - 10))
             (tr ++ [Sent cmd; Recv 4096; Slept 10; Sent cmd; Recv 4096])).
Proof.
  intros Hl1 Hl2 Hg1 Hg2 Hbad Hs2 Hv.
  assert (Hne : strip s2 <> []).
  { intros E. rewrite E, float_of_empty in Hv. discriminate. }
  unfold MaxMode.query_float. cbn [MaxMode.query_float_from].
  unfold MaxMode.send_command, bind at 1, sendall, write_fault, reliable, log. fold reliable.
  cbn [inbox eof mode now trace].
  unfold bind at 1, MaxMode.query_float_try, try_except, bind at 1.
  rewrite max_receive_one by assumption.
  assert (Hfirst :
    forall w1, exists r,
      (t <- decode r1;;
       match strip t with
       | [] => ret None
       | _ :: _ => v0 <- py_float (strip t);; ret (Some v0)
       end) w1 = (r, w1)
      /\ (r = Ret None \/ exists err, r = Raise err)).
  { intros w1. unfold bind at 1, decode.
    destruct (utf8_decode r1) as [s1|] eqn:E1; cbn [or_raise].
    - unfold ret at 1. specialize (Hbad s1 eq_refl).
      destruct (strip s1) as [|c s] eqn:Es;
        [exists (Ret None); split; [reflexivity | left; reflexivity]|].
      unfold bind, py_float. rewrite Hbad. cbn [or_raise].
      eexists. split; [reflexivity|]. eauto.
    - eexists. split; [reflexivity|]. eauto. }
  match goal with
  | |- context [(t <- decode r1;; _) ?w1] =>
      destruct (Hfirst w1) as (r & E & [-> | (err & ->)])
  end; rewrite E; clear E Hfirst.
  all: unfold ret at 1; unfold bind at 1, sleep, elapse, log;
    cbn [inbox eof mode now trace];
    unfold bind at 1, sendall, write_fault, reliable, log; fold reliable; cbn [inbox eof mode now trace];
    unfold bind at 1, try_except, bind at 1;
    rewrite max_receive_one by (try assumption; lia);
    unfold bind at 1, decode; rewrite Hs2; cbn [or_raise]; unfold ret at 1;
    (destruct (strip s2) as [|c s] eqn:Es; [congruence|]);
    unfold bind, py_float; rewrite Hv; cbn [or_raise]; unfold ret;
    rewrite <- !app_assoc; cbn [app]; reflexivity.
Qed.

(** An empty line first, then the number. *)
Lemma max_query_float_second_attempt_witness :
  MaxMode.query_float 2 "WAVeform:YINC?" 3
    (mkWorld ((0, b_ NL) :: (20, b_ (String.append "42" NL)) :: []) false
             Blocking 0 [])
  = (Ret (PrimFloat.of_uint63 42),
     mkWorld [] false (Timed 100) (0 + Z.max 0 0 + 10 + Z.max 0 (20 - 10))
             ([] ++ [Sent "WAVeform:YINC?"; Recv 4096; Slept 10;
                     Sent "WAVeform:YINC?"; Recv 4096])).
Proof.
  apply (max_query_float_second_attempt "WAVeform:YINC?" 0 20 (b_ NL)
           (b_ (String.append "42" NL)) (s_ (String.append "42" NL))
           (PrimFloat.of_uint63 42) [] false Blocking 0 [] 1 1).
  - vm_compute. intuition congruence.
  - vm_compute. intuition congruence.
  - lia.
  - lia.
  - intros s1 E. vm_compute in E. injection E as <-. reflexivity.
  - reflexivity.
  - reflexivity.
Defined.



(* ================================================================== *)
(** ** The waveform query of the max-mode script *)

(** X18: when no marker ever comes, [get_waveform_data] of the max-mode script
    asks for the data three times, with a pause of 100 ms after each
    attempt, and then raises the [ValueError] that names the channel. *)
Theorem max_get_waveform_data_gives_up `{PyRuntime}
    (fuel : nat) (channel : Z) (c : calibration) (w : world) :
  wf_inbox (inbox w) ->
  (List.length (stream w) < fuel)%nat ->
  find hash (stream w) = -1 ->
  exists w' d,
    MaxMode.get_waveform_data fuel channel c w
    = (Raise (no_header_found channel), w')
    /\ trace w'
       = trace w ++ Sent ("WAVeform:SOURce CHAN" ++ str_of_int channel) :: d
    /\ count_sent "WAVeform:DATA?" d = 3%nat
    /\ count_slept 100 d = 3%nat.
Proof.
  intros Hwf Hfuel Hfind.
  unfold MaxMode.get_waveform_data, MaxMode.send_command.
  unfold bind at 1, sendall, write_fault, reliable. fold reliable. unfold bind at 1.
  destruct (max_request_block_gives_up fuel channel 3
              (log (Sent ("WAVeform:SOURce CHAN" ++ str_of_int channel)) w))
    as (w' & d & E & Ht & Hc & Hp); auto.
  rewrite E. exists w', d.
  split; [reflexivity|].
  split; [|auto].
  rewrite Ht. unfold log. cbn [trace]. rewrite <- app_assoc. reflexivity.
Qed.

(** Channel 4 on an instrument that sends a number and nothing else. *)
Lemma max_get_waveform_data_gives_up_witness :
  exists w' d,
    MaxMode.get_waveform_data 10 4 unit_calibration
      (mkWorld [(0, stale_reply)] false Blocking 0 [])
    = (Raise (no_header_found 4), w')
    /\ trace w'
       = trace (mkWorld [(0, stale_reply)] false Blocking 0 [])
         ++ Sent ("WAVeform:SOURce CHAN" ++ str_of_int 4) :: d
    /\ count_sent "WAVeform:DATA?" d = 3%nat
    /\ count_slept 100 d = 3%nat.
Proof.
  apply (max_get_waveform_data_gives_up 10 4 unit_calibration
           (mkWorld [(0, stale_reply)] false Blocking 0 [])).
  - repeat constructor; discriminate.
  - vm_compute. lia.
  - reflexivity.
Defined.

(* ================================================================== *)
(** ** A whole query for a valid block *)

Section ValidBlocks.
Context `{PyRuntime}.

(** A buffer that reaches behind the header of a valid block: the marker is
    found where the block starts, the header parses to the block's fields,
    and the buffer's rest [p0] begins the payload. *)
Lemma block_in_buffer (pre digits payload trailing data behind : bytes)
      (d : byte) :
  find hash pre = -1 ->
  valid_header d digits (len payload) ->
  data ++ behind = pre ++ hash :: d :: digits ++ payload ++ trailing ->
  len pre + 2 + len digits <= len data ->
  exists p0,
    payload ++ trailing = p0 ++ behind
    /\ find hash data = len pre
    /\ read_header data (len pre) = inr (len digits, len payload)
    /\ slice_from data (len pre + 2 + len digits) = p0.
Proof.
  intros Hpre Hvalid Hcut Hhdr.
  pose proof (len_nonneg pre) as Hlp. pose proof (len_nonneg digits) as Hld.
  destruct (app_split_prefix data behind (pre ++ hash :: d :: digits)
              (payload ++ trailing)) as (p0 & Hdata & Hrest).
  { rewrite Hcut, <- app_assoc. reflexivity. }
  { rewrite len_app, !len_cons. lia. }
  exists p0. split; [exact Hrest|].
  split; [rewrite Hdata, <- app_assoc; simpl app;
          apply find_app_present, Hpre|].
  split; [rewrite Hdata, <- app_assoc; simpl app;
          apply read_header_valid, Hvalid|].
  rewrite Hdata.
  replace (len pre + 2 + len digits) with (len (pre ++ hash :: d :: digits))
    by (rewrite len_app, !len_cons; lia).
  apply slice_from_app.
Qed.

Lemma max_decode_block_valid (pre digits payload trailing data : bytes)
      (d : byte) (w : world) (t : Z) (fuel : nat) :
  find hash pre = -1 ->
  valid_header d digits (len payload) ->
  data ++ stream w = pre ++ hash :: d :: digits ++ payload ++ trailing ->
  len pre + 2 + len digits <= len data ->
  0 <= t -> mode w = Timed t -> timely t (inbox w) ->
  (List.length (stream w) <= fuel)%nat ->
  exists w' dropped,
    MaxMode.decode_block fuel data (len pre) w = (Ret payload, w')
    /\ trailing = dropped ++ stream w'.
Proof.
  intros Hpre Hvalid Hcut Hhdr Ht Hm Htm Hfuel.
  destruct (block_in_buffer pre digits payload trailing data (stream w) d)
    as (p0 & Hrest & Hfind & Hread & Hfrom); try assumption.
  pose proof (len_nonneg p0) as Hlp0.
  pose proof (len_nonneg trailing) as Hltr.
  assert (Hlen : len (payload ++ trailing) = len (p0 ++ stream w))
    by (rewrite Hrest; reflexivity).
  rewrite !len_app in Hlen.
  unfold MaxMode.decode_block. rewrite Hread, bind_lift_inr, Hfrom.
  destruct (Z.ltb_spec (len p0) (len payload)) as [Hlt|Hge].
  - destruct (receive_more_timely fuel (len payload - len p0) w t)
      as (got & w' & E & Hs & Hl); try assumption; [lia | unfold len in *; lia |].
    unfold bind, MaxMode.receive_waveform_data. rewrite E.
    destruct (app_eq_len (p0 ++ got) (stream w') payload trailing)
      as [Ep Etr].
    { rewrite <- app_assoc, <- Hs. symmetry. exact Hrest. }
    { rewrite len_app. lia. }
    exists w', []. unfold ret. rewrite Ep, slice_to_all. auto.
  - destruct (app_split_prefix p0 (stream w) payload trailing)
      as (x & Ep0 & Etr); [symmetry; exact Hrest | lia |].
    exists w, x. unfold bind, ret. rewrite Ep0, slice_to_app. auto.
Qed.

Lemma normal_decode_block_valid (pre digits payload trailing data : bytes)
      (d : byte) (w : world) (t : Z) (fuel : nat) :
  find hash pre = -1 ->
  valid_header d digits (len payload) ->
  data ++ stream w = pre ++ hash :: d :: digits ++ payload ++ trailing ->
  len pre + 2 + len digits <= len data ->
  0 <= t -> mode w = Timed t -> timely t (inbox w) ->
  (List.length (stream w) <= fuel)%nat ->
  exists w' dropped,
    NormalMode.decode_block fuel data w = (Ret payload, w')
    /\ trailing = dropped ++ stream w'.
Proof.
  intros Hpre Hvalid Hcut Hhdr Ht Hm Htm Hfuel.
  destruct (block_in_buffer pre digits payload trailing data (stream w) d)
    as (p0 & Hrest & Hfind & Hread & Hfrom); try assumption.
  pose proof (len_nonneg p0) as Hlp0.
  pose proof (len_nonneg trailing) as Hltr.
  assert (Hlen : len (payload ++ trailing) = len (p0 ++ stream w))
    by (rewrite Hrest; reflexivity).
  rewrite !len_app in Hlen.
  unfold NormalMode.decode_block.
  rewrite Hfind, Hread, bind_lift_inr, Hfrom.
  destruct (read_rest_timely fuel (len payload) p0 w t)
    as (got & w' & E & Hs & Hl & Hsame); try assumption;
    [lia | unfold len in *; lia |].
  unfold bind. rewrite E. unfold ret.
  destruct (Z.ltb_spec (len p0) (len payload)) as [Hlt|Hge].
  - destruct (app_eq_len (p0 ++ got) (stream w') payload trailing)
      as [Ep Etr].
    { rewrite <- app_assoc, <- Hs. symmetry. exact Hrest. }
    { lia. }
    exists w', []. rewrite Ep, slice_to_all. auto.
  - rewrite (Hsame Hge) in *.
    assert (got = []) as ->.
    { rewrite len_app in Hl. destruct got; [reflexivity|].
      rewrite len_cons in *. pose proof (len_nonneg got). lia. }
    rewrite app_nil_r.
    destruct (app_split_prefix p0 (stream w) payload trailing)
      as (x & Ep0 & Etr); [symmetry; exact Hrest | lia |].
    exists w, x. rewrite Ep0, slice_to_app. auto.
Qed.
End ValidBlocks.

Lemma len_firstn_min {A} (n : Z) (l : list A) :
  0 <= n -> len (firstn (Z.to_nat n) l) = Z.min n (len l).
Proof.
  intros Hn. unfold len. rewrite length_firstn. lia.
Qed.

(** X15: the whole of [get_waveform_data] of the max-mode script, when the
    instrument answers the first query with a valid block
    [#<d><L><payload>], possibly after bytes without the marker: if the
    header is within the first segment and the first 4096 bytes, and the
    segments come at most 0.1 s apart, then, however the payload is cut into
    segments, the function returns the calibrated payload, one voltage per
    sample, having sent one data query and no second one; of the bytes
    behind the block, those not read stay in the socket. *)
Theorem max_get_waveform_data_returns_block `{PyRuntime}
    (pre digits payload trailing bs : bytes) (d : byte) (g : Z)
    (rest : list segment) (channel : Z) (c : calibration) (w : world)
    (fuel : nat) :
  find hash pre = -1 ->
  valid_header d digits (len payload) ->
  stream w = pre ++ hash :: d :: digits ++ payload ++ trailing ->
  inbox w = (g, bs) :: rest ->
  len pre + 2 + len digits <= Z.min 4096 (len bs) ->
  timely 100 (inbox w) ->
  (List.length (stream w) < fuel)%nat ->
  exists w' dropped reads,
    MaxMode.get_waveform_data fuel channel c w
    = (Ret (calibrate payload (yinc c) (yorigin c) (yref c)), w')
    /\ trailing = dropped ++ stream w'
    /\ trace w'
       = trace w
         ++ Sent ("WAVeform:SOURce CHAN" ++ str_of_int channel)
            :: Sent "WAVeform:DATA?" :: reads
    /\ forallb reads_only reads = true.
Proof.
  intros Hpre Hvalid Hs Hi Hhead Htm Hfuel.
  set (w1 := log (Sent "WAVeform:DATA?")
               (log (Sent ("WAVeform:SOURce CHAN" ++ str_of_int channel)) w)).
  assert (Hrd : exists data w2 r1,
             MaxMode.receive_data fuel 4096 w1 = (Ret data, w2)
             /\ stream w = data ++ stream w2
             /\ mode w2 = Timed 100 /\ timely 100 (inbox w2)
             /\ len pre + 2 + len digits <= len data
             /\ trace w2 = trace w1 ++ r1
             /\ forallb reads_only r1 = true).
  { destruct (max_receive_data_reads fuel w1) as (r1 & Ht & Hr).
    unfold MaxMode.receive_data, bind, settimeout in *.
    destruct (receive_chunks_spec fuel 4096 100 ltac:(lia) ltac:(lia) []
                (set_mode (Timed 100) w1))
      as (got & w2 & E & Hs2 & _ & Hm2 & _ & _ & Htm2 & Hfirst & _);
      [reflexivity | eapply timely_wf; exact Htm | exact Hfuel |].
    rewrite E in *. cbn [snd List.concat app] in *.
    exists got, w2, r1.
    split; [reflexivity|]. split; [exact Hs2|]. split; [exact Hm2|].
    split; [apply Htm2; exact Htm|]. split; [|auto].
    destruct (Hfirst g bs rest Hi) as (more & ->).
    { pose proof Htm as Htm'. rewrite Hi in Htm'.
      inversion Htm' as [|? ? [Hg _] _]; subst. exact Hg. }
    rewrite len_app, len_firstn_min by lia.
    pose proof (len_nonneg more). lia. }
  destruct Hrd as (data & w2 & r1 & Erd & Hs2 & Hm2 & Htm2 & Hlen & Ht2 & Hr1).
  destruct (block_in_buffer pre digits payload trailing data (stream w2) d)
    as (_ & _ & Hfind & _); try assumption; [congruence|].
  destruct (max_decode_block_valid pre digits payload trailing data d w2 100
              fuel) as (w' & dropped & Edec & Htr);
    try assumption; try lia; [congruence | |].
  { apply stream_shorter in Hs2. lia. }
  destruct (max_decode_block_emits reads_only (fun _ => eq_refl) fuel data
              (len pre) w2) as (r2 & Ht' & Hr2).
  rewrite Edec in Ht'. cbn [snd] in Ht'.
  exists w', dropped, (r1 ++ r2).
  unfold MaxMode.get_waveform_data. cbn [MaxMode.request_block].
  unfold MaxMode.send_command, bind, sendall, write_fault, reliable. fold reliable. fold w1.
  rewrite Erd, Hfind.
  pose proof (len_nonneg pre) as Hlp.
  destruct (Z.eqb_spec (len pre) (-1)) as [?|_]; [lia|].
  cbn [negb]. unfold ret. rewrite Edec.
  split; [reflexivity|]. split; [exact Htr|].
  split; [|rewrite forallb_app, Hr1, Hr2; reflexivity].
  rewrite Ht', Ht2. unfold w1, log. cbn [trace].
  rewrite <- !app_assoc. reflexivity.
Qed.

(** Channel 3, with the block cut behind its first sample. *)
Lemma max_get_waveform_data_returns_block_witness :
  exists w' dropped reads,
    MaxMode.get_waveform_data 20 3 unit_calibration (cut_block Blocking)
    = (Ret (calibrate (b_ "abc") (yinc unit_calibration)
              (yorigin unit_calibration) (yref unit_calibration)), w')
    /\ b_ NL = dropped ++ stream w'
    /\ trace w'
       = trace (cut_block Blocking)
         ++ Sent ("WAVeform:SOURce CHAN" ++ str_of_int 3)
            :: Sent "WAVeform:DATA?" :: reads
    /\ forallb reads_only reads = true.
Proof.
  apply (max_get_waveform_data_returns_block (b_ "xx") (b_ "3") (b_ "abc")
           (b_ NL) cut_buffer x31 0 [(40, b_ (String.append "bc" NL))] 3
           unit_calibration (cut_block Blocking) 20).
  - reflexivity.
  - repeat split.
  - reflexivity.
  - reflexivity.
  - vm_compute. discriminate.
  - repeat constructor; simpl; try lia; discriminate.
  - vm_compute. lia.
Defined.

Lemma positive_reads_only (d : list event) :
  forallb positive_reads d = true -> forallb reads_only d = true.
Proof.
  induction d as [|e d IH]; [reflexivity|]. simpl. intros Hd.
  apply andb_prop in Hd. destruct Hd as [He Hd].
  destruct e; try discriminate. simpl. auto.
Qed.

(** X16: the whole of [get_waveform] of the normal-mode script on the same kind
    of response, with the socket's timeout [t] in place of 0.1 s: it returns
    the calibrated payload after one data query. *)
Theorem normal_get_waveform_returns_block `{PyRuntime}
    (pre digits payload trailing bs : bytes) (d : byte) (g t : Z)
    (rest : list segment) (channel : Z) (c : calibration) (w : world)
    (fuel : nat) :
  find hash pre = -1 ->
  valid_header d digits (len payload) ->
  stream w = pre ++ hash :: d :: digits ++ payload ++ trailing ->
  inbox w = (g, bs) :: rest ->
  len pre + 2 + len digits <= Z.min 4096 (len bs) ->
  0 <= t -> mode w = Timed t -> timely t (inbox w) ->
  (List.length (stream w) <= fuel)%nat ->
  exists w' dropped reads,
    NormalMode.get_waveform fuel channel c w
    = (Ret (calibrate payload (yinc c) (yorigin c) (yref c)), w')
    /\ trailing = dropped ++ stream w'
    /\ trace w'
       = trace w
         ++ Sent ("WAVeform:SOURce CHAN" ++ str_of_int channel)
            :: Sent "WAVeform:DATA?" :: reads
    /\ forallb reads_only reads = true.
Proof.
  intros Hpre Hvalid Hs Hi Hhead Ht Hm Htm Hfuel.
  set (w1 := log (Sent "WAVeform:DATA?")
               (log (Sent ("WAVeform:SOURce CHAN" ++ str_of_int channel)) w)).
  assert (Hg : g <= t).
  { pose proof Htm as Htm'. rewrite Hi in Htm'.
    inversion Htm' as [|? ? [Hg _] _]; subst. exact Hg. }
  destruct (recv_timed_cases 4096 w1 t ltac:(lia) Ht Hm (timely_wf _ _ Htm))
    as [(data & w2 & Erd & _ & _ & Hs2 & Hm2 & _ & _ & _ & Ht2 & Htm2)
       |[(w2 & Erd & Hi0 & _)|(w2 & Erd & _)]].
  2:{ cbn [w1 inbox log] in Hi0. congruence. }
  2:{ pose proof (recv_timed_head 4096 t g bs rest w1 ltac:(lia) Hm Hi Hg)
        as Hh.
      rewrite Erd in Hh. discriminate. }
  pose proof (recv_timed_head 4096 t g bs rest w1 ltac:(lia) Hm Hi Hg) as Hh.
  rewrite Erd in Hh. cbn [fst] in Hh.
  assert (Ed : data = firstn (Z.to_nat 4096) bs) by congruence.
  clear Hh.
  change (stream w1) with (stream w) in Hs2.
  assert (Hlen : len pre + 2 + len digits <= len data).
  { rewrite Ed, len_firstn_min by lia. lia. }
  destruct (block_in_buffer pre digits payload trailing data (stream w2) d)
    as (_ & _ & Hfind & _); try assumption; [congruence|].
  destruct (normal_decode_block_valid pre digits payload trailing data d w2 t
              fuel) as (w' & dropped & Edec & Htr);
    try assumption; try lia; [congruence | auto | |].
  { apply stream_shorter in Hs2. lia. }
  destruct (proj2 (decode_reads_positive fuel data 0) w2) as (r2 & Ht' & Hr2).
  rewrite Edec in Ht'. cbn [snd] in Ht'.
  apply positive_reads_only in Hr2.
  exists w', dropped.
  unfold NormalMode.get_waveform, NormalMode.send_command,
    NormalMode.receive_data, bind at 1, sendall, write_fault, reliable. fold reliable.
  unfold bind at 1, sendall, write_fault, reliable. fold reliable. unfold bind at 1. fold w1. rewrite Erd.
  unfold bind at 1. rewrite Edec. unfold ret.
  exists (Recv 4096 :: r2).
  split; [reflexivity|]. split; [exact Htr|].
  split; [|simpl; exact Hr2].
  rewrite Ht', Ht2. unfold w1, log. cbn [trace].
  rewrite <- !app_assoc. reflexivity.
Qed.

(** Channel 4, with the block cut behind its first sample and the script's
    timeout of 1 s. *)
Lemma normal_get_waveform_returns_block_witness :
  exists w' dropped reads,
    NormalMode.get_waveform 20 4 unit_calibration (cut_block (Timed 1000))
    = (Ret (calibrate (b_ "abc") (yinc unit_calibration)
              (yorigin unit_calibration) (yref unit_calibration)), w')
    /\ b_ NL = dropped ++ stream w'
    /\ trace w'
       = trace (cut_block (Timed 1000))
         ++ Sent ("WAVeform:SOURce CHAN" ++ str_of_int 4)
            :: Sent "WAVeform:DATA?" :: reads
    /\ forallb reads_only reads = true.
Proof.
  apply (normal_get_waveform_returns_block (b_ "xx") (b_ "3") (b_ "abc")
           (b_ NL) cut_buffer x31 0 1000 [(40, b_ (String.append "bc" NL))] 4
           unit_calibration (cut_block (Timed 1000)) 20).
  - reflexivity.
  - repeat split.
  - reflexivity.
  - reflexivity.
  - vm_compute. discriminate.
  - lia.
  - reflexivity.
  - repeat constructor; simpl; try lia; discriminate.
  - vm_compute. lia.
Defined.

(* ================================================================== *)
(** ** How many samples a decode returns *)

Lemma recv_len (n : Z) (w w' : world) (chunk : bytes) :
  0 <= n -> recv n w = (Ret chunk, w') -> len chunk <= n.
Proof.
  intros Hn. unfold recv.
  destruct (Z.ltb_spec n 0) as [?|_]; [lia|].
  destruct (n =? 0); [intros [= <- _]; rewrite len_nil; exact Hn|].
  cbn [inbox log eof mode].
  destruct (inbox w) as [|[g bs] rest].
  - destruct (eof w); [intros [= <- _]; rewrite len_nil; exact Hn|].
    destruct (mode w); discriminate.
  - unfold take. destruct (mode w) as [| |t].
    + intros [= <- _]. apply len_firstn_le, Hn.
    + destruct (g <=? 0); [|discriminate].
      intros [= <- _]. apply len_firstn_le, Hn.
    + destruct (g <=? t); [|discriminate].
      intros [= <- _]. apply len_firstn_le, Hn.
Qed.

(** The exact read returns a buffer of exactly the length asked for, unless
    the buffer it started with was longer. *)
Lemma receive_more_len (fuel : nat) (n : Z) :
  forall (received : bytes) (w w' : world) (r : bytes),
    MaxMode.receive_more fuel n 4096 received w = (Ret r, w') ->
    len r = Z.max n (len received).
Proof.
  induction fuel as [|fuel IH]; intros received w w' r;
    cbn [MaxMode.receive_more];
    destruct (Z.ltb_spec (len received) n) as [Hlt|Hge];
    try discriminate; try (intros [= <- _]; lia).
  unfold bind.
  destruct (recv (Z.min 4096 (n - len received)) w) as [[chunk|e| |] w1] eqn:Er;
    try discriminate.
  apply recv_len in Er; [|lia].
  destruct chunk as [|c chunk]; [discriminate|].
  intros E. apply IH in E. rewrite E, len_app. lia.
Qed.

Lemma read_rest_len (fuel : nat) (n : Z) :
  forall (wd : bytes) (w w' : world) (r : bytes),
    NormalMode.read_rest fuel n wd w = (Ret r, w') ->
    len r = Z.max n (len wd).
Proof.
  induction fuel as [|fuel IH]; intros wd w w' r;
    cbn [NormalMode.read_rest];
    destruct (Z.ltb_spec (len wd) n) as [Hlt|Hge];
    try discriminate; try (intros [= <- _]; lia).
  unfold bind, NormalMode.receive_data.
  destruct (recv (n - len wd) w) as [[chunk|e| |] w1] eqn:Er;
    try discriminate.
  apply recv_len in Er; [|lia].
  intros E. apply IH in E. rewrite E, len_app. lia.
Qed.

Lemma len_slice_to {A} (l : list A) (n : Z) :
  0 <= n -> len (slice_to l n) = Z.min n (len l).
Proof.
  intros Hn. unfold slice_to. pose proof (len_nonneg l).
  rewrite clamp_inside, len_firstn_min by lia. lia.
Qed.

Lemma len_slice_le {A} (l : list A) (lo n : Z) :
  0 <= lo -> 0 <= n -> len (slice l lo (lo + n)) <= n.
Proof.
  intros Hlo Hn. unfold slice. pose proof (len_nonneg l).
  rewrite !clamp_inside by lia.
  unfold len. rewrite length_firstn. lia.
Qed.

(** X21: the number of samples.  When the header declares [bc >= 0] bytes, a
    decode of the max-mode or of the normal-mode script that returns does so
    with exactly [bc] samples, on any stream; [rigolDAQ.py], which does not
    read on, returns at most [bc]. *)
Theorem decode_block_sample_count `{PyRuntime}
    (fuel : nat) (data : bytes) (hl bc : Z) (w : world) :
  read_header data (find hash data) = inr (hl, bc) ->
  0 <= bc ->
  (forall payload w',
      MaxMode.decode_block fuel data (find hash data) w = (Ret payload, w') ->
      len payload = bc)
  /\ (forall payload w',
        NormalMode.decode_block fuel data w = (Ret payload, w') ->
        len payload = bc)
  /\ (forall payload w',
        Basic.decode_block data w = (Ret payload, w') -> len payload <= bc).
Proof.
  intros Hread Hbc. split; [|split]; intros payload w'.
  - unfold MaxMode.decode_block. rewrite Hread, bind_lift_inr.
    set (wd := slice_from data (find hash data + 2 + hl)).
    unfold bind at 1.
    destruct (Z.ltb_spec (len wd) bc) as [Hlt|Hge].
    + unfold bind at 1, MaxMode.receive_waveform_data.
      destruct (MaxMode.receive_more fuel (bc - len wd) 4096 [] w)
        as [[more|e| |] w1] eqn:Em; try discriminate.
      apply receive_more_len in Em. rewrite len_nil in Em.
      unfold ret. intros [= <- _].
      rewrite len_slice_to, len_app by lia. lia.
    + unfold ret. intros [= <- _]. rewrite len_slice_to by lia. lia.
  - unfold NormalMode.decode_block. rewrite Hread, bind_lift_inr.
    set (wd := slice_from data (find hash data + 2 + hl)).
    unfold bind.
    destruct (NormalMode.read_rest fuel bc wd w) as [[r|e| |] w1] eqn:Er;
      try discriminate.
    apply read_rest_len in Er. unfold ret. intros [= <- _].
    rewrite len_slice_to by lia. lia.
  - unfold Basic.decode_block.
    destruct (Z.eqb_spec (find hash data) (-1)) as [?|Hf]; [discriminate|].
    rewrite Hread, bind_lift_inr. unfold ret. intros [= <- _].
    pose proof (find_bounds hash data) as Hb.
    apply read_header_fields in Hread; [|lia].
    apply len_slice_le; lia.
Qed.

(** The block [#13abc] with one sample in the buffer and the others in the
    socket: three samples from the two scripts that read on, one from
    [rigolDAQ.py]. *)
Lemma decode_block_sample_count_witness :
  (forall payload w',
      MaxMode.decode_block 5 cut_buffer (find hash cut_buffer) cut_rest
      = (Ret payload, w') ->
      len payload = 3)
  /\ (forall payload w',
        NormalMode.decode_block 5 cut_buffer cut_rest = (Ret payload, w') ->
        len payload = 3)
  /\ (forall payload w',
        Basic.decode_block cut_buffer cut_rest = (Ret payload, w') ->
        len payload <= 3).
Proof.
  apply (decode_block_sample_count 5 cut_buffer 1 3 cut_rest).
  - reflexivity.
  - lia.
Defined.

(* ================================================================== *)
(** ** A block cut short by the peer closing *)

(** The read loop of the normal-mode script, when the peer has closed and
    what is on its way does not fill the buffer: every pass ends in the
    next one. *)
Lemma read_rest_starves (fuel : nat) (n t : Z) :
  0 <= t ->
  forall (wd : bytes) (w : world),
    mode w = Timed t -> timely t (inbox w) -> eof w = true ->
    len wd + len (stream w) < n ->
    fst (NormalMode.read_rest fuel n wd w) = OutOfFuel.
Proof.
  intros Ht.
  induction fuel as [|fuel IH]; intros wd w Hm Htm He Hshort;
    pose proof (len_nonneg (stream w)) as Hls;
    cbn [NormalMode.read_rest];
    destruct (Z.ltb_spec (len wd) n) as [Hlt|Hge]; try lia; [reflexivity|].
  unfold bind, NormalMode.receive_data.
  destruct (recv_timed_cases (n - len wd) w t ltac:(lia) Ht Hm
              (timely_wf _ _ Htm))
    as [(chunk & w1 & -> & _ & _ & Hs & Hm1 & He1 & _ & _ & _ & Htm1)
       |[(w1 & -> & Hi & _ & Hi1 & Hm1 & He1 & _)
        |(w1 & -> & _ & _ & _ & _ & _ & _ & Hwhy)]].
  - apply IH; auto; [congruence|].
    rewrite Hs, !len_app in *. lia.
  - apply IH; auto.
    + rewrite Hi1. constructor.
    + rewrite (stream_nil w1 Hi1), app_nil_r, len_nil. lia.
  - destruct Hwhy as [Hnt|[_ Hne]]; [contradiction|congruence].
Qed.

(** The exact read of the max-mode script in the same situation: it ends
    with the lost connection. *)
Lemma receive_more_starves (fuel : nat) (n t : Z) :
  0 <= t ->
  forall (received : bytes) (w : world),
    mode w = Timed t -> timely t (inbox w) -> eof w = true ->
    len received + len (stream w) < n ->
    (List.length (stream w) < fuel)%nat ->
    fst (MaxMode.receive_more fuel n 4096 received w) = Raise connection_lost.
Proof.
  intros Ht.
  induction fuel as [|fuel IH]; intros received w Hm Htm He Hshort Hfuel;
    [lia|].
  pose proof (len_nonneg (stream w)) as Hls.
  cbn [MaxMode.receive_more].
  destruct (Z.ltb_spec (len received) n) as [Hlt|Hge]; [|lia].
  unfold bind.
  destruct (recv_timed_cases (Z.min 4096 (n - len received)) w t ltac:(lia)
              Ht Hm (timely_wf _ _ Htm))
    as [(chunk & w1 & -> & Hne & _ & Hs & Hm1 & He1 & _ & _ & _ & Htm1)
       |[(w1 & -> & _)
        |(w1 & -> & _ & _ & _ & _ & _ & _ & Hwhy)]].
  - destruct chunk as [|c chunk]; [congruence|].
    apply IH; auto; [congruence | |].
    + rewrite Hs, !len_app in *. lia.
    + rewrite Hs, length_app in Hfuel. simpl in Hfuel. lia.
  - reflexivity.
  - destruct Hwhy as [Hnt|[_ Hne]]; [contradiction|congruence].
Qed.

Lemma slice_whole {A} (l : list A) (hi : Z) :
  len l <= hi -> slice l 0 hi = l.
Proof.
  intros Hl. pose proof (len_nonneg l). unfold slice.
  rewrite !clamp_inside by lia.
  replace (Z.to_nat (Z.min 0 (len l))) with 0%nat by lia.
  simpl skipn. apply firstn_all2. unfold len in *. lia.
Qed.

(** X22: the peer closes before the [L] bytes the header declares have come: a
    buffer with [p0] of the payload, and fewer than the missing bytes on
    their way.  The three scripts part ways: [rigolDAQ.py] returns the short
    payload [p0] without an error; the max-mode script raises
    [ConnectionError]; the loop of the normal-mode script, to which [recv]
    hands the empty bytes of the closed socket again and again, does not
    end. *)
Theorem truncated_block_on_closed_peer `{PyRuntime}
    (pre digits p0 : bytes) (d : byte) (L t : Z) (w : world) (fuel : nat) :
  find hash pre = -1 ->
  valid_header d digits L ->
  0 <= t -> mode w = Timed t -> timely t (inbox w) -> eof w = true ->
  len p0 + len (stream w) < L ->
  Basic.decode_block (pre ++ hash :: d :: digits ++ p0) w = (Ret p0, w)
  /\ fst (NormalMode.decode_block fuel (pre ++ hash :: d :: digits ++ p0) w)
     = OutOfFuel
  /\ ((List.length (stream w) < fuel)%nat ->
      fst (MaxMode.decode_block fuel (pre ++ hash :: d :: digits ++ p0)
             (find hash (pre ++ hash :: d :: digits ++ p0)) w)
      = Raise connection_lost).
Proof.
  intros Hpre Hvalid Ht Hm Htm He Hshort.
  set (data := pre ++ hash :: d :: digits ++ p0).
  pose proof (len_nonneg pre) as Hlp. pose proof (len_nonneg digits) as Hld.
  pose proof (len_nonneg p0) as Hlp0.
  pose proof (len_nonneg (stream w)) as Hls.
  assert (Hfind : find hash data = len pre)
    by (apply find_app_present, Hpre).
  assert (Hread : read_header data (len pre) = inr (len digits, L)).
  { unfold data. apply read_header_valid. exact Hvalid. }
  assert (Hdata : data = (pre ++ hash :: d :: digits) ++ p0).
  { unfold data. rewrite <- app_assoc. reflexivity. }
  assert (Hhl : len pre + 2 + len digits = len (pre ++ hash :: d :: digits))
    by (rewrite len_app, !len_cons; lia).
  assert (Hfrom : slice_from data (len pre + 2 + len digits) = p0).
  { rewrite Hdata, Hhl. apply slice_from_app. }
  split; [|split].
  - rewrite basic_decode_block_header by (rewrite Hfind; lia).
    rewrite Hfind, Hread. do 2 f_equal.
    rewrite Hdata, Hhl.
    replace (len (pre ++ hash :: d :: digits))
      with (len (pre ++ hash :: d :: digits) + 0) at 1 by lia.
    rewrite slice_app_shift by lia. apply slice_whole. lia.
  - unfold NormalMode.decode_block.
    rewrite Hfind, Hread, bind_lift_inr, Hfrom. unfold bind.
    pose proof (read_rest_starves fuel L t Ht p0 w Hm Htm He Hshort) as Hr.
    destruct (NormalMode.read_rest fuel L p0 w) as [[r|e| |] w1];
      try discriminate. reflexivity.
  - intros Hfuel. unfold MaxMode.decode_block.
    rewrite Hfind, Hread, bind_lift_inr, Hfrom.
    destruct (Z.ltb_spec (len p0) L) as [_|?]; [|lia].
    unfold bind, MaxMode.receive_waveform_data.
    pose proof (receive_more_starves fuel (L - len p0) t Ht [] w Hm Htm He)
      as Hr.
    rewrite len_nil in Hr. specialize (Hr ltac:(lia) Hfuel).
    destruct (MaxMode.receive_more fuel (L - len p0) 4096 [] w)
      as [[r|e| |] w1]; try discriminate.
    cbn [fst] in *. exact Hr.
Qed.

(** The block [#15ab] and a last byte before the peer closes. *)
Lemma truncated_block_on_closed_peer_witness :
  Basic.decode_block ([] ++ hash :: x31 :: b_ "5" ++ b_ "ab") short_rest
  = (Ret (b_ "ab"), short_rest)
  /\ fst (NormalMode.decode_block 9 ([] ++ hash :: x31 :: b_ "5" ++ b_ "ab")
            short_rest)
     = OutOfFuel
  /\ ((List.length (stream short_rest) < 9)%nat ->
      fst (MaxMode.decode_block 9 ([] ++ hash :: x31 :: b_ "5" ++ b_ "ab")
             (find hash ([] ++ hash :: x31 :: b_ "5" ++ b_ "ab")) short_rest)
      = Raise connection_lost).
Proof.
  apply (truncated_block_on_closed_peer [] (b_ "5") (b_ "ab") x31 5 100
           short_rest 9).
  - reflexivity.
  - repeat split.
  - lia.
  - reflexivity.
  - repeat constructor; simpl; try lia; discriminate.
  - reflexivity.
  - vm_compute. reflexivity.
Defined.

(* ================================================================== *)
(** ** How often a run sends a command *)

Lemma count_sent_other (cmd : string) (d : list event) :
  forallb (other_than cmd) d = true -> count_sent cmd d = 0%nat.
Proof.
  unfold count_sent.
  induction d as [|e d IH]; simpl; intros Hd; [reflexivity|].
  apply andb_prop in Hd. destruct Hd as [He Hd].
  destruct e as [c|n|ms]; simpl in *; auto.
  destruct (String.eqb c cmd); [discriminate|auto].
Qed.

Lemma sends_of_emits {A} (cmd : string) (m : M A) :
  emits (other_than cmd) m -> sends cmd 0 m.
Proof.
  intros Hm w a w' E. destruct (Hm w) as (d & Ht & Hd).
  rewrite E in Ht. exists d. split; [exact Ht|].
  apply count_sent_other, Hd.
Qed.

Lemma sends_ret {A} (cmd : string) (a : A) : sends cmd 0 (ret a).
Proof.
  intros w a' w' [= _ <-]. exists []. rewrite app_nil_r. auto.
Qed.

Lemma sends_sendall (cmd c : string) :
  sends cmd (if String.eqb c cmd then 1 else 0) (sendall c).
Proof.
  intros w a w' [= _ <-]. exists [Sent c]. split; [reflexivity|].
  unfold count_sent. simpl. destruct (String.eqb c cmd); reflexivity.
Qed.

Lemma sends_bind {A B} (cmd : string) (k1 k2 : nat) (m : M A) (k : A -> M B) :
  sends cmd k1 m -> (forall a, sends cmd k2 (k a)) ->
  sends cmd (k1 + k2) (bind m k).
Proof.
  intros Hm Hk w b w'. unfold bind.
  destruct (m w) as [[a|e| |] w1] eqn:E; try discriminate.
  intros E2.
  destruct (Hm w a w1 E) as (d1 & Ht1 & Hc1).
  destruct (Hk a w1 b w' E2) as (d2 & Ht2 & Hc2).
  exists (d1 ++ d2). rewrite Ht2, Ht1, app_assoc, count_sent_app, Hc1, Hc2.
  auto.
Qed.

Lemma sends_eq {A} (cmd : string) (k k' : nat) (m : M A) :
  sends cmd k m -> k = k' -> sends cmd k' m.
Proof. intros Hm <-. exact Hm. Qed.

Lemma emits_weaken {A} (ok ok' : event -> bool) (m : M A) :
  (forall e, ok e = true -> ok' e = true) -> emits ok m -> emits ok' m.
Proof.
  intros Hok Hm w. destruct (Hm w) as (d & Ht & Hd).
  exists d. split; [exact Ht|].
  rewrite forallb_forall in *. auto.
Qed.

Lemma positive_reads_other (cmd : string) (e : event) :
  positive_reads e = true -> other_than cmd e = true.
Proof. destruct e; simpl; auto; discriminate. Qed.

(** The loop over the triggers: [n] passes that each return [k] sends. *)
Lemma sends_loop {A} (cmd : string) (k : nat) (one : M A)
      (loop : nat -> M (list A)) :
  loop 0%nat = ret [] ->
  (forall n, loop (S n) = (r <- one ;; rs <- loop n ;; ret (r :: rs))) ->
  sends cmd k one ->
  forall n, sends cmd (n * k) (loop n).
Proof.
  intros H0 HS Hone. induction n as [|n IH].
  - rewrite H0. apply sends_ret.
  - rewrite HS. eapply sends_eq.
    + eapply sends_bind; [exact Hone | intros r].
      eapply sends_bind; [exact IH | intros rs]. apply sends_ret.
    + simpl. lia.
Qed.

Ltac sends_step :=
  lazymatch goal with
  | |- sends _ _ (ret _) => apply sends_ret
  | |- sends _ _ (sendall _) => apply sends_sendall
  | |- sends _ _ (bind _ _) => eapply sends_bind; [|intros ?]
  | |- sends _ _ (sleep _) => apply sends_of_emits; emits_tac
  | |- sends _ _ (recv _) => apply sends_of_emits; emits_tac
  | |- sends _ _ perf_counter => apply sends_of_emits; emits_tac
  end.

Section CommandCounts.
Context `{PyRuntime}.
Variables (fuel : nat) (c3 c4 : calibration).

Lemma max_acquire_one_sends (cmd : string) :
  other_than cmd (Sent "TRIGger:STATus?") = true ->
  other_than cmd (Sent "WAVeform:DATA?") = true ->
  (forall channel,
      other_than cmd (Sent ("WAVeform:SOURce CHAN" ++ str_of_int channel))
      = true) ->
  sends cmd ((if String.eqb ":SINGle" cmd then 1 else 0)
             + (if String.eqb ":STOP" cmd then 1 else 0))
        (MaxMode.acquire_one fuel c3 c4).
Proof.
  intros Hs Hd Hc.
  unfold MaxMode.acquire_one, MaxMode.send_command.
  eapply sends_eq.
  - eapply sends_bind;
      [apply sends_of_emits, flush_socket_emits; io_ok | intros _].
    eapply sends_bind; [sends_step | intros _].
    eapply sends_bind; [sends_step | intros _].
    eapply sends_bind;
      [apply sends_of_emits, max_wait_for_trigger_emits; [io_ok|io_ok|exact Hs]
      | intros _].
    eapply sends_bind; [sends_step | intros _].
    eapply sends_bind; [sends_step | intros _].
    eapply sends_bind;
      [apply sends_of_emits, max_get_waveform_data_emits;
       [io_ok | io_ok | exact Hd | apply Hc] | intros v3].
    eapply sends_bind;
      [apply sends_of_emits, flush_socket_emits; io_ok | intros _].
    eapply sends_bind;
      [apply sends_of_emits, max_get_waveform_data_emits;
       [io_ok | io_ok | exact Hd | apply Hc] | intros v4].
    apply sends_ret.
  - simpl. lia.
Qed.
Lemma normal_get_waveform_sends (channel : Z) (c : calibration) (cmd : string) :
  other_than cmd (Sent ("WAVeform:SOURce CHAN" ++ str_of_int channel)) = true ->
  sends cmd (if String.eqb "WAVeform:DATA?" cmd then 1 else 0)
        (NormalMode.get_waveform fuel channel c).
Proof.
  intros Hc.
  unfold NormalMode.get_waveform, NormalMode.send_command,
    NormalMode.receive_data.
  eapply sends_eq.
  - eapply sends_bind;
      [apply sends_of_emits, emits_sendall; exact Hc | intros _].
    eapply sends_bind; [sends_step | intros _].
    eapply sends_bind; [sends_step | intros data].
    eapply sends_bind; [|intros raw; apply sends_ret].
    apply sends_of_emits.
    eapply emits_weaken; [apply positive_reads_other|].
    apply (decode_reads_positive fuel data 0).
  - destruct (String.eqb "WAVeform:DATA?" cmd); reflexivity.
Qed.

Lemma normal_acquire_one_sends (cmd : string) :
  other_than cmd (Sent "TRIGger:STATus?") = true ->
  other_than cmd (Sent "WAVeform:SOURce CHAN3") = true ->
  other_than cmd (Sent "WAVeform:SOURce CHAN4") = true ->
  sends cmd ((if String.eqb ":SING" cmd then 1 else 0)
             + 2 * (if String.eqb "WAVeform:DATA?" cmd then 1 else 0))
        (NormalMode.acquire_one fuel c3 c4).
Proof.
  intros Hs H3 H4.
  unfold NormalMode.acquire_one, NormalMode.arm_scope,
    NormalMode.send_command, NormalMode.wait_for_trigger.
  eapply sends_eq.
  - eapply sends_bind; [sends_step | intros _].
    eapply sends_bind; [|intros _].
    { eapply sends_bind; [sends_step | intros start].
      apply sends_of_emits, normal_wait_loop_emits; [io_ok|io_ok|exact Hs]. }
    eapply sends_bind;
      [apply normal_get_waveform_sends; exact H3 | intros v3].
    eapply sends_bind;
      [apply normal_get_waveform_sends; exact H4 | intros v4].
    apply sends_ret.
  - destruct (String.eqb ":SING" cmd), (String.eqb "WAVeform:DATA?" cmd);
      reflexivity.
Qed.

Lemma basic_get_waveform_data_sends (channel : Z) (cmd : string) :
  other_than cmd (Sent "WAVeform:MODE NORMal") = true ->
  other_than cmd (Sent "WAVeform:FORMat BYTE") = true ->
  other_than cmd (Sent ("WAVeform:SOURce CHAN" ++ str_of_int channel)) = true ->
  other_than cmd (Sent "WAVeform:YINC?") = true ->
  other_than cmd (Sent "WAVeform:YORigin?") = true ->
  other_than cmd (Sent "WAVeform:YREFerence?") = true ->
  sends cmd (if String.eqb "WAVeform:DATA?" cmd then 1 else 0)
        (Basic.get_waveform_data channel).
Proof.
  intros Hm Hf Hc Hi Ho Hr.
  unfold Basic.get_waveform_data, Basic.send_command, Basic.receive_data.
  eapply sends_eq.
  - eapply sends_bind;
      [apply sends_of_emits, emits_sendall; exact Hm | intros _].
    eapply sends_bind;
      [apply sends_of_emits, emits_sendall; exact Hf | intros _].
    eapply sends_bind;
      [apply sends_of_emits, emits_sendall; exact Hc | intros _].
    eapply sends_bind;
      [apply sends_of_emits, basic_query_float_emits; [io_ok|exact Hi]
      | intros v1].
    eapply sends_bind;
      [apply sends_of_emits, basic_query_float_emits; [io_ok|exact Ho]
      | intros v2].
    eapply sends_bind;
      [apply sends_of_emits, basic_query_float_emits; [io_ok|exact Hr]
      | intros v3].
    eapply sends_bind; [sends_step | intros _].
    eapply sends_bind; [sends_step | intros data].
    eapply sends_bind; [|intros raw; apply sends_ret].
    apply sends_of_emits. unfold Basic.decode_block.
    destruct (find hash data =? -1); emits_tac.
    match goal with
    | p : (Z * Z)%type |- _ => destruct p as [hl bc]
    end.
    emits_tac.
  - destruct (String.eqb "WAVeform:DATA?" cmd); reflexivity.
Qed.

Lemma basic_acquire_one_sends (cmd : string) :
  other_than cmd (Sent "TRIGger:STATus?") = true ->
  other_than cmd (Sent "WAVeform:MODE NORMal") = true ->
  other_than cmd (Sent "WAVeform:FORMat BYTE") = true ->
  other_than cmd (Sent "WAVeform:SOURce CHAN3") = true ->
  other_than cmd (Sent "WAVeform:SOURce CHAN4") = true ->
  other_than cmd (Sent "WAVeform:YINC?") = true ->
  other_than cmd (Sent "WAVeform:YORigin?") = true ->
  other_than cmd (Sent "WAVeform:YREFerence?") = true ->
  sends cmd (2 * (if String.eqb "WAVeform:DATA?" cmd then 1 else 0)
             + (if String.eqb "TRIGger:SWEep SINGle" cmd then 1 else 0))
        (Basic.acquire_one fuel).
Proof.
  intros Hs Hm Hf H3 H4 Hi Ho Hr.
  unfold Basic.acquire_one, Basic.arm_scope, Basic.send_command.
  eapply sends_eq.
  - eapply sends_bind;
      [apply sends_of_emits, basic_wait_for_trigger_emits; [io_ok|io_ok|exact Hs]
      | intros _].
    eapply sends_bind;
      [apply basic_get_waveform_data_sends; assumption | intros v3].
    eapply sends_bind;
      [apply basic_get_waveform_data_sends; assumption | intros v4].
    eapply sends_bind; [sends_step | intros _].
    apply sends_ret.
  - destruct (String.eqb "TRIGger:SWEep SINGle" cmd),
      (String.eqb "WAVeform:DATA?" cmd); reflexivity.
Qed.

(** The loops return one entry per trigger. *)
Lemma loop_returns_n {A} (one : M A) (loop : nat -> M (list A)) :
  loop 0%nat = ret [] ->
  (forall n, loop (S n) = (r <- one ;; rs <- loop n ;; ret (r :: rs))) ->
  forall n, returns_n n (loop n).
Proof.
  intros H0 HS. induction n as [|n IH]; intros w rs w'.
  - rewrite H0. intros [= <- _]. reflexivity.
  - rewrite HS. unfold bind.
    destruct (one w) as [[r|e| |] w1]; try discriminate.
    destruct (loop n w1) as [[rs1|e| |] w2] eqn:E; try discriminate.
    intros [= <- _]. simpl. f_equal. eapply IH. exact E.
Qed.
End CommandCounts.

(** X14: a run over [ntrig] triggers that comes to its end has sent, whatever
    the instrument answered: in the max-mode script [:SINGle] once per
    trigger and [:STOP] once per trigger and once before the first; in the
    normal-mode script [:SING] once per trigger, [:STOP] once, and one data
    query per channel and trigger; in [rigolDAQ.py] one data query per
    channel and trigger as well, and the arming command once per trigger and
    once more: the script arms again after the last trigger, and leaves the
    instrument armed.  Each run returns one pair of waveforms per trigger. *)
Theorem acquire_command_counts `{PyRuntime}
    (fuel : nat) (c3 c4 : calibration) (ntrig : nat) :
  (sends ":SINGle" ntrig (MaxMode.acquire fuel c3 c4 ntrig)
   /\ sends ":STOP" (S ntrig) (MaxMode.acquire fuel c3 c4 ntrig)
   /\ returns_n ntrig (MaxMode.acquire fuel c3 c4 ntrig))
  /\ (sends ":SING" ntrig (NormalMode.acquire fuel c3 c4 ntrig)
      /\ sends ":STOP" 1 (NormalMode.acquire fuel c3 c4 ntrig)
      /\ sends "WAVeform:DATA?" (2 * ntrig)
               (NormalMode.acquire fuel c3 c4 ntrig)
      /\ returns_n ntrig (NormalMode.acquire fuel c3 c4 ntrig))
  /\ (sends "TRIGger:SWEep SINGle" (S ntrig) (Basic.acquire fuel ntrig)
      /\ sends "WAVeform:DATA?" (2 * ntrig) (Basic.acquire fuel ntrig)
      /\ returns_n ntrig (Basic.acquire fuel ntrig)).
Proof.
  assert (Hmax : forall cmd k,
             sends cmd k (MaxMode.acquire_one fuel c3 c4) ->
             sends cmd ((if String.eqb ":STOP" cmd then 1 else 0)
                        + ((if String.eqb "TRIGger:SWEep SINGle" cmd
                            then 1 else 0)
                           + ntrig * k))
                   (MaxMode.acquire fuel c3 c4 ntrig)).
  { intros cmd k Hone. unfold MaxMode.acquire, MaxMode.send_command.
    eapply sends_bind; [sends_step | intros _].
    eapply sends_bind; [sends_step | intros _].
    apply (sends_loop cmd k (MaxMode.acquire_one fuel c3 c4)
             (MaxMode.acquire_loop fuel c3 c4)); auto. }
  assert (Hnormal : forall cmd k,
             sends cmd k (NormalMode.acquire_one fuel c3 c4) ->
             sends cmd ((if String.eqb ":STOP" cmd then 1 else 0)
                        + ((if String.eqb "TRIGger:SWEep SINGle" cmd
                            then 1 else 0)
                           + ntrig * k))
                   (NormalMode.acquire fuel c3 c4 ntrig)).
  { intros cmd k Hone. unfold NormalMode.acquire, NormalMode.send_command.
    eapply sends_bind; [sends_step | intros _].
    eapply sends_bind; [sends_step | intros _].
    apply (sends_loop cmd k (NormalMode.acquire_one fuel c3 c4)
             (NormalMode.acquire_loop fuel c3 c4)); auto. }
  assert (Hbasic : forall cmd k,
             sends cmd k (Basic.acquire_one fuel) ->
             sends cmd ((if String.eqb "TRIGger:SWEep SINGle" cmd
                         then 1 else 0)
                        + ntrig * k)
                   (Basic.acquire fuel ntrig)).
  { intros cmd k Hone. unfold Basic.acquire, Basic.arm_scope,
      Basic.send_command.
    eapply sends_bind; [sends_step | intros _].
    apply (sends_loop cmd k (Basic.acquire_one fuel)
             (Basic.acquire_loop fuel)); auto. }
  assert (Hlen : forall {A} (pre : M unit) (m : M (list A)) n,
             returns_n n m -> returns_n n (pre ;; m)).
  { intros A pre m n Hm w rs w'. unfold bind.
    destruct (pre w) as [[[]|e| |] w1]; try discriminate. apply Hm. }
  split; [split; [|split] | split; [split; [|split; [|split]] | split; [|split]]].
  - eapply sends_eq;
      [apply (Hmax ":SINGle"), max_acquire_one_sends; io_ok | simpl; lia].
  - eapply sends_eq;
      [apply (Hmax ":STOP"), max_acquire_one_sends; io_ok | simpl; lia].
  - unfold MaxMode.acquire. do 2 apply Hlen.
    apply (loop_returns_n (MaxMode.acquire_one fuel c3 c4)
             (MaxMode.acquire_loop fuel c3 c4)); auto.
  - eapply sends_eq;
      [apply (Hnormal ":SING"), normal_acquire_one_sends; io_ok | simpl; lia].
  - eapply sends_eq;
      [apply (Hnormal ":STOP"), normal_acquire_one_sends; io_ok | simpl; lia].
  - eapply sends_eq;
      [apply (Hnormal "WAVeform:DATA?"), normal_acquire_one_sends; io_ok
      | simpl; lia].
  - unfold NormalMode.acquire. do 2 apply Hlen.
    apply (loop_returns_n (NormalMode.acquire_one fuel c3 c4)
             (NormalMode.acquire_loop fuel c3 c4)); auto.
  - eapply sends_eq;
      [apply (Hbasic "TRIGger:SWEep SINGle"), basic_acquire_one_sends; io_ok
      | simpl; lia].
  - eapply sends_eq;
      [apply (Hbasic "WAVeform:DATA?"), basic_acquire_one_sends; io_ok
      | simpl; lia].
  - unfold Basic.acquire. apply Hlen.
    apply (loop_returns_n (Basic.acquire_one fuel)
             (Basic.acquire_loop fuel)); auto.
Qed.

(* ================================================================== *)
(** ** The missing marker in [rigolDAQ.py] *)

Lemma find_absent_iff (c : byte) (data : bytes) :
  find c data = -1 <-> ~ In c data.
Proof.
  induction data as [|b data IH]; simpl.
  - tauto.
  - destruct (Byte.eqb b c) eqn:E.
    + apply Byte.byte_dec_bl in E. subst. split; [discriminate|].
      intros Hn. exfalso. auto.
    + assert (b <> c).
      { intros ->. rewrite (Byte.byte_dec_lb eq_refl) in E. discriminate. }
      pose proof (find_bounds c data) as Hb.
      destruct (Z.ltb_spec (find c data) 0) as [Hlt|Hge].
      * split; [|reflexivity]. intros _ [?|Hin]; [congruence|].
        apply IH in Hin; [exact Hin|lia].
      * split; [lia|]. intros Hn. exfalso.
        assert (Hd : ~ In c data) by tauto.
        apply IH in Hd. lia.
Qed.

(** X20: [rigolDAQ.py] raises its [ValueError] for a missing data block exactly
    when the response holds no marker byte: then it parses nothing; and a
    response with a marker never ends in this error, whatever its header. *)
Theorem basic_data_block_not_found `{PyRuntime} (data : bytes) (w : world) :
  Basic.decode_block data w = (Raise (ValueError "Data block not found"), w)
  <-> ~ In hash data.
Proof.
  rewrite <- find_absent_iff. split.
  - intros E.
    destruct (Z.eq_dec (find hash data) (-1)) as [Hf|Hf]; [exact Hf|].
    rewrite basic_decode_block_header in E by exact Hf.
    destruct (read_header data (find hash data)) as [e|[hl bc]] eqn:Er;
      [|discriminate].
    apply read_header_errors in Er. injection E as ->.
    destruct Er; discriminate.
  - apply basic_missing_marker.
Qed.

(* ================================================================== *)
(** ** Replies read in order *)

Section InOrder.
Context `{PyRuntime}.

(** One scalar query of [rigolDAQ.py] and of the normal-mode script, on a
    segment within reach: the segment is the reply. *)
Lemma basic_query_float_step (cmd : string) (g : Z) (r : bytes) (s : text)
      (v : float) (rest : list segment) (e : bool) (nw : Z)
      (tr : list event) :
  len r <= 4096 -> utf8_decode r = Some s -> float_of_text s = Some v ->
  Basic.query_float cmd (mkWorld ((g, r) :: rest) e Blocking nw tr)
  = (Ret v,
     mkWorld rest e Blocking (nw + Z.max 0 g) (tr ++ [Sent cmd; Recv 4096])).
Proof.
  intros Hl Hs Hv.
  unfold Basic.query_float, Basic.send_command, Basic.receive_data,
    bind, sendall, write_fault, reliable, log. fold reliable. cbn [inbox eof mode now trace].
  rewrite recv_whole_segment by (auto; lia).
  unfold decode, py_float. rewrite Hs. cbn [or_raise]. unfold ret.
  rewrite Hv. cbn [or_raise]. unfold ret. rewrite <- app_assoc. reflexivity.
Qed.

Lemma normal_query_step (cmd : string) (g t : Z) (r : bytes) (s : text)
      (rest : list segment) (e : bool) (nw : Z) (tr : list event) :
  len r <= 4096 -> g <= t -> utf8_decode r = Some s ->
  NormalMode.query cmd (mkWorld ((g, r) :: rest) e (Timed t) nw tr)
  = (Ret (strip s),
     mkWorld rest e (Timed t) (nw + Z.max 0 g) (tr ++ [Sent cmd; Recv 4096])).
Proof.
  intros Hl Hg Hs.
  unfold NormalMode.query, NormalMode.send_command, NormalMode.receive_data,
    bind, sendall, write_fault, reliable, log. fold reliable. cbn [inbox eof mode now trace].
  rewrite recv_whole_segment by (eauto; lia).
  unfold decode. rewrite Hs. cbn [or_raise]. unfold ret.
  rewrite <- app_assoc. reflexivity.
Qed.

Lemma normal_query_float_step (cmd : string) (g t : Z) (r : bytes) (s : text)
      (v : float) (rest : list segment) (e : bool) (nw : Z)
      (tr : list event) :
  len r <= 4096 -> g <= t -> utf8_decode r = Some s ->
  float_of_text (strip s) = Some v ->
  NormalMode.query_float cmd (mkWorld ((g, r) :: rest) e (Timed t) nw tr)
  = (Ret v,
     mkWorld rest e (Timed t) (nw + Z.max 0 g) (tr ++ [Sent cmd; Recv 4096])).
Proof.
  intros Hl Hg Hs Hv. unfold NormalMode.query_float, bind.
  rewrite (normal_query_step cmd g t r s) by assumption.
  unfold py_float. rewrite Hv. reflexivity.
Qed.

Lemma basic_decode_block_valid (pre digits payload trailing : bytes)
      (d : byte) (w : world) :
  find hash pre = -1 ->
  valid_header d digits (len payload) ->
  Basic.decode_block (pre ++ hash :: d :: digits ++ payload ++ trailing) w
  = (Ret payload, w).
Proof.
  intros Hpre Hvalid.
  pose proof (len_nonneg pre) as Hlp. pose proof (len_nonneg digits) as Hld.
  assert (Hfind : find hash (pre ++ hash :: d :: digits ++ payload ++ trailing)
                  = len pre) by (apply find_app_present, Hpre).
  rewrite basic_decode_block_header by (rewrite Hfind; lia).
  rewrite Hfind.
  rewrite (read_header_valid pre digits (payload ++ trailing) d (len payload)
             Hvalid).
  replace (pre ++ hash :: d :: digits ++ payload ++ trailing)
    with ((pre ++ hash :: d :: digits) ++ payload ++ trailing)
    by (rewrite <- app_assoc; reflexivity).
  replace (len pre + 2 + len digits) with (len (pre ++ hash :: d :: digits))
    by (rewrite len_app, !len_cons; lia).
  rewrite slice_middle. reflexivity.
Qed.
End InOrder.

(** X17: the whole of [get_waveform_data] of [rigolDAQ.py], when each [recv]
    finds one segment of at most 4096 bytes: the function sets mode and
    format, selects the channel and reads the three scaling values anew on
    every call, taking the first three segments for the replies in the order
    increment, origin, reference, and the fourth for the response to the
    data query; when that one holds a valid block, it returns the payload
    calibrated with the three values. *)
Theorem basic_get_waveform_data_returns_block `{PyRuntime}
    (channel : Z) (g1 g2 g3 g4 : Z) (r1 r2 r3 : bytes) (s1 s2 s3 : text)
    (v1 v2 v3 : float) (pre digits payload trailing : bytes) (d : byte)
    (rest : list segment) (e : bool) (nw : Z) (tr : list event) :
  len r1 <= 4096 -> len r2 <= 4096 -> len r3 <= 4096 ->
  utf8_decode r1 = Some s1 -> float_of_text s1 = Some v1 ->
  utf8_decode r2 = Some s2 -> float_of_text s2 = Some v2 ->
  utf8_decode r3 = Some s3 -> float_of_text s3 = Some v3 ->
  find hash pre = -1 ->
  valid_header d digits (len payload) ->
  len (pre ++ hash :: d :: digits ++ payload ++ trailing) <= 4096 ->
  Basic.get_waveform_data channel
    (mkWorld ((g1, r1) :: (g2, r2) :: (g3, r3)
              :: (g4, pre ++ hash :: d :: digits ++ payload ++ trailing)
              :: rest) e Blocking nw tr)
  = (Ret (calibrate payload v1 v2 v3),
     mkWorld rest e Blocking
             (nw + Z.max 0 g1 + Z.max 0 g2 + Z.max 0 g3 + Z.max 0 g4)
             (tr ++ [Sent "WAVeform:MODE NORMal"; Sent "WAVeform:FORMat BYTE";
                     Sent ("WAVeform:SOURce CHAN" ++ str_of_int channel);
                     Sent "WAVeform:YINC?"; Recv 4096;
                     Sent "WAVeform:YORigin?"; Recv 4096;
                     Sent "WAVeform:YREFerence?"; Recv 4096;
                     Sent "WAVeform:DATA?"; Recv 4096])).
Proof.
  intros Hl1 Hl2 Hl3 Hs1 Hv1 Hs2 Hv2 Hs3 Hv3 Hpre Hvalid Hl4.
  unfold Basic.get_waveform_data, Basic.send_command, Basic.receive_data.
  unfold bind at 1, sendall, write_fault, reliable, log. fold reliable. cbn [inbox eof mode now trace].
  unfold bind at 1, sendall, write_fault, reliable, log. fold reliable. cbn [inbox eof mode now trace].
  unfold bind at 1, sendall, write_fault, reliable, log. fold reliable. cbn [inbox eof mode now trace].
  unfold bind at 1.
  rewrite (basic_query_float_step _ _ _ s1 v1) by assumption.
  unfold bind at 1.
  rewrite (basic_query_float_step _ _ _ s2 v2) by assumption.
  unfold bind at 1.
  rewrite (basic_query_float_step _ _ _ s3 v3) by assumption.
  unfold bind at 1, sendall, write_fault, reliable, log. fold reliable. cbn [inbox eof mode now trace].
  unfold bind at 1. rewrite recv_whole_segment by (auto; lia).
  unfold bind. rewrite basic_decode_block_valid by assumption.
  unfold ret. rewrite <- !app_assoc. reflexivity.
Qed.

(** The values 2, 0 and 0 and the block [#13abc]. *)
Lemma basic_get_waveform_data_returns_block_witness :
  Basic.get_waveform_data 3
    (mkWorld ((0, b_ "2") :: (0, b_ "0") :: (0, b_ "0")
              :: (0, [] ++ hash :: x31 :: b_ "3" ++ b_ "abc" ++ b_ NL)
              :: []) false Blocking 0 [])
  = (Ret (calibrate (b_ "abc") (PrimFloat.of_uint63 2)
            (PrimFloat.of_uint63 0) (PrimFloat.of_uint63 0)),
     mkWorld [] false Blocking
             (0 + Z.max 0 0 + Z.max 0 0 + Z.max 0 0 + Z.max 0 0)
             ([] ++ [Sent "WAVeform:MODE NORMal"; Sent "WAVeform:FORMat BYTE";
                     Sent ("WAVeform:SOURce CHAN" ++ str_of_int 3);
                     Sent "WAVeform:YINC?"; Recv 4096;
                     Sent "WAVeform:YORigin?"; Recv 4096;
                     Sent "WAVeform:YREFerence?"; Recv 4096;
                     Sent "WAVeform:DATA?"; Recv 4096])).
Proof.
  apply (basic_get_waveform_data_returns_block 3 0 0 0 0
           (b_ "2") (b_ "0") (b_ "0") (s_ "2") (s_ "0") (s_ "0")
           (PrimFloat.of_uint63 2) (PrimFloat.of_uint63 0)
           (PrimFloat.of_uint63 0) [] (b_ "3") (b_ "abc") (b_ NL) x31
           [] false 0 []);
    try reflexivity; try (vm_compute; discriminate).
  repeat split.
Defined.

(** X7: [prepare_channel] of the normal-mode script, when each [recv] finds one
    segment of at most 4096 bytes within the socket's timeout: it selects
    the channel and takes the next three segments, whether they are replies
    or pieces of replies, for increment, origin and reference, in this
    order. *)
Theorem normal_prepare_channel_reads_scaling `{PyRuntime}
    (channel : Z) (g1 g2 g3 t : Z) (r1 r2 r3 : bytes) (s1 s2 s3 : text)
    (v1 v2 v3 : float) (rest : list segment) (e : bool) (nw : Z)
    (tr : list event) :
  len r1 <= 4096 -> len r2 <= 4096 -> len r3 <= 4096 ->
  g1 <= t -> g2 <= t -> g3 <= t ->
  utf8_decode r1 = Some s1 -> float_of_text (strip s1) = Some v1 ->
  utf8_decode r2 = Some s2 -> float_of_text (strip s2) = Some v2 ->
  utf8_decode r3 = Some s3 -> float_of_text (strip s3) = Some v3 ->
  NormalMode.prepare_channel channel
    (mkWorld ((g1, r1) :: (g2, r2) :: (g3, r3) :: rest) e (Timed t) nw tr)
  = (Ret (mkCal v1 v2 v3),
     mkWorld rest e (Timed t) (nw + Z.max 0 g1 + Z.max 0 g2 + Z.max 0 g3)
             (tr ++ [Sent ("WAVeform:SOURce CHAN" ++ str_of_int channel);
                     Sent "WAVeform:YINC?"; Recv 4096;
                     Sent "WAVeform:YORigin?"; Recv 4096;
                     Sent "WAVeform:YREFerence?"; Recv 4096])).
Proof.
  intros Hl1 Hl2 Hl3 Hg1 Hg2 Hg3 Hs1 Hv1 Hs2 Hv2 Hs3 Hv3.
  unfold NormalMode.prepare_channel, NormalMode.send_command.
  unfold bind at 1, sendall, write_fault, reliable, log. fold reliable. cbn [inbox eof mode now trace].
  unfold bind at 1.
  rewrite (normal_query_float_step _ _ _ _ s1 v1) by assumption.
  unfold bind at 1.
  rewrite (normal_query_float_step _ _ _ _ s2 v2) by assumption.
  unfold bind at 1.
  rewrite (normal_query_float_step _ _ _ _ s3 v3) by assumption.
  unfold ret. rewrite <- !app_assoc. reflexivity.
Qed.

(** A first reply that comes in two pieces: the second piece is taken for
    the origin, the reply to the second query for the reference, and the
    reply to the third query stays in the socket. *)
Lemma normal_prepare_channel_reads_scaling_witness :
  NormalMode.prepare_channel 3
    (mkWorld ((0, b_ "1") :: (5, b_ (String.append "5" NL))
              :: (0, b_ (String.append "7" NL))
              :: [(0, b_ (String.append "9" NL))])
             false (Timed 1000) 0 [])
  = (Ret (mkCal (PrimFloat.of_uint63 1) (PrimFloat.of_uint63 5)
                (PrimFloat.of_uint63 7)),
     mkWorld [(0, b_ (String.append "9" NL))] false (Timed 1000)
             (0 + Z.max 0 0 + Z.max 0 5 + Z.max 0 0)
             ([] ++ [Sent ("WAVeform:SOURce CHAN" ++ str_of_int 3);
                     Sent "WAVeform:YINC?"; Recv 4096;
                     Sent "WAVeform:YORigin?"; Recv 4096;
                     Sent "WAVeform:YREFerence?"; Recv 4096])).
Proof.
  apply (normal_prepare_channel_reads_scaling 3 0 5 0 1000
           (b_ "1") (b_ (String.append "5" NL)) (b_ (String.append "7" NL))
           (s_ "1") (s_ (String.append "5" NL)) (s_ (String.append "7" NL))
           (PrimFloat.of_uint63 1) (PrimFloat.of_uint63 5)
           (PrimFloat.of_uint63 7) [(0, b_ (String.append "9" NL))]
           false 0 []);
    try reflexivity; try lia; try (vm_compute; discriminate).
Defined.

(* ================================================================== *)
(** ** The time axis *)

Lemma len_time_axis (npts : Z) (xinc xorigin : float) :
  len (time_axis npts xinc xorigin) = Z.max 0 npts.
Proof.
  unfold time_axis, arange, len. rewrite !length_map, length_seq. lia.
Qed.

Lemma nth_time_axis (npts i : Z) (xinc xorigin : float) :
  0 <= i < npts ->
  nth_error (time_axis npts xinc xorigin) (Z.to_nat i)
  = Some (PrimFloat.add xorigin (PrimFloat.mul (of_index i) xinc)).
Proof.
  intros Hi. unfold time_axis, arange.
  rewrite !nth_error_map, nth_error_seq.
  destruct (Nat.ltb_spec (Z.to_nat i) (Z.to_nat npts)) as [_|?]; [|lia].
  cbn [option_map Nat.add]. rewrite Z2Nat.id by lia. reflexivity.
Qed.

(** X8: [get_timebase] of the normal-mode script, when each [recv] finds one
    segment of at most 4096 bytes within the socket's timeout: it selects
    channel 3 and asks for the number of points, the increment and the
    origin, in this order; the axis it returns has one instant per point,
    none when the instrument reports no points or a negative number, and the
    instant [i] is [xorigin + i * xinc] in float64 arithmetic. *)
Theorem normal_get_timebase_axis `{PyRuntime}
    (g1 g2 g3 t : Z) (r1 r2 r3 : bytes) (s1 s2 s3 : text)
    (npts : Z) (xinc xorigin : float) (rest : list segment) (e : bool)
    (nw : Z) (tr : list event) :
  len r1 <= 4096 -> len r2 <= 4096 -> len r3 <= 4096 ->
  g1 <= t -> g2 <= t -> g3 <= t ->
  utf8_decode r1 = Some s1 -> int_of_text (strip s1) = Some npts ->
  utf8_decode r2 = Some s2 -> float_of_text (strip s2) = Some xinc ->
  utf8_decode r3 = Some s3 -> float_of_text (strip s3) = Some xorigin ->
  exists times,
    NormalMode.get_timebase
      (mkWorld ((g1, r1) :: (g2, r2) :: (g3, r3) :: rest) e (Timed t) nw tr)
    = (Ret times,
       mkWorld rest e (Timed t) (nw + Z.max 0 g1 + Z.max 0 g2 + Z.max 0 g3)
               (tr ++ [Sent "WAVeform:SOURce CHAN3";
                       Sent "WAVeform:POINTs?"; Recv 4096;
                       Sent "WAVeform:XINC?"; Recv 4096;
                       Sent "WAVeform:XORigin?"; Recv 4096]))
    /\ len times = Z.max 0 npts
    /\ (forall i, 0 <= i < npts ->
                  nth_error times (Z.to_nat i)
                  = Some (PrimFloat.add xorigin
                            (PrimFloat.mul (of_index i) xinc))).
Proof.
  intros Hl1 Hl2 Hl3 Hg1 Hg2 Hg3 Hs1 Hn Hs2 Hv2 Hs3 Hv3.
  exists (time_axis npts xinc xorigin).
  split; [|split; [apply len_time_axis | intros i Hi; apply nth_time_axis, Hi]].
  unfold NormalMode.get_timebase, NormalMode.send_command.
  unfold bind at 1, sendall, write_fault, reliable, log. fold reliable. cbn [inbox eof mode now trace].
  unfold bind at 1.
  rewrite (normal_query_step _ _ _ _ s1) by assumption.
  unfold bind at 1. rewrite Hn. cbn [or_raise]. unfold ret at 1.
  unfold bind at 1.
  rewrite (normal_query_float_step _ _ _ _ s2 xinc) by assumption.
  unfold bind at 1.
  rewrite (normal_query_float_step _ _ _ _ s3 xorigin) by assumption.
  unfold ret. rewrite <- !app_assoc. reflexivity.
Qed.

(** Four points, 2 apart, from 10 on. *)
Lemma normal_get_timebase_axis_witness :
  exists times,
    NormalMode.get_timebase
      (mkWorld ((0, b_ (String.append "4" NL)) :: (0, b_ "2") :: (0, b_ "10")
                :: []) false (Timed 1000) 0 [])
    = (Ret times,
       mkWorld [] false (Timed 1000) (0 + Z.max 0 0 + Z.max 0 0 + Z.max 0 0)
               ([] ++ [Sent "WAVeform:SOURce CHAN3";
                       Sent "WAVeform:POINTs?"; Recv 4096;
                       Sent "WAVeform:XINC?"; Recv 4096;
                       Sent "WAVeform:XORigin?"; Recv 4096]))
    /\ len times = Z.max 0 4
    /\ (forall i, 0 <= i < 4 ->
                  nth_error times (Z.to_nat i)
                  = Some (PrimFloat.add (PrimFloat.of_uint63 10)
                            (PrimFloat.mul (of_index i)
                               (PrimFloat.of_uint63 2)))).
Proof.
  apply (normal_get_timebase_axis 0 0 0 1000
           (b_ (String.append "4" NL)) (b_ "2") (b_ "10")
           (s_ (String.append "4" NL)) (s_ "2") (s_ "10")
           4 (PrimFloat.of_uint63 2) (PrimFloat.of_uint63 10)
           [] false 0 []);
    try reflexivity; try lia; try (vm_compute; discriminate).
Defined.



(** The points query is not repeated: a reply that has not come 0.12 s after
    the query ends the run with the [ValueError] of [int] on the empty
    text. *)
Example max_timebase_points_read_once :
  fst (MaxMode.timebase 10
         (mkWorld [(0, b_ "2"); (0, b_ "10"); (200, b_ "1000")] false
                  (Timed 20000) 0 []))
  = Raise InvalidLiteral.
Proof. vm_compute. reflexivity. Qed.

(* ================================================================== *)
(** ** One pass of the max-mode loop *)

Lemma pending_nil_app (stale i : list segment) :
  pending stale = [] -> pending (stale ++ i) = pending i.
Proof.
  induction stale as [|[g bs] stale IH]; [reflexivity|].
  cbn [pending app]. destruct (g <=? 0); [exact IH|discriminate].
Qed.

(** [flush_socket] in front of a segment that is still on its way: it
    throws away the stale segments before it, in a number of reads that
    depends on them alone, and leaves the segment where it is. *)
Lemma drain_stale (fuel : nat) :
  forall stale : list segment,
    wf_inbox stale -> pending stale = [] ->
    (List.length (List.concat (map snd stale)) < fuel)%nat ->
    exists k, forall g bs rest e nw tr,
      0 < g ->
      MaxMode.drain fuel (mkWorld (stale ++ (g, bs) :: rest) e NonBlocking nw tr)
      = (Raise BlockingIOError,
         mkWorld ((g, bs) :: rest) e NonBlocking nw
                 (tr ++ repeat (Recv 4096) (S k))).
Proof.
  induction fuel as [|fuel IH]; intros stale Hwf Hp Hfuel; [lia|].
  destruct stale as [|[g0 bs0] stale].
  - exists 0%nat. intros g bs rest e nw tr Hg.
    cbn [MaxMode.drain app]. unfold bind, recv, log.
    change (4096 <? 0) with false. change (4096 =? 0) with false.
    cbn [inbox eof mode now trace].
    destruct (Z.leb_spec g 0); [lia|]. reflexivity.
  - cbn [pending] in Hp. destruct (Z.leb_spec g0 0) as [Hg0|Hg0];
      [|discriminate].
    inversion Hwf as [|? ? Hbs Hrest]; subst. simpl in Hbs.
    destruct (take_spec 4096 bs0 stale ltac:(lia) Hbs Hrest)
      as (Hne & Hs & Hwf' & Hp').
    assert (Ht : forall g bs rest,
               take 4096 bs0 (stale ++ (g, bs) :: rest)
               = (fst (take 4096 bs0 stale),
                  snd (take 4096 bs0 stale) ++ (g, bs) :: rest)).
    { intros g bs rest. unfold take. cbn [fst snd].
      destruct (skipn (Z.to_nat 4096) bs0); reflexivity. }
    destruct (take 4096 bs0 stale) as [chunk stale'] eqn:Et.
    cbn [fst snd] in *.
    destruct (IH stale') as (k & Hk).
    + exact Hwf'.
    + rewrite Hp'. exact Hp.
    + cbn [map snd List.concat] in Hfuel. rewrite Hs, length_app in Hfuel.
      destruct chunk; [congruence|]. simpl in Hfuel. lia.
    + exists (S k). intros g bs rest e nw tr Hg.
      cbn [MaxMode.drain app]. unfold bind, recv, log.
      change (4096 <? 0) with false. change (4096 =? 0) with false.
      cbn [inbox eof mode now trace].
      destruct (Z.leb_spec g0 0); [|lia].
      rewrite Ht. unfold set_inbox. cbn [inbox eof mode now trace].
      rewrite (Hk g bs rest e nw (tr ++ [Recv 4096]) Hg).
      rewrite <- app_assoc. reflexivity.
Qed.

Lemma flush_stale (fuel : nat) (stale : list segment) :
  wf_inbox stale -> pending stale = [] ->
  (List.length (List.concat (map snd stale)) < fuel)%nat ->
  exists k, forall g bs rest e m nw tr,
    0 < g ->
    MaxMode.flush_socket fuel (mkWorld (stale ++ (g, bs) :: rest) e m nw tr)
    = (Ret tt,
       mkWorld ((g, bs) :: rest) e Blocking nw
               (tr ++ repeat (Recv 4096) (S k))).
Proof.
  intros Hwf Hp Hfuel.
  destruct (drain_stale fuel stale Hwf Hp Hfuel) as (k & Hk).
  exists k. intros g bs rest e m nw tr Hg.
  unfold MaxMode.flush_socket, bind, settimeout, set_mode, finally, try_except.
  cbn [inbox eof mode now trace]. rewrite (Hk g bs rest e nw tr Hg).
  reflexivity.
Qed.

Section WholeBlocks.
Context `{PyRuntime}.

(** The decode of a buffer that holds the whole block reads nothing. *)
Lemma max_decode_block_whole (pre digits payload trailing : bytes) (d : byte)
      (fuel : nat) (w : world) :
  find hash pre = -1 ->
  valid_header d digits (len payload) ->
  MaxMode.decode_block fuel
    (pre ++ hash :: d :: digits ++ payload ++ trailing) (len pre) w
  = (Ret payload, w).
Proof.
  intros Hpre Hvalid.
  pose proof (len_nonneg pre) as Hlp. pose proof (len_nonneg digits) as Hld.
  pose proof (len_nonneg trailing) as Hlt.
  unfold MaxMode.decode_block.
  rewrite (read_header_valid pre digits (payload ++ trailing) d (len payload)
             Hvalid), bind_lift_inr.
  replace (pre ++ hash :: d :: digits ++ payload ++ trailing)
    with ((pre ++ hash :: d :: digits) ++ payload ++ trailing)
    by (rewrite <- app_assoc; reflexivity).
  replace (len pre + 2 + len digits) with (len (pre ++ hash :: d :: digits))
    by (rewrite len_app, !len_cons; lia).
  rewrite slice_from_app.
  destruct (Z.ltb_spec (len (payload ++ trailing)) (len payload)) as [Hlt'|_].
  { rewrite len_app in Hlt'. lia. }
  unfold bind, ret. rewrite slice_to_app. reflexivity.
Qed.

(** [get_waveform_data] on a response that comes whole, in one segment
    within reach of the timeout. *)
Lemma max_get_waveform_data_whole (pre digits payload trailing : bytes)
      (d : byte) (g : Z) (rest : list segment) (e : bool) (m : so_mode)
      (nw : Z) (tr : list event) (fuel : nat) (channel : Z)
      (c : calibration) :
  find hash pre = -1 ->
  valid_header d digits (len payload) ->
  len (pre ++ hash :: d :: digits ++ payload ++ trailing) < 4096 ->
  g <= 100 ->
  MaxMode.get_waveform_data (S fuel) channel c
    (mkWorld ((g, pre ++ hash :: d :: digits ++ payload ++ trailing) :: rest)
             e m nw tr)
  = (Ret (calibrate payload (yinc c) (yorigin c) (yref c)),
     mkWorld rest e (Timed 100) (nw + Z.max 0 g)
             (tr ++ [Sent ("WAVeform:SOURce CHAN" ++ str_of_int channel);
                     Sent "WAVeform:DATA?"; Recv 4096])).
Proof.
  intros Hpre Hvalid Hl Hg.
  pose proof (len_nonneg pre) as Hlp.
  set (blk := pre ++ hash :: d :: digits ++ payload ++ trailing) in *.
  assert (Hpos : 0 < len blk).
  { unfold blk. rewrite len_app, len_cons.
    pose proof (len_nonneg (d :: digits ++ payload ++ trailing)). lia. }
  unfold MaxMode.get_waveform_data. cbn [MaxMode.request_block].
  unfold MaxMode.send_command.
  unfold bind at 1, sendall, write_fault, reliable, log. fold reliable. cbn [inbox eof mode now trace].
  unfold bind at 1. unfold bind at 1, sendall, write_fault, reliable, log. fold reliable.
  cbn [inbox eof mode now trace].
  unfold bind at 1. rewrite max_receive_one by (try assumption; lia).
  assert (Hfind : find hash blk = len pre)
    by (apply find_app_present, Hpre).
  rewrite Hfind.
  destruct (Z.eqb_spec (len pre) (-1)) as [?|_]; [lia|].
  cbn [negb]. unfold ret at 1. unfold bind at 1.
  unfold blk. rewrite max_decode_block_whole by assumption.
  unfold ret. rewrite <- !app_assoc. reflexivity.
Qed.
End WholeBlocks.

Section RequestBlock.
Context `{PyRuntime}.

(** One attempt of the [for] loop of [get_waveform_data] on a response
    that comes whole and in time: without the marker it leads to the next
    attempt, 100 ms later, with the marker it ends the loop. *)
Lemma request_block_retry (reply : bytes) (g : Z) (rest : list segment)
      (e : bool) (m : so_mode) (nw : Z) (tr : list event) (fuel : nat)
      (channel : Z) (attempts : nat) :
  find hash reply = -1 -> 0 < len reply < 4096 -> g <= 100 ->
  MaxMode.request_block (S fuel) channel (S attempts)
    (mkWorld ((g, reply) :: rest) e m nw tr)
  = MaxMode.request_block (S fuel) channel attempts
      (elapse 100
         (mkWorld rest e (Timed 100) (nw + Z.max 0 g)
                  (tr ++ [Sent "WAVeform:DATA?"; Recv 4096; Slept 100]))).
Proof.
  intros Hf Hl Hg. cbn [MaxMode.request_block].
  unfold MaxMode.send_command. unfold bind at 1. unfold sendall at 1, write_fault, reliable, log. fold reliable.
  cbn [inbox eof mode now trace].
  unfold bind at 1. rewrite max_receive_one by assumption.
  rewrite Hf. change (-1 =? -1) with true. cbn [negb].
  unfold bind at 1. unfold sleep at 1, log.
  cbn [inbox eof mode now trace]. rewrite <- !app_assoc. reflexivity.
Qed.

Lemma request_block_found (reply : bytes) (g : Z) (rest : list segment)
      (e : bool) (m : so_mode) (nw : Z) (tr : list event) (fuel : nat)
      (channel : Z) (attempts : nat) :
  find hash reply <> -1 -> 0 < len reply < 4096 -> g <= 100 ->
  MaxMode.request_block (S fuel) channel (S attempts)
    (mkWorld ((g, reply) :: rest) e m nw tr)
  = (Ret (reply, find hash reply),
     mkWorld rest e (Timed 100) (nw + Z.max 0 g)
             (tr ++ [Sent "WAVeform:DATA?"; Recv 4096])).
Proof.
  intros Hf Hl Hg. cbn [MaxMode.request_block].
  unfold MaxMode.send_command. unfold bind at 1. unfold sendall at 1, write_fault, reliable, log. fold reliable.
  cbn [inbox eof mode now trace].
  unfold bind at 1. rewrite max_receive_one by assumption.
  destruct (Z.eqb_spec (find hash reply) (-1)) as [?|_]; [contradiction|].
  cbn [negb]. unfold ret. rewrite <- !app_assoc. reflexivity.
Qed.
End RequestBlock.

(** X19: a first response without the marker and a second one with a valid
    block, whole and in time: [get_waveform_data] of the max-mode script
    pauses 100 ms, asks again, and returns the payload of the second
    response. *)
Theorem max_get_waveform_data_second_attempt `{PyRuntime}
    (stale pre digits payload trailing : bytes) (d : byte) (g1 g2 : Z)
    (rest : list segment) (e : bool) (m : so_mode) (nw : Z)
    (tr : list event) (fuel : nat) (channel : Z) (c : calibration) :
  find hash stale = -1 -> 0 < len stale < 4096 ->
  g1 <= 100 -> g2 <= 200 ->
  find hash pre = -1 ->
  valid_header d digits (len payload) ->
  len (pre ++ hash :: d :: digits ++ payload ++ trailing) < 4096 ->
  MaxMode.get_waveform_data (S fuel) channel c
    (mkWorld ((g1, stale)
              :: (g2, pre ++ hash :: d :: digits ++ payload ++ trailing)
              :: rest) e m nw tr)
  = (Ret (calibrate payload (yinc c) (yorigin c) (yref c)),
     mkWorld rest e (Timed 100) (nw + Z.max 0 g1 + 100 + Z.max 0 (g2 - 100))
             (tr ++ [Sent ("WAVeform:SOURce CHAN" ++ str_of_int channel);
                     Sent "WAVeform:DATA?"; Recv 4096; Slept 100;
                     Sent "WAVeform:DATA?"; Recv 4096])).
Proof.
  intros Hstale Hls Hg1 Hg2 Hpre Hvalid Hl.
  pose proof (len_nonneg pre) as Hlp.
  set (blk := pre ++ hash :: d :: digits ++ payload ++ trailing) in *.
  assert (Hpos : 0 < len blk).
  { unfold blk. rewrite len_app, len_cons.
    pose proof (len_nonneg (d :: digits ++ payload ++ trailing)). lia. }
  assert (Hfind : find hash blk = len pre)
    by (apply find_app_present, Hpre).
  unfold MaxMode.get_waveform_data, MaxMode.send_command.
  unfold bind at 1. unfold sendall at 1, write_fault, reliable, log. fold reliable. cbn [inbox eof mode now trace].
  unfold bind at 1.
  rewrite request_block_retry by assumption.
  unfold elapse. cbn [inbox eof mode now trace].
  rewrite request_block_found by (try rewrite Hfind; lia).
  rewrite Hfind. unfold bind at 1.
  unfold blk. rewrite max_decode_block_whole by assumption.
  unfold ret. rewrite <- !app_assoc. reflexivity.
Qed.

(** A number first, then the block [#13abc]. *)
Lemma max_get_waveform_data_second_attempt_witness :
  MaxMode.get_waveform_data 1 3 unit_calibration
    (mkWorld ((0, stale_reply)
              :: (150, [] ++ hash :: x31 :: b_ "3" ++ b_ "abc" ++ b_ NL)
              :: []) false Blocking 0 [])
  = (Ret (calibrate (b_ "abc") (yinc unit_calibration)
            (yorigin unit_calibration) (yref unit_calibration)),
     mkWorld [] false (Timed 100) (0 + Z.max 0 0 + 100 + Z.max 0 (150 - 100))
             ([] ++ [Sent ("WAVeform:SOURce CHAN" ++ str_of_int 3);
                     Sent "WAVeform:DATA?"; Recv 4096; Slept 100;
                     Sent "WAVeform:DATA?"; Recv 4096])).
Proof.
  apply (max_get_waveform_data_second_attempt stale_reply [] (b_ "3")
           (b_ "abc") (b_ NL) x31 0 150 [] false Blocking 0 [] 0 3
           unit_calibration);
    try reflexivity; try lia; try (vm_compute; intuition congruence).
Defined.

(** X13: one pass of the acquisition loop of the max-mode script against an
    instrument that answers each query after it was sent: the status ['TD']
    to the first poll, within 0.1 s, and a valid block, whole and within
    0.1 s, to each data query.  Whatever stale segments lie in the socket
    when the pass begins and when channel 3 has been fetched, the two
    flushes throw them away: the pass arms, polls once, stops, fetches
    channel 3 and channel 4, and returns the two payloads, each calibrated
    with its channel's values. *)
Theorem max_acquire_one_round_trip `{PyRuntime}
    (stale1 stale2 : list segment) (g1 g3 g4 : Z) (r1 : bytes) (s1 : text)
    (pre3 digits3 payload3 trailing3 : bytes) (d3 : byte)
    (pre4 digits4 payload4 trailing4 : bytes) (d4 : byte)
    (rest : list segment) (e : bool) (m : so_mode) (nw : Z)
    (tr : list event) (fuel : nat) (c3 c4 : calibration) :
  wf_inbox stale1 -> pending stale1 = [] ->
  wf_inbox stale2 -> pending stale2 = [] ->
  (List.length (List.concat (map snd stale1)) <= fuel)%nat ->
  (List.length (List.concat (map snd stale2)) <= fuel)%nat ->
  0 < g1 <= 150 -> g3 <= 150 -> 0 < g4 <= 100 ->
  0 < len r1 < 4096 ->
  utf8_decode r1 = Some s1 -> text_eqb (strip s1) TD = true ->
  find hash pre3 = -1 -> valid_header d3 digits3 (len payload3) ->
  len (pre3 ++ hash :: d3 :: digits3 ++ payload3 ++ trailing3) < 4096 ->
  find hash pre4 = -1 -> valid_header d4 digits4 (len payload4) ->
  len (pre4 ++ hash :: d4 :: digits4 ++ payload4 ++ trailing4) < 4096 ->
  exists k1 k2,
    MaxMode.acquire_one (S fuel) c3 c4
      (mkWorld
         (stale1
          ++ (g1, r1)
          :: (g3, pre3 ++ hash :: d3 :: digits3 ++ payload3 ++ trailing3)
          :: stale2
          ++ (g4, pre4 ++ hash :: d4 :: digits4 ++ payload4 ++ trailing4)
          :: rest) e m nw tr)
    = (Ret (calibrate payload3 (yinc c3) (yorigin c3) (yref c3),
            calibrate payload4 (yinc c4) (yorigin c4) (yref c4)),
       mkWorld rest e (Timed 100)
               (nw + 50 + Z.max 0 (g1 - 50) + 50 + Z.max 0 (g3 - 50)
                + Z.max 0 g4)
               (tr ++ repeat (Recv 4096) (S k1)
                   ++ [Slept 50; Sent ":SINGle";
                       Sent "TRIGger:STATus?"; Recv 4096;
                       Sent ":STOP"; Slept 50;
                       Sent "WAVeform:SOURce CHAN3"; Sent "WAVeform:DATA?";
                       Recv 4096]
                   ++ repeat (Recv 4096) (S k2)
                   ++ [Sent "WAVeform:SOURce CHAN4"; Sent "WAVeform:DATA?";
                       Recv 4096])).
Proof.
  intros Hwf1 Hp1 Hwf2 Hp2 Hf1 Hf2 Hg1 Hg3 Hg4 Hl1 Hs1 Htd
         Hpre3 Hv3 Hl3 Hpre4 Hv4 Hl4.
  destruct (flush_stale (S fuel) stale1 Hwf1 Hp1 ltac:(lia)) as (k1 & Hk1).
  destruct (flush_stale (S fuel) stale2 Hwf2 Hp2 ltac:(lia)) as (k2 & Hk2).
  exists k1, k2.
  unfold MaxMode.acquire_one, MaxMode.send_command.
  unfold bind at 1. rewrite Hk1 by lia.
  unfold bind at 1, sleep, elapse, log. cbn [inbox eof mode now trace].
  unfold bind at 1, sendall, write_fault, reliable, log. fold reliable. cbn [inbox eof mode now trace].
  unfold bind at 1, MaxMode.wait_for_trigger, bind at 1, perf_counter.
  cbn [inbox eof mode now trace].
  rewrite (max_wait_fired _ _ s1) by (try assumption; lia).
  unfold bind at 1, sendall, write_fault, reliable, log. fold reliable. cbn [inbox eof mode now trace].
  unfold bind at 1, sleep, elapse, log. cbn [inbox eof mode now trace].
  unfold bind at 1.
  rewrite max_get_waveform_data_whole by (try assumption; lia).
  unfold bind at 1. rewrite Hk2 by lia.
  unfold bind at 1.
  rewrite max_get_waveform_data_whole by (try assumption; lia).
  unfold ret. change (str_of_int 3) with "3". change (str_of_int 4) with "4".
  cbn [String.append]. rewrite <- !app_assoc. reflexivity.
Qed.

(** A stale line in the socket at the start, the trigger 60 ms after the
    flush, the block [#13abc] for channel 3 with its newline in a segment of
    its own, and the block [#13def] for channel 4. *)
Lemma max_acquire_one_round_trip_witness :
  exists k1 k2,
    MaxMode.acquire_one 9 unit_calibration unit_calibration
      (mkWorld
         ([(0, b_ "stale")]
          ++ (60, TD_reply)
          :: (60, [] ++ hash :: x31 :: b_ "3" ++ b_ "abc" ++ [])
          :: [(0, b_ NL)]
          ++ (10, [] ++ hash :: x31 :: b_ "3" ++ b_ "def" ++ [])
          :: []) true (Timed 20000) 0 [])
    = (Ret (calibrate (b_ "abc") (yinc unit_calibration)
              (yorigin unit_calibration) (yref unit_calibration),
            calibrate (b_ "def") (yinc unit_calibration)
              (yorigin unit_calibration) (yref unit_calibration)),
       mkWorld [] true (Timed 100)
               (0 + 50 + Z.max 0 (60 - 50) + 50 + Z.max 0 (60 - 50)
                + Z.max 0 10)
               ([] ++ repeat (Recv 4096) (S k1)
                   ++ [Slept 50; Sent ":SINGle";
                       Sent "TRIGger:STATus?"; Recv 4096;
                       Sent ":STOP"; Slept 50;
                       Sent "WAVeform:SOURce CHAN3"; Sent "WAVeform:DATA?";
                       Recv 4096]
                   ++ repeat (Recv 4096) (S k2)
                   ++ [Sent "WAVeform:SOURce CHAN4"; Sent "WAVeform:DATA?";
                       Recv 4096])).
Proof.
  apply (max_acquire_one_round_trip [(0, b_ "stale")] [(0, b_ NL)]
           60 60 10 TD_reply (s_ (String.append "TD" NL))
           [] (b_ "3") (b_ "abc") [] x31 [] (b_ "3") (b_ "def") [] x31
           [] true (Timed 20000) 0 [] 8 unit_calibration unit_calibration);
    try reflexivity; try lia;
    try (repeat constructor; discriminate);
    try (vm_compute; intuition congruence).
Defined.

(* ================================================================== *)
(** ** The exceptions of [rigolDAQ.py] *)









Section BasicErrors.
Context `{PyRuntime} `{Link}.




End BasicErrors.



(** Each of these exceptions is met, and so is the read that blocks. *)
Example basic_errors_met :
  fst (Basic.acquire 5 1 number_for_block)
  = Raise (ValueError "Data block not found")
  /\ fst (Basic.acquire 5 1
            (serving [String.append "TD" NL; "1"; "0"; "0"; "#0"] Blocking))
     = Raise InvalidLiteral
  /\ fst (Basic.acquire 5 1 (mkWorld [(0, [xff])] true Blocking 0 []))
     = Raise UnicodeDecodeError
  /\ fst (@Basic.acquire integer_runtime (hangs_up_after 1) 5 1
            (idle Blocking))
     = Raise BrokenPipeError
  /\ fst (Basic.acquire 5 1 (silence Blocking)) = Hang.
Proof. repeat split; vm_compute; reflexivity. Qed.
